(** * ghost-agent oracle: a shallow embedding of [oracle/ghost_oracle.py],
    [oracle/cra_audit.py] and [oracle/utils.py], and the properties of the
    intent-processing pipeline proved about it.

    The Python code talks to four outside parties: the chain node (through
    web3), the off-chain payload store and the risk service (through
    requests), and the wall clock.  Their answers are not part of the
    program, so every function below is written against an environment
    [Env W] over an arbitrary world type [W]; a theorem stated for every
    [W] and every environment holds whatever those parties answer.

    Python's control effects are kept as they are written: a call either
    returns or raises, updates the module-level [processed] set, and leaves a
    trace of the outside calls and prints it made, in order. *)

From Stdlib Require Import ZArith QArith Qround Lqa String Ascii List Bool Lia HexString.
From stdpp Require Import base gmap sets strings.

Import ListNotations.
Open Scope Z_scope.

(** ** Python values as they come out of [resp.json()] *)

(** [bytes] objects (intent hashes, signatures, raw transactions). *)
Definition bytes := string.

#[warnings="-register-all"]
Inductive value : Type :=
| VNone
| VBool (b : bool)
| VInt (n : Z)
| VFloat (q : Q)
| VStr (s : string)
| VList (l : list value)
| VDict (d : list (string * value)).

(** The exceptions the code can meet.  All of them derive from Python's
    [Exception], so an [except Exception] clause catches every one. *)
Inductive exn : Type :=
| KeyError (key : string)
| TypeError
| ValueError
| AttributeError
| OverflowError
| ConnectionError
| Timeout
| HTTPError (status : Z)
| JSONDecodeError
| Web3Error (code : Z)
| RuntimeError (function_name : string) (status : Z)
| SaltMismatch.

Inductive outcome (A : Type) : Type :=
| Ok (a : A)
| Raise (e : exn).
Arguments Ok {A} a.
Arguments Raise {A} e.

Definition is_ok {A} (o : outcome A) : bool :=
  match o with Ok _ => true | Raise _ => false end.

(** *** Dictionaries

    A [VDict] stands for a Python [dict], whose keys are distinct; should a
    list repeat a key, its first binding is the one looked up. *)

Fixpoint dict_lookup (d : list (string * value)) (k : string) : option value :=
  match d with
  | [] => None
  | (k', v) :: rest => if String.eqb k k' then Some v else dict_lookup rest k
  end.

(** [payload.get(k, default)]: only a dict has [.get]. *)
Definition py_get (payload : value) (k : string) (default : value) : outcome value :=
  match payload with
  | VDict d => Ok (match dict_lookup d k with Some v => v | None => default end)
  | _ => Raise AttributeError
  end.

(** [payload[k]] with a string key. *)
Definition py_getitem (payload : value) (k : string) : outcome value :=
  match payload with
  | VDict d => match dict_lookup d k with Some v => Ok v | None => Raise (KeyError k) end
  | _ => Raise TypeError
  end.

(** *** What the interpreter supplies

    [int(s)] and [s.upper()] on a [str] are the interpreter's own: what
    they accept and return rests on its Unicode tables and on its limit on
    the digits of an integer string.  They are left open here, so that what
    is proved holds of every interpreter, the one that runs the oracle
    included.  A [str] is kept as the bytes of its UTF-8 encoding. *)
Class Interpreter : Type := {
  int_of_str : string -> option Z;
  upper : string -> string;
  upper_empty : upper "" = ""%string
}.

(** *** [int(x)]

    [int_of_str s] is [int(s)], with [None] for the [ValueError] of a
    string it rejects.  A float is a finite rational here (NaN and the
    infinities are left out). *)

(** Truncation toward zero, as [int] does on a float. *)
Definition Qtrunc (q : Q) : Z := Z.quot (Qnum q) (Zpos (Qden q)).

Definition py_int {py : Interpreter} (v : value) : outcome Z :=
  match v with
  | VInt n => Ok n
  | VBool b => Ok (if b then 1 else 0)
  | VFloat q => Ok (Qtrunc q)
  | VStr s => match int_of_str s with Some n => Ok n | None => Raise ValueError end
  | VNone | VList _ | VDict _ => Raise TypeError
  end.

(** *** [country.upper()] and [score < 70] *)

Definition py_upper {py : Interpreter} (v : value) : outcome string :=
  match v with
  | VStr s => Ok (upper s)
  | _ => Raise AttributeError
  end.

Definition Qlt_bool (x y : Q) : bool := negb (Qle_bool y x).

(** [v < n] for an integer [n]: defined on numbers (a bool is a number),
    a [TypeError] elsewhere. *)
Definition py_lt_int (v : value) (n : Z) : outcome bool :=
  match v with
  | VInt k => Ok (k <? n)
  | VBool b => Ok ((if b then 1 else 0) <? n)
  | VFloat q => Ok (Qlt_bool q (inject_Z n))
  | VNone | VStr _ | VList _ | VDict _ => Raise TypeError
  end.

(** *** [w3.to_hex] *)

Definition hex_digit (n : N) : ascii :=
  match n with
  | 0%N => "0" | 1%N => "1" | 2%N => "2" | 3%N => "3" | 4%N => "4" | 5%N => "5"
  | 6%N => "6" | 7%N => "7" | 8%N => "8" | 9%N => "9" | 10%N => "a"
  | 11%N => "b" | 12%N => "c" | 13%N => "d" | 14%N => "e" | _ => "f"
  end%char.

Fixpoint hex_of_bytes (b : bytes) : string :=
  match b with
  | EmptyString => EmptyString
  | String c rest =>
      String (hex_digit (N_of_ascii c / 16)) (String (hex_digit (N_of_ascii c mod 16)) (hex_of_bytes rest))
  end.

(** [w3.to_hex(b)] for a [bytes] argument. *)
Definition to_hex (b : bytes) : string := String.append "0x" (hex_of_bytes b).

(** [w3.to_hex(v)] for a value taken from a JSON payload: booleans and
    integers are encoded, a [str] and everything else is a [TypeError]. *)
Definition to_hex_value (v : value) : outcome string :=
  match v with
  | VBool b => Ok (if b then "0x1" else "0x0")%string
  | VInt n => Ok (HexString.of_Z n)
  | VNone | VFloat _ | VStr _ | VList _ | VDict _ => Raise TypeError
  end.

(** ** The audit configuration *)

Record config : Type := {
  allowed_countries : gset string;
  max_amount_wei : Z;
  time_window_seconds : Z;
  risk_api : string;
  risk_api_key : option string
}.

(** [CRA_CONFIG] of [ghost_oracle.py]; the key is
    [os.getenv("RISK_API_KEY", "")], a string that is empty when unset. *)
Definition CRA_CONFIG (RISK_API_KEY : option string) : config := {|
  allowed_countries := {["US"; "CA"; "GB"; "DE"]}%string;
  max_amount_wei := 10 ^ 18;
  time_window_seconds := 300;
  risk_api := "https://api.riskservice.io/check";
  risk_api_key := Some (match RISK_API_KEY with Some k => k | None => ""%string end)
|}.

(** [not api_key]: [None] and the empty string are falsy. *)
Definition key_unset (k : option string) : bool :=
  match k with
  | None => true
  | Some s => String.eqb s ""
  end.

Definition bearer_of (k : option string) : string :=
  match k with
  | Some s => String.append "Bearer " s
  | None => "Bearer None"%string
  end.

(** ** Chain data *)

Record transaction : Type := {
  tx_function : string;
  tx_args : list bytes;
  tx_nonce : Z;
  tx_gasPrice : Z;
  tx_gas : option Z
}.

Definition set_gas (tx : transaction) (g : Z) : transaction :=
  {| tx_function := tx_function tx; tx_args := tx_args tx; tx_nonce := tx_nonce tx;
     tx_gasPrice := tx_gasPrice tx; tx_gas := Some g |}.

Record receipt : Type := { status : Z; gasUsed : Z }.

(** An [IntentDeclared] log entry; [event["args"]["intentHash"]] is
    [intentHash]. *)
Record log_entry : Type := { intentHash : bytes; declarer : bytes; blockNumber : Z }.

Record response : Type := { status_code : Z; json_body : option value }.

(** ** Double-precision arithmetic

    [int(estimated * 1.2)] converts the integer estimate to a double,
    multiplies by the double nearest to 1.2 and truncates;
    [time.time() - ts] converts the integer timestamp to a double and
    subtracts.  A non-negative double is written [(m, ex)] for [m * 2^ex];
    rounding is to nearest, ties to even, on 53 bits. *)
Module Float.

(** [m / 2^s] rounded to nearest, ties to even ([0 < s]). *)
Definition half_even_shiftr (m s : Z) : Z :=
  let q := Z.shiftr m s in
  let r := m - Z.shiftl q s in
  let half := Z.shiftl 1 (s - 1) in
  if r <? half then q
  else if half <? r then q + 1
  else if Z.even q then q else q + 1.

Definition round53 (m ex : Z) : Z * Z :=
  let b := Z.log2 m in
  if b <=? 52 then (m, ex)
  else (half_even_shiftr m (b - 52), ex + (b - 52)).

(** The value is [2^1024] or more: not a finite double. *)
Definition overflows (x : Z * Z) : bool :=
  (0 <? fst x) && (1024 <=? Z.log2 (fst x) + snd x).

(** The double nearest to 1.2, [0x3FF3333333333333]. *)
Definition one_point_two : Z * Z := (5404319552844595, -52).

Definition mul (x y : Z * Z) : Z * Z :=
  round53 (fst x * fst y) (snd x + snd y).

(** [int(x)] for a finite non-negative double. *)
Definition trunc (x : Z * Z) : Z :=
  if 0 <=? snd x then Z.shiftl (fst x) (snd x) else Z.shiftr (fst x) (- snd x).

(** A finite double: [man * 2^expo], with a significand of at most 53 bits
    and an exponent in the range of the format (the least is that of the
    subnormals, the greatest that of the largest finite double). *)
Definition is_double (m e : Z) : bool :=
  (Z.abs m <? 2 ^ 53) && (-1074 <=? e) && (e <=? 971).

Record double : Type := Double {
  man : Z;
  expo : Z;
  double_wf : is_double man expo = true
}.

(** [m * 2^e] as a rational. *)
Definition value (m e : Z) : Q :=
  if 0 <=? e then inject_Z (m * 2 ^ e) else Qmake m (Z.to_pos (2 ^ (- e))).

Definition to_Q (d : double) : Q := value (man d) (expo d).

Definition zero : double := Double 0 0 eq_refl.

(** The double [m * 2^e]; the zero double when the pair is not one. *)
Definition make (m e : Z) : double :=
  match is_double m e as b return is_double m e = b -> double with
  | true => fun H => Double m e H
  | false => fun _ => zero
  end eq_refl.

(** A rational is the value of a double. *)
Definition representable (q : Q) : Prop := exists d : double, (to_Q d == q)%Q.

(** [float(n)] for a Python [int], as the subtraction from a float makes
    it: the nearest double, which is an integer, and an [OverflowError]
    when that is not finite. *)
Definition of_int (n : Z) : outcome Z :=
  let x := round53 (Z.abs n) 0 in
  if overflows x then Raise OverflowError
  else Ok (Z.sgn n * Z.shiftl (fst x) (snd x)).

(** What a subtraction of doubles gives: [m * 2^e], or an infinity. *)
Inductive xfloat : Type :=
| Finite (m e : Z)
| PInf
| NInf.

(** [a - b] for a double [a] and an integral double [b]: the exact
    difference [d * 2^e], rounded to 53 bits; a result too large is an
    infinity, not an exception. *)
Definition sub (a : double) (b : Z) : xfloat :=
  let e := Z.min (expo a) 0 in
  let d := man a * 2 ^ (expo a - e) - b * 2 ^ (- e) in
  let x := round53 (Z.abs d) e in
  if overflows x then (if 0 <? d then PInf else NInf)
  else Finite (Z.sgn d * fst x) (snd x).

(** [x <= n] for a float [x] and a Python [int] [n]: Python compares the
    two exactly. *)
Definition le_int (x : xfloat) (n : Z) : bool :=
  match x with
  | Finite m e => if 0 <=? e then m * 2 ^ e <=? n else m <=? n * 2 ^ (- e)
  | PInf => false
  | NInf => true
  end.

End Float.

Coercion Float.to_Q : Float.double >-> Q.

(** [int(estimated * 1.2)] *)
Definition gas_with_margin (estimated : Z) : outcome Z :=
  let x := Float.round53 (Z.abs estimated) 0 in
  if Float.overflows x then Raise OverflowError
  else
    let p := Float.mul x Float.one_point_two in
    if Float.overflows p then Raise OverflowError
    else Ok (Z.sgn estimated * Float.trunc p).

(** ** Traces *)

Inductive stream : Type := stdout | stderr.

Inductive message : Type :=
| MsgRiskFailed (e : exn)
| MsgCheck (name : string) (passed : bool)
| MsgAuditError (intent_hex : string) (e : exn)
| MsgNewIntent (intent_hex : string)
| MsgAuditFailed
| MsgSent (function_name : string) (tx_hex : string)
| MsgMined (function_name : string) (gas_used : Z)
| MsgExecutionError (e : exn)
| MsgMonitoringError (e : exn).

(** What a run leaves behind, in order: every outside call with the answer
    it got, the lines printed, the additions to [processed], and a marker
    at the entry of each check function and of [handle_intent]. *)
Inductive event : Type :=
| EvEnter (function_name : string)
| EvHandle (intent_hash : bytes)
| EvHttpGet (url : string) (reply : outcome response)
| EvHttpPost (url : string) (body : value) (authorization : string) (reply : outcome response)
| EvTime (t : Q)
| EvSaltCall (reply : outcome string)
| EvSignHash (intent_hash : bytes) (reply : outcome bytes)
| EvGetTransactionCount (reply : outcome Z)
| EvGasPrice (reply : outcome Z)
| EvBuildTransaction (function_name : string) (args : list bytes) (nonce gasPrice : Z)
    (reply : outcome transaction)
| EvEstimateGas (tx : transaction) (reply : outcome Z)
| EvSignTransaction (tx : transaction) (reply : outcome bytes)
| EvSendRawTransaction (raw : bytes) (reply : outcome bytes)
| EvWaitReceipt (tx_hash : bytes) (reply : outcome receipt)
| EvCreateFilter (reply : outcome Z)
| EvGetNewEntries (filter_id : Z) (reply : outcome (list log_entry))
| EvPrint (to : stream) (m : message)
| EvProcessedAdd (intent_hash : bytes).

(** ** The outside world *)

Record Env (W : Type) : Type := {
  requests_get : string -> W -> outcome response * W;
  requests_post : string -> value -> string -> W -> outcome response * W;
  time_time : W -> Float.double * W;
  datetime_now : W -> Q * W;
  CONTRACT_SALT : W -> outcome string * W;
  sign_hash : bytes -> W -> outcome bytes * W;
  get_transaction_count : W -> outcome Z * W;
  gas_price : W -> outcome Z * W;
  build_transaction : string -> list bytes -> Z -> Z -> W -> outcome transaction * W;
  estimate_gas : transaction -> W -> outcome Z * W;
  sign_transaction : transaction -> W -> outcome bytes * W;
  send_raw_transaction : bytes -> W -> outcome bytes * W;
  wait_for_transaction_receipt : bytes -> W -> outcome receipt * W;
  create_filter : W -> outcome Z * W;
  get_new_entries : Z -> W -> outcome (list log_entry) * W
}.
Arguments requests_get {W} _ _ _.
Arguments requests_post {W} _ _ _ _ _.
Arguments time_time {W} _ _.
Arguments datetime_now {W} _ _.
Arguments CONTRACT_SALT {W} _ _.
Arguments sign_hash {W} _ _ _.
Arguments get_transaction_count {W} _ _.
Arguments gas_price {W} _ _.
Arguments build_transaction {W} _ _ _ _ _ _.
Arguments estimate_gas {W} _ _ _.
Arguments sign_transaction {W} _ _ _.
Arguments send_raw_transaction {W} _ _ _.
Arguments wait_for_transaction_receipt {W} _ _ _.
Arguments create_filter {W} _ _.
Arguments get_new_entries {W} _ _ _.

(** ** The effect monad: state, exceptions, trace *)

Record store (W : Type) : Type := Store { world : W; processed : gset bytes }.
Arguments Store {W} _ _.
Arguments world {W} _.
Arguments processed {W} _.

Record result (W A : Type) : Type := Result {
  res : outcome A;
  trace : list event;
  final : store W
}.
Arguments Result {W A} _ _ _.
Arguments res {W A} _.
Arguments trace {W A} _.
Arguments final {W A} _.

Definition M (W A : Type) : Type := store W -> result W A.

Definition ret {W A} (a : A) : M W A := fun s => Result (Ok a) [] s.

Definition raise {W A} (e : exn) : M W A := fun s => Result (Raise e) [] s.

Definition bind {W A B} (m : M W A) (f : A -> M W B) : M W B := fun s =>
  let r := m s in
  match res r with
  | Ok a => let r' := f a (final r) in Result (res r') (trace r ++ trace r') (final r')
  | Raise e => Result (Raise e) (trace r) (final r)
  end.

(** [try: m  except Exception as e: h e] *)
Definition try_except {W A} (m : M W A) (h : exn -> M W A) : M W A := fun s =>
  let r := m s in
  match res r with
  | Ok a => r
  | Raise e => let r' := h e (final r) in Result (res r') (trace r ++ trace r') (final r')
  end.

Definition lift {W A} (o : outcome A) : M W A := fun s => Result o [] s.

Definition emit {W} (e : event) : M W unit := fun s => Result (Ok tt) [e] s.

(** An outside call: answered by the world, and logged with its answer. *)
Definition call {W A} (e : outcome A -> event) (f : W -> outcome A * W) : M W A := fun s =>
  let '(o, w) := f (world s) in Result o [e o] (Store w (processed s)).

Definition get_processed {W} : M W (gset bytes) := fun s => Result (Ok (processed s)) [] s.

(** [processed.add(h)] *)
Definition processed_add {W} (h : bytes) : M W unit := fun s =>
  Result (Ok tt) [EvProcessedAdd h] (Store (world s) ({[h]} ∪ processed s)).

Declare Scope py_scope.
Delimit Scope py_scope with py.
Notation "x <- m ;; k" := (bind m (fun x => k))
  (at level 100, m at level 99, k at level 200, right associativity) : py_scope.
Notation "m ;; k" := (bind m (fun _ => k))
  (at level 100, k at level 200, right associativity) : py_scope.
Open Scope py_scope.

(** ** [oracle/ghost_oracle.py] *)
Module GhostOracle.
Section Program.
Context {W : Type} {py : Interpreter} (env : Env W) (cfg : config).

Definition print (to : stream) (m : message) : M W unit := emit (EvPrint to m).

(** [resp.raise_for_status()] *)
Definition raise_for_status (r : response) : M W unit :=
  if (400 <=? status_code r) && (status_code r <? 600)
  then raise (HTTPError (status_code r))
  else ret tt.

(** [resp.json()] *)
Definition json (r : response) : M W value :=
  match json_body r with
  | Some v => ret v
  | None => raise JSONDecodeError
  end.

(** [time.time()]: the reading is a double. *)
Definition time : M W Float.double := fun s =>
  let '(t, w) := time_time env (world s) in
  Result (Ok t) [EvTime t] (Store w (processed s)).

Definition fetch_intent_payload (intent_hash : bytes) : M W value :=
  let url := String.append "https://your-backend.example.com/intents/" (to_hex intent_hash) in
  resp <- call (EvHttpGet url) (requests_get env url) ;;
  raise_for_status resp ;;
  json resp.

(** [time.time() - ts] is a subtraction of doubles: the integer [ts] is
    converted first, which can raise, and the difference is rounded.  The
    comparison of the age with the integer window is exact. *)
Definition _check_timestamp (payload : value) : M W bool :=
  emit (EvEnter "_check_timestamp") ;;
  v <- lift (py_get payload "timestamp" (VInt 0)) ;;
  ts <- lift (py_int v) ;;
  now <- time ;;
  ts_float <- lift (Float.of_int ts) ;;
  let age := Float.sub now ts_float in
  ret (Float.le_int age (time_window_seconds cfg)).

Definition _check_amount (payload : value) : M W bool :=
  emit (EvEnter "_check_amount") ;;
  v <- lift (py_get payload "amountWei" (VInt 0)) ;;
  amount <- lift (py_int v) ;;
  ret (amount <=? max_amount_wei cfg).

Definition _check_geography (payload : value) : M W bool :=
  emit (EvEnter "_check_geography") ;;
  v <- lift (py_get payload "originCountry" (VStr "")) ;;
  country <- lift (py_upper v) ;;
  ret (bool_decide (country ∈ allowed_countries cfg)).

Definition _check_external_risk (payload : value) : M W bool :=
  emit (EvEnter "_check_external_risk") ;;
  let api_key := risk_api_key cfg in
  if key_unset api_key then ret true
  else
    try_except
      (h <- lift (py_getitem payload "intentHash") ;;
       hx <- lift (to_hex_value h) ;;
       metadata <- lift (py_get payload "metadata" (VDict [])) ;;
       let body := VDict [("intentHash"%string, VStr hx); ("metadata"%string, metadata)] in
       r <- call (EvHttpPost (risk_api cfg) body (bearer_of api_key))
                 (requests_post env (risk_api cfg) body (bearer_of api_key)) ;;
       raise_for_status r ;;
       reply <- json r ;;
       score <- lift (py_get reply "riskScore" (VInt 0)) ;;
       lift (py_lt_int score 70))
      (fun e => print stderr (MsgRiskFailed e) ;; ret false).

(** [for name, ok in checks.items(): print(...); if not ok: return False]
    and the [return True] after the loop. *)
Fixpoint report_checks (checks : list (string * bool)) : M W bool :=
  match checks with
  | [] => ret true
  | (name, ok) :: rest =>
      print stdout (MsgCheck name ok) ;;
      if negb ok then ret false else report_checks rest
  end.

(** The dict literal [checks = {...}]: its four values are computed in
    the order written, before the loop starts. *)
Definition checks_dict (payload : value) : M W (list (string * bool)) :=
  c_timestamp <- _check_timestamp payload ;;
  c_amount <- _check_amount payload ;;
  c_geography <- _check_geography payload ;;
  c_externalRisk <- _check_external_risk payload ;;
  ret [("timestamp"%string, c_timestamp); ("amount"%string, c_amount);
       ("geography"%string, c_geography); ("externalRisk"%string, c_externalRisk)].

Definition perform_cra_audit (intent_hash : bytes) : M W bool :=
  try_except
    (payload <- fetch_intent_payload intent_hash ;;
     checks <- checks_dict payload ;;
     report_checks checks)
    (fun exc => print stderr (MsgAuditError (to_hex intent_hash) exc) ;; ret false).

Definition sign_intent (intent_hash : bytes) : M W bytes :=
  call (EvSignHash intent_hash) (sign_hash env intent_hash).

(** [getattr(ghost_contract.functions, function_name)] only looks the
    function up; the node is first asked at [get_transaction_count]. *)
Definition execute_tx (function_name : string) (intent_hash : bytes)
    (signature : option bytes) : M W unit :=
  let args := intent_hash :: match signature with Some sig => [sig] | None => [] end in
  nonce <- call EvGetTransactionCount (get_transaction_count env) ;;
  price <- call EvGasPrice (gas_price env) ;;
  tx <- call (EvBuildTransaction function_name args nonce price)
             (build_transaction env function_name args nonce price) ;;
  estimated <- call (EvEstimateGas tx) (estimate_gas env tx) ;;
  gas <- lift (gas_with_margin estimated) ;;
  let tx := set_gas tx gas in
  raw <- call (EvSignTransaction tx) (sign_transaction env tx) ;;
  tx_hash <- call (EvSendRawTransaction raw) (send_raw_transaction env raw) ;;
  print stdout (MsgSent function_name (to_hex tx_hash)) ;;
  receipt <- call (EvWaitReceipt tx_hash) (wait_for_transaction_receipt env tx_hash) ;;
  if negb (status receipt =? 1)
  then raise (RuntimeError function_name (status receipt))
  else print stdout (MsgMined function_name (gasUsed receipt)).

(** [handle_intent], with the two module-level names it looks up at call
    time ([sign_intent] and [execute_tx]) as parameters. *)
Definition handle_intent_with
    (sign_intent : bytes -> M W bytes)
    (execute_tx : string -> bytes -> option bytes -> M W unit)
    (event : log_entry) : M W unit :=
  let intent_hash := intentHash event in
  emit (EvHandle intent_hash) ;;
  seen <- get_processed ;;
  if bool_decide (intent_hash ∈ seen) then ret tt
  else
    print stdout (MsgNewIntent (to_hex intent_hash)) ;;
    passed <- perform_cra_audit intent_hash ;;
    if negb passed
    then print stdout MsgAuditFailed ;; processed_add intent_hash
    else
      sig <- sign_intent intent_hash ;;
      try_except
        (execute_tx "verifyIntent"%string intent_hash (Some sig) ;;
         execute_tx "seizeAssets"%string intent_hash None)
        (fun exc => print stderr (MsgExecutionError exc)) ;;
      processed_add intent_hash.

(** [handle_intent] as the module runs it: both names are its own. *)
Definition handle_intent : log_entry -> M W unit :=
  handle_intent_with sign_intent execute_tx.

(** [for ev in entries: handle_intent(ev)] *)
Fixpoint for_each (entries : list log_entry) (body : log_entry -> M W unit) : M W unit :=
  match entries with
  | [] => ret tt
  | ev :: rest => body ev ;; for_each rest body
  end.

Definition monitor_job : M W unit :=
  try_except
    (flt <- call EvCreateFilter (create_filter env) ;;
     entries <- call (EvGetNewEntries flt) (get_new_entries env flt) ;;
     for_each entries handle_intent)
    (fun exc => print stderr (MsgMonitoringError exc)).

(** What happens outside the process while it sleeps between two ticks. *)
Definition world_step (f : W -> W) : M W unit := fun s =>
  Result (Ok tt) [] (Store (f (world s)) (processed s)).

(** [start_scheduler]: the job runs on an interval with
    [max_instances=1], so ticks never overlap; a run of the process is a
    sequence of ticks, each preceded by whatever the world did meanwhile. *)
Fixpoint scheduler (between : list (W -> W)) : M W unit :=
  match between with
  | [] => ret tt
  | f :: rest => world_step f ;; monitor_job ;; scheduler rest
  end.

End Program.
End GhostOracle.

(** ** [oracle/utils.py] *)
Module Utils.
Section Program.
Context {W : Type} (env : Env W).

Definition OFFICIAL_SALT : string := "0xC0RYM1LL3R_GHOST_AGENT_2025_1234567890abcdef".

Definition check_contract_salt : M W bool :=
  contract_salt <- call EvSaltCall (CONTRACT_SALT env) ;;
  if negb (String.eqb contract_salt OFFICIAL_SALT)
  then raise SaltMismatch
  else ret true.

Definition sign_intent (intent_hash : bytes) : M W bytes :=
  check_contract_salt ;;
  call (EvSignHash intent_hash) (sign_hash env intent_hash).

(** [if signature:] is false for [None] and for empty [bytes]. *)
Definition truthy (signature : option bytes) : option bytes :=
  match signature with
  | Some EmptyString => None
  | other => other
  end.

Definition execute_tx (function_name : string) (intent_hash : bytes)
    (signature : option bytes) : M W unit :=
  check_contract_salt ;;
  let args := intent_hash :: match truthy signature with Some sig => [sig] | None => [] end in
  nonce <- call EvGetTransactionCount (get_transaction_count env) ;;
  price <- call EvGasPrice (gas_price env) ;;
  tx <- call (EvBuildTransaction function_name args nonce price)
             (build_transaction env function_name args nonce price) ;;
  estimated <- call (EvEstimateGas tx) (estimate_gas env tx) ;;
  gas <- lift (gas_with_margin estimated) ;;
  let tx := set_gas tx gas in
  raw <- call (EvSignTransaction tx) (sign_transaction env tx) ;;
  tx_hash <- call (EvSendRawTransaction raw) (send_raw_transaction env raw) ;;
  GhostOracle.print stdout (MsgSent function_name (to_hex tx_hash)) ;;
  receipt <- call (EvWaitReceipt tx_hash) (wait_for_transaction_receipt env tx_hash) ;;
  if negb (status receipt =? 1)
  then raise (RuntimeError function_name (status receipt))
  else ret tt.

End Program.
End Utils.

(** ** [oracle/cra_audit.py] *)
Module CraAudit.

Definition CRA_CONFIG : config := {|
  allowed_countries := {["US"; "CA"; "GB"; "DE"]}%string;
  max_amount_wei := 10 ^ 18;
  time_window_seconds := 300;
  risk_api := "https://api.riskservice.io/check";
  risk_api_key := None
|}.

Section Program.
Context {W : Type} {py : Interpreter} (env : Env W) (cfg : config).

(** [datetime.fromisoformat], read as the number of seconds between the
    epoch and the parsed date and time taken as UTC (the code overrides the
    zone with [replace(tzinfo=timezone.utc)]); [None] is the [ValueError]
    of a string that is not in ISO format.  The parser is the standard
    library's and is left open here. *)
Variable fromisoformat : string -> option Q.

Definition py_fromisoformat (v : value) : outcome Q :=
  match v with
  | VStr s => match fromisoformat s with Some t => Ok t | None => Raise ValueError end
  | _ => Raise TypeError
  end.

(** The same text as in [ghost_oracle.py]. *)
Definition fetch_intent_payload : bytes -> M W value :=
  GhostOracle.fetch_intent_payload env.

(** [datetime.now(timezone.utc)], in seconds since the epoch: a
    [datetime] counts whole microseconds, so the reading is an exact
    rational and so is its difference with another [datetime]. *)
Definition utcnow : M W Q := fun s =>
  let '(t, w) := datetime_now env (world s) in
  Result (Ok t) [EvTime t] (Store w (processed s)).

Definition _check_timestamp (payload : value) : M W bool :=
  emit (EvEnter "_check_timestamp") ;;
  v <- lift (py_getitem payload "timestamp") ;;
  ts <- lift (py_fromisoformat v) ;;
  now <- utcnow ;;
  let age := (now - ts)%Q in
  ret (Qle_bool age (inject_Z (time_window_seconds cfg))).

(** The same text as in [ghost_oracle.py]. *)
Definition _check_amount : value -> M W bool := GhostOracle._check_amount cfg.

(** The same text as in [ghost_oracle.py]. *)
Definition _check_geography : value -> M W bool := GhostOracle._check_geography cfg.

Definition _check_external_risk (payload : value) : M W bool :=
  emit (EvEnter "_check_external_risk") ;;
  let api_key := risk_api_key cfg in
  if key_unset api_key then ret true
  else
    try_except
      (h <- lift (py_getitem payload "intentHash") ;;
       hx <- lift (to_hex_value h) ;;
       metadata <- lift (py_get payload "metadata" (VDict [])) ;;
       let body := VDict [("intentHash"%string, VStr hx); ("metadata"%string, metadata)] in
       resp <- call (EvHttpPost (risk_api cfg) body (bearer_of api_key))
                    (requests_post env (risk_api cfg) body (bearer_of api_key)) ;;
       GhostOracle.raise_for_status resp ;;
       reply <- GhostOracle.json resp ;;
       score <- lift (py_get reply "riskScore" (VInt 0)) ;;
       lift (py_lt_int score 70))
      (fun e => GhostOracle.print stdout (MsgRiskFailed e) ;; ret false).

Definition checks_dict (payload : value) : M W (list (string * bool)) :=
  c_timestamp <- _check_timestamp payload ;;
  c_amount <- _check_amount payload ;;
  c_geography <- _check_geography payload ;;
  c_externalRisk <- _check_external_risk payload ;;
  ret [("timestamp"%string, c_timestamp); ("amount"%string, c_amount);
       ("geography"%string, c_geography); ("externalRisk"%string, c_externalRisk)].

Definition perform_cra_audit (intent_hash : bytes) : M W bool :=
  try_except
    (payload <- fetch_intent_payload intent_hash ;;
     checks <- checks_dict payload ;;
     GhostOracle.report_checks checks)
    (fun exc => GhostOracle.print stdout (MsgAuditError (to_hex intent_hash) exc) ;; ret false).

End Program.
End CraAudit.

(** ** A simulated world

    A small concrete environment for running the code on explicit inputs:
    the HTTP services, the clock and the signer give fixed answers, and the
    node keeps its mined blocks and its installed log filters. *)
Module Sim.

Record node : Type := {
  blocks : list (list log_entry);   (* mined blocks, oldest first *)
  cursors : list nat                (* per filter: blocks already reported *)
}.

Record answers : Type := {
  payload_reply : outcome response;
  now : Q;
  risk_reply : outcome response;
  salt : outcome string;
  signature : outcome bytes;
  estimate : outcome Z;
  receipt_status : string -> Z;
  latest_inclusive : bool
}.

Definition genesis : node := {| blocks := []; cursors := [] |}.

(** A block is mined. *)
Definition mine (b : list log_entry) (w : node) : node :=
  {| blocks := blocks w ++ [b]; cursors := cursors w |}.

(** [create_filter(fromBlock="latest")]: the new filter starts at the
    head of the chain.  Nodes differ on whether the entries of the head
    block itself are reported; [inclusive] chooses. *)
Definition new_filter (inclusive : bool) (w : node) : outcome Z * node :=
  let head := length (blocks w) in
  let start := if inclusive then Nat.pred head else head in
  (Ok (Z.of_nat (length (cursors w))),
   {| blocks := blocks w; cursors := cursors w ++ [start] |}).

Fixpoint set_nth (l : list nat) (i v : nat) : list nat :=
  match l, i with
  | [], _ => []
  | _ :: rest, O => v :: rest
  | x :: rest, S j => x :: set_nth rest j v
  end.

(** [get_new_entries()]: the entries logged since the filter was last
    polled (or installed). *)
Definition filter_changes (id : Z) (w : node) : outcome (list log_entry) * node :=
  match nth_error (cursors w) (Z.to_nat id) with
  | Some start =>
      (Ok (concat (skipn start (blocks w))),
       {| blocks := blocks w; cursors := set_nth (cursors w) (Z.to_nat id) (length (blocks w)) |})
  | None => (Raise (Web3Error (-32000)), w)
  end.

(** An interpreter for the examples.  It reads a string of ASCII
    characters as CPython 3.11 does: blanks around (tab to carriage return,
    and the space), an optional sign, decimal digits with single underscores
    between digits, and at most 4300 digits; it maps the ASCII letters to
    upper case.  A string with any other byte is rejected by its [int], and
    such bytes are left alone by its [upper]. *)
Definition is_space (c : ascii) : bool :=
  let n := N_of_ascii c in
  (((9 <=? n) && (n <=? 13)) || (n =? 32))%N.

Fixpoint lstrip (s : list ascii) : list ascii :=
  match s with
  | c :: rest => if is_space c then lstrip rest else s
  | [] => []
  end.

Definition strip (s : list ascii) : list ascii :=
  rev (lstrip (rev (lstrip s))).

Definition digit_of (c : ascii) : option Z :=
  let n := N_of_ascii c in
  if ((48 <=? n) && (n <=? 57))%N then Some (Z.of_N n - 48) else None.

(** Decimal digits, with single underscores allowed between two digits. *)
Fixpoint parse_digits (acc : Z) (after_digit : bool) (s : list ascii) : option Z :=
  match s with
  | [] => if after_digit then Some acc else None
  | c :: rest =>
      match digit_of c with
      | Some d => parse_digits (10 * acc + d) true rest
      | None =>
          if Ascii.eqb c "_"%char && after_digit
          then parse_digits acc false rest
          else None
      end
  end.

Definition digits_of (s : list ascii) : nat :=
  length (List.filter (fun c => match digit_of c with Some _ => true | None => false end) s).

Definition ascii_int (s : string) : option Z :=
  let body := strip (list_ascii_of_string s) in
  if (4300 <? digits_of body)%nat then None
  else
    match body with
    | c :: rest =>
        if Ascii.eqb c "-"%char then option_map Z.opp (parse_digits 0 false rest)
        else if Ascii.eqb c "+"%char then parse_digits 0 false rest
        else parse_digits 0 false (c :: rest)
    | [] => None
    end.

Definition upper_ascii (c : ascii) : ascii :=
  let n := N_of_ascii c in
  if ((97 <=? n) && (n <=? 122))%N then ascii_of_N (n - 32) else c.

Fixpoint ascii_upper (s : string) : string :=
  match s with
  | EmptyString => EmptyString
  | String c rest => String (upper_ascii c) (ascii_upper rest)
  end.

#[global] Instance python : Interpreter | 100 := {|
  int_of_str := ascii_int;
  upper := ascii_upper;
  upper_empty := eq_refl
|}.

(** The double the simulated clock shows at the time [q]: the nearest one
    (to within [2^-60]), and the zero double out of range. *)
Definition clock (q : Q) : Float.double :=
  let x := Float.round53 (Z.abs (Qnum q) * 2 ^ 60 / Zpos (Qden q)) (-60) in
  if fst x =? 2 ^ 53 then Float.make (Z.sgn (Qnum q) * 2 ^ 52) (snd x + 1)
  else Float.make (Z.sgn (Qnum q) * fst x) (snd x).

Definition env (a : answers) : Env node := {|
  requests_get := fun _ w => (payload_reply a, w);
  requests_post := fun _ _ _ w => (risk_reply a, w);
  time_time := fun w => (clock (now a), w);
  datetime_now := fun w => (now a, w);
  CONTRACT_SALT := fun w => (salt a, w);
  sign_hash := fun _ w => (signature a, w);
  get_transaction_count := fun w => (Ok 7, w);
  gas_price := fun w => (Ok 1000000000, w);
  build_transaction := fun fn args nonce price w =>
    (Ok {| tx_function := fn; tx_args := args; tx_nonce := nonce;
           tx_gasPrice := price; tx_gas := None |}, w);
  estimate_gas := fun _ w => (estimate a, w);
  sign_transaction := fun tx w => (Ok (tx_function tx), w);
  send_raw_transaction := fun raw w => (Ok raw, w);
  wait_for_transaction_receipt := fun tx_hash w =>
    (Ok {| status := receipt_status a tx_hash; gasUsed := 21000 |}, w);
  create_filter := new_filter (latest_inclusive a);
  get_new_entries := filter_changes
|}.

Definition start (w : node) : store node := Store w ∅.

Definition ok_json (v : value) : outcome response :=
  Ok {| status_code := 200; json_body := Some v |}.

(** A payload that passes the four checks at time 1000010 with no risk
    key: ten seconds old, one wei, from Canada. *)
Definition good_payload : value :=
  VDict [("timestamp"%string, VInt 1000000); ("amountWei"%string, VInt 1);
         ("originCountry"%string, VStr "ca"); ("intentHash"%string, VInt 5)].

Definition good : answers := {|
  payload_reply := ok_json good_payload;
  now := 1000010 # 1;
  risk_reply := ok_json (VDict [("riskScore"%string, VInt 10)]);
  salt := Ok (Utils.OFFICIAL_SALT);
  signature := Ok "sig"%string;
  estimate := Ok 100000;
  receipt_status := fun _ => 1;
  latest_inclusive := false
|}.

Definition at_time (t : Q) (a : answers) : answers := {|
  payload_reply := payload_reply a; now := t; risk_reply := risk_reply a;
  salt := salt a; signature := signature a; estimate := estimate a;
  receipt_status := receipt_status a; latest_inclusive := latest_inclusive a |}.

Definition with_payload (p : outcome response) (a : answers) : answers := {|
  payload_reply := p; now := now a; risk_reply := risk_reply a;
  salt := salt a; signature := signature a; estimate := estimate a;
  receipt_status := receipt_status a; latest_inclusive := latest_inclusive a |}.

Definition with_risk (r : outcome response) (a : answers) : answers := {|
  payload_reply := payload_reply a; now := now a; risk_reply := r;
  salt := salt a; signature := signature a; estimate := estimate a;
  receipt_status := receipt_status a; latest_inclusive := latest_inclusive a |}.

Definition with_salt (v : outcome string) (a : answers) : answers := {|
  payload_reply := payload_reply a; now := now a; risk_reply := risk_reply a;
  salt := v; signature := signature a; estimate := estimate a;
  receipt_status := receipt_status a; latest_inclusive := latest_inclusive a |}.

Definition with_signature (v : outcome bytes) (a : answers) : answers := {|
  payload_reply := payload_reply a; now := now a; risk_reply := risk_reply a;
  salt := salt a; signature := v; estimate := estimate a;
  receipt_status := receipt_status a; latest_inclusive := latest_inclusive a |}.

Definition with_estimate (e : outcome Z) (a : answers) : answers := {|
  payload_reply := payload_reply a; now := now a; risk_reply := risk_reply a;
  salt := salt a; signature := signature a; estimate := e;
  receipt_status := receipt_status a; latest_inclusive := latest_inclusive a |}.

Definition with_receipts (f : string -> Z) (a : answers) : answers := {|
  payload_reply := payload_reply a; now := now a; risk_reply := risk_reply a;
  salt := salt a; signature := signature a; estimate := estimate a;
  receipt_status := f; latest_inclusive := latest_inclusive a |}.

Definition with_latest (inclusive : bool) (a : answers) : answers := {|
  payload_reply := payload_reply a; now := now a; risk_reply := risk_reply a;
  salt := salt a; signature := signature a; estimate := estimate a;
  receipt_status := receipt_status a; latest_inclusive := inclusive |}.

(** The risk key of the examples that configure one. *)
Definition keyed : config := CRA_CONFIG (Some "k"%string).

Definition entry (h : bytes) (n : Z) : log_entry :=
  {| intentHash := h; declarer := "declarer"; blockNumber := n |}.

(** The blocks mined while the process sleeps between two ticks. *)
Definition mined (bs : list (list log_entry)) (w : node) : node :=
  {| blocks := blocks w ++ bs; cursors := cursors w |}.

(** The head block of the chain at each tick of a run that starts from
    [chain] and sees the blocks of [schedule] arrive, one batch before each
    tick. *)
Fixpoint tick_heads (chain : list (list log_entry)) (schedule : list (list (list log_entry)))
    : list (list log_entry) :=
  match schedule with
  | [] => []
  | bs :: rest => List.last (chain ++ bs) [] :: tick_heads (chain ++ bs) rest
  end.

(** What a filter created now reports when it is polled at once. *)
Definition fresh_entries (inclusive : bool) (w : node) : list log_entry :=
  concat (skipn (if inclusive then Nat.pred (length (blocks w)) else length (blocks w))
                (blocks w)).

End Sim.

(** * Vocabulary of the statements *)

(** [int(payload.get("timestamp", 0))], the timestamp the check reads. *)
Definition timestamp_of {py : Interpreter} (payload : value) : outcome Z :=
  match py_get payload "timestamp" (VInt 0) with
  | Ok v => py_int v
  | Raise e => Raise e
  end.

(** The JSON body the risk check posts, or the exception met while
    building it. *)
Definition risk_request (payload : value) : outcome value :=
  match py_getitem payload "intentHash" with
  | Raise e => Raise e
  | Ok h =>
      match to_hex_value h with
      | Raise e => Raise e
      | Ok hx =>
          match py_get payload "metadata" (VDict []) with
          | Raise e => Raise e
          | Ok metadata =>
              Ok (VDict [("intentHash"%string, VStr hx); ("metadata"%string, metadata)])
          end
      end
  end.

(** [r.raise_for_status()] lets the status through. *)
Definition status_ok (r : response) : bool :=
  negb ((400 <=? status_code r) && (status_code r <? 600)).

(** [score < 70] holds (and is defined). *)
Definition below_70 (score : value) : bool :=
  match py_lt_int score 70 with
  | Ok b => b
  | Raise _ => false
  end.

(** The score the check reads from a reply object: its [riskScore]
    field, or 0 when there is none. *)
Definition score_of (d : list (string * value)) : value :=
  match dict_lookup d "riskScore" with
  | Some v => v
  | None => VInt 0
  end.

(** The claim's reading of a reply: it passes only if it carries a numeric
    risk score, and that score is below 70. *)
Definition spec_reply_passes (reply : outcome response) : bool :=
  match reply with
  | Raise _ => false
  | Ok r =>
      status_ok r &&
      match json_body r with
      | Some (VDict d) =>
          match dict_lookup d "riskScore" with
          | Some score => below_70 score
          | None => false
          end
      | _ => false
      end
  end.

(** The gas limit in the claim's words: [ceil(estimated * 1.2)]. *)
Definition spec_gas_limit (estimated : Z) : Z :=
  Qceiling (inject_Z estimated * (12 # 10)).

(** The check functions a trace enters, in order. *)
Definition entered (t : list event) : list string :=
  omap (fun e => match e with EvEnter name => Some name | _ => None end) t.

(** The check results a trace prints, in order. *)
Definition reported (t : list event) : list (string * bool) :=
  omap (fun e => match e with
                 | EvPrint _ (MsgCheck name passed) => Some (name, passed)
                 | _ => None
                 end) t.

(** The risk-service requests a trace makes. *)
Definition risk_posts (t : list event) : list value :=
  omap (fun e => match e with EvHttpPost _ body _ _ => Some body | _ => None end) t.

(** The entries of [checks] up to and including the first failed one. *)
Fixpoint up_to_first_failure (checks : list (string * bool)) : list (string * bool) :=
  match checks with
  | [] => []
  | (name, ok) :: rest =>
      (name, ok) :: (if ok then up_to_first_failure rest else [])
  end.

Definition check_names : list string :=
  ["_check_timestamp"; "_check_amount"; "_check_geography"; "_check_external_risk"]%string.

(** [m] leaves [processed] alone and emits only events of class [p]. *)
Definition quiet {W A} (p : event -> bool) (m : M W A) : Prop :=
  forall s, Forall (fun e => p e = true) (trace (m s)) /\
            processed (final (m s)) = processed s.

(** The events of an audit. *)
Definition audit_event (e : event) : bool :=
  match e with
  | EvEnter _ | EvHttpGet _ _ | EvHttpPost _ _ _ _ | EvTime _ => true
  | EvPrint _ (MsgCheck _ _) | EvPrint _ (MsgRiskFailed _) | EvPrint _ (MsgAuditError _ _) => true
  | _ => false
  end.

(** The events of [sign_intent]: the signature itself and, in
    [utils.py], the salt check before it. *)
Definition sign_event (e : event) : bool :=
  match e with
  | EvSignHash _ _ | EvSaltCall _ => true
  | _ => false
  end.

(** The events of [execute_tx] called for the contract function [fn]. *)
Definition tx_event (fn : string) (e : event) : bool :=
  match e with
  | EvSaltCall _ | EvGetTransactionCount _ | EvGasPrice _ | EvEstimateGas _ _
  | EvSignTransaction _ _ | EvSendRawTransaction _ _ | EvWaitReceipt _ _ => true
  | EvBuildTransaction fn' _ _ _ _ => String.eqb fn' fn
  | EvPrint _ (MsgSent fn' _) | EvPrint _ (MsgMined fn' _) => String.eqb fn' fn
  | _ => false
  end.

(** A signature was asked for, a transaction was sent, the salt was read. *)
Definition is_sign_hash (e : event) : bool :=
  match e with EvSignHash _ _ => true | _ => false end.

Definition is_send (e : event) : bool :=
  match e with EvSendRawTransaction _ _ => true | _ => false end.

Definition is_salt_call (e : event) : bool :=
  match e with EvSaltCall _ => true | _ => false end.

(** Each call of [execute_tx] starts by reading the nonce, so the nonce
    reads of a trace count the submissions attempted. *)
Definition is_nonce_read (e : event) : bool :=
  match e with EvGetTransactionCount _ => true | _ => false end.

Definition tx_attempts (t : list event) : nat := length (List.filter is_nonce_read t).

(** The intents handed to [handle_intent], in order. *)
Definition handled (t : list event) : list bytes :=
  omap (fun e => match e with EvHandle h => Some h | _ => None end) t.

(** The additions to [processed], in order. *)
Definition added (t : list event) : list bytes :=
  omap (fun e => match e with EvProcessedAdd h => Some h | _ => None end) t.


(** [m] leaves the part [view] of the world as it was. *)
Definition steady {W X A} (view : W -> X) (m : M W A) : Prop :=
  forall s, view (world (final (m s))) = view (world s).

(** The exception an outside call answered with, if it did. *)
Definition failure_of (e : event) : option exn :=
  match e with
  | EvHttpGet _ (Raise x) | EvHttpPost _ _ _ (Raise x) | EvSaltCall (Raise x)
  | EvSignHash _ (Raise x) | EvGetTransactionCount (Raise x) | EvGasPrice (Raise x)
  | EvBuildTransaction _ _ _ _ (Raise x) | EvEstimateGas _ (Raise x)
  | EvSignTransaction _ (Raise x) | EvSendRawTransaction _ (Raise x)
  | EvWaitReceipt _ (Raise x) | EvCreateFilter (Raise x) | EvGetNewEntries _ (Raise x) =>
      Some x
  | _ => None
  end.

(** A filter was asked for. *)
Definition is_create_filter (e : event) : bool :=
  match e with EvCreateFilter _ => true | _ => false end.

(** The world of [env], on a node that refuses to install a filter. *)
Definition refusing_filters {W} (x : exn) (env : Env W) : Env W := {|
  requests_get := requests_get env;
  requests_post := requests_post env;
  time_time := time_time env;
  datetime_now := datetime_now env;
  CONTRACT_SALT := CONTRACT_SALT env;
  sign_hash := sign_hash env;
  get_transaction_count := get_transaction_count env;
  gas_price := gas_price env;
  build_transaction := build_transaction env;
  estimate_gas := estimate_gas env;
  sign_transaction := sign_transaction env;
  send_raw_transaction := send_raw_transaction env;
  wait_for_transaction_receipt := wait_for_transaction_receipt env;
  create_filter := fun w => (Raise x, w);
  get_new_entries := get_new_entries env
|}.

(** * Theorems *)

(** ** The effect monad *)
Section MonadFacts.
Context {W : Type} {py : Interpreter}.

Lemma bind_ok {A B} (m : M W A) (f : A -> M W B) (s : store W) (a : A) :
  res (m s) = Ok a ->
  bind m f s =
    Result (res (f a (final (m s))))
           (trace (m s) ++ trace (f a (final (m s))))
           (final (f a (final (m s)))).
Proof. intros H. unfold bind. now rewrite H. Qed.

Lemma bind_raise {A B} (m : M W A) (f : A -> M W B) (s : store W) (e : exn) :
  res (m s) = Raise e ->
  bind m f s = Result (Raise e) (trace (m s)) (final (m s)).
Proof. intros H. unfold bind. now rewrite H. Qed.

(** A handler that cannot raise makes the whole [try] statement total. *)
Lemma try_except_returns {A} (m : M W A) (h : exn -> M W A) :
  (forall e s, exists a, res (h e s) = Ok a) ->
  forall s, exists a, res (try_except m h s) = Ok a.
Proof.
  intros Hh s. unfold try_except.
  destruct (res (m s)) as [a|e] eqn:E.
  - exists a. exact E.
  - destruct (Hh e (final (m s))) as [a Ha]. exists a. exact Ha.
Qed.

End MonadFacts.

(** Stepping through a sequence of statements. *)
Section Steps.
Context {W : Type} {py : Interpreter}.

Lemma bind_call {A B} (e : outcome A -> event) (f : W -> outcome A * W)
    (k : A -> M W B) (s : store W) :
  bind (call e f) k s =
    match fst (f (world s)) with
    | Ok a =>
        let r := k a (Store (snd (f (world s))) (processed s)) in
        Result (res r) (e (Ok a) :: trace r) (final r)
    | Raise x => Result (Raise x) [e (Raise x)] (Store (snd (f (world s))) (processed s))
    end.
Proof.
  unfold bind, call. destruct (f (world s)) as [[a|x] w]; reflexivity.
Qed.

Lemma bind_lift {A B} (o : outcome A) (k : A -> M W B) (s : store W) :
  bind (lift o) k s =
    match o with
    | Ok a => k a s
    | Raise x => Result (Raise x) [] s
    end.
Proof.
  unfold bind, lift. destruct o as [a|x]; cbn; [|reflexivity].
  now destruct (k a s).
Qed.

Lemma bind_emit {B} (e : event) (k : unit -> M W B) (s : store W) :
  bind (emit e) k s =
    Result (res (k tt s)) (e :: trace (k tt s)) (final (k tt s)).
Proof. reflexivity. Qed.

Lemma bind_ret {A B} (a : A) (k : A -> M W B) (s : store W) :
  bind (ret a) k s = k a s.
Proof. unfold bind, ret. cbn. now destruct (k a s). Qed.

End Steps.

(** ** Doubles *)
Section FloatFacts.

Lemma pow2_pos (k : Z) : 0 < 2 ^ k \/ (k < 0 /\ 2 ^ k = 0).
Proof.
  destruct (Z.leb_spec 0 k).
  - left. now apply Z.pow_pos_nonneg.
  - right. split; [assumption|]. now apply Z.pow_neg_r.
Qed.

Lemma pos_pow2 (k : Z) : 0 <= k -> Z.pos (Z.to_pos (2 ^ k)) = 2 ^ k.
Proof. intros H. apply Z2Pos.id. now apply Z.pow_pos_nonneg. Qed.

(** [value m e], brought to the denominator [2^K]. *)
Lemma value_scaled (m e K : Z) :
  0 <= K -> 0 <= e + K ->
  (Float.value m e == Qmake (m * 2 ^ (e + K)) (Z.to_pos (2 ^ K)))%Q.
Proof.
  intros HK HeK. unfold Float.value, Qeq. 
  destruct (Z.leb_spec 0 e) as [He|He]; cbn [Qnum Qden inject_Z].
  - rewrite pos_pow2 by assumption. rewrite Z.pow_add_r by assumption. ring.
  - rewrite !pos_pow2 by lia.
    replace K with ((e + K) + - e) at 1 by ring.
    rewrite Z.pow_add_r by lia. ring.
Qed.

Lemma value_eq_iff (m e m' e' K : Z) :
  0 <= K -> 0 <= e + K -> 0 <= e' + K ->
  (Float.value m e == Float.value m' e')%Q <-> m * 2 ^ (e + K) = m' * 2 ^ (e' + K).
Proof.
  intros HK H1 H2.
  rewrite (value_scaled m e K), (value_scaled m' e' K) by assumption.
  unfold Qeq. cbn [Qnum Qden]. rewrite pos_pow2 by assumption.
  assert (0 < 2 ^ K) by now apply Z.pow_pos_nonneg.
  split; intros H3; [|now rewrite H3].
  apply Z.mul_cancel_r in H3; [exact H3|lia].
Qed.

Lemma value_le_iff (m e n : Z) :
  Float.le_int (Float.Finite m e) n = true <-> (Float.value m e <= inject_Z n)%Q.
Proof.
  unfold Float.le_int, Float.value, Qle.
  destruct (Z.leb_spec 0 e) as [He|He]; cbn [Qnum Qden inject_Z].
  - rewrite Z.leb_le. lia.
  - rewrite Z.leb_le, pos_pow2 by lia. lia.
Qed.

Lemma value_scale (q s e : Z) :
  0 <= s -> (Float.value (q * 2 ^ s) e == Float.value q (e + s))%Q.
Proof.
  intros Hs. set (K := Z.max 0 (- e)).
  apply (value_eq_iff _ _ _ _ K); try lia.
  replace (e + s + K) with (s + (e + K)) by ring.
  rewrite (Z.pow_add_r 2 s) by lia. ring.
Qed.

Lemma value_sgn (d q e : Z) :
  (Float.value (Z.sgn d * q) e == inject_Z (Z.sgn d) * Float.value q e)%Q.
Proof.
  unfold Float.value, Qeq, Qmult.
  destruct (0 <=? e); cbn [Qnum Qden inject_Z]; rewrite Pos.mul_1_l; ring.
Qed.


(** Rounding to 53 bits leaves the value of a double as it is. *)
Lemma round53_exact (n e m k : Z) :
  0 <= m < 2 ^ 53 -> 0 <= k -> n = m * 2 ^ k ->
  exists q s,
    Float.round53 n e = (q, e + s) /\ 0 <= s /\ n = q * 2 ^ s /\
    0 <= q < 2 ^ 53 /\ (s = 0 \/ 2 ^ 52 <= q).
Proof.
  intros Hm Hk Hn. unfold Float.round53.
  assert (H2k : 0 < 2 ^ k) by now apply Z.pow_pos_nonneg.
  assert (Hn0 : 0 <= n) by nia.
  destruct (Z.leb_spec (Z.log2 n) 52) as [Hb|Hb].
  - exists n, 0. rewrite Z.add_0_r, Z.mul_1_r. repeat split; auto; try lia.
    destruct (Z.eq_dec n 0) as [->|Hnz]; [lia|].
    assert (n < 2 ^ 53); [|lia].
    apply Z.log2_lt_pow2; lia.
  - set (b := Z.log2 n) in *. set (s := b - 52).
    assert (Hnpos : 0 < n).
    { destruct (Z.eq_dec n 0) as [E|E]; [|lia]. subst b. rewrite E in Hb. cbn in Hb. lia. }
    destruct (Z.log2_spec n Hnpos) as [Hlo Hhi]. fold b in Hlo, Hhi.
    assert (Hks : s <= k).
    { assert (2 ^ b < 2 ^ (53 + k)).
      { rewrite Z.pow_add_r by lia. nia. }
      apply Z.pow_lt_mono_r_iff in H; lia. }
    assert (Hs : 0 < s) by (unfold s; lia).
    assert (Hdiv : n = (m * 2 ^ (k - s)) * 2 ^ s).
    { rewrite <- Z.mul_assoc, <- Z.pow_add_r by lia.
      replace (k - s + s) with k by ring. exact Hn. }
    set (q := m * 2 ^ (k - s)) in *.
    assert (H2s : 0 < 2 ^ s) by (apply Z.pow_pos_nonneg; lia).
    assert (Hq : Z.shiftr n s = q).
    { rewrite Z.shiftr_div_pow2 by lia. rewrite Hdiv. apply Z.div_mul. lia. }
    assert (Hhes : Float.half_even_shiftr n s = q).
    { unfold Float.half_even_shiftr. rewrite Hq, Z.shiftl_mul_pow2 by lia.
      rewrite <- Hdiv, Z.sub_diag.
      assert (0 < Z.shiftl 1 (s - 1)).
      { rewrite Z.shiftl_mul_pow2 by lia. rewrite Z.mul_1_l. apply Z.pow_pos_nonneg; lia. }
      destruct (Z.ltb_spec 0 (Z.shiftl 1 (s - 1))); [reflexivity|lia]. }
    assert (Hq0 : 0 <= q).
    { unfold q. apply Z.mul_nonneg_nonneg; [lia|]. apply Z.pow_nonneg. lia. }
    assert (Hq1 : q < 2 ^ 53).
    { assert (H : q * 2 ^ s < 2 ^ (b + 1)) by (unfold Z.succ in Hhi; lia).
      replace (b + 1) with (53 + s) in H by (unfold s; ring).
      rewrite Z.pow_add_r in H by lia. nia. }
    assert (Hq2 : 2 ^ 52 <= q).
    { assert (H : 2 ^ b <= q * 2 ^ s) by lia.
      replace b with (52 + s) in H at 1 by (unfold s; ring).
      rewrite Z.pow_add_r in H by lia. nia. }
    exists q, s. rewrite Hhes. repeat split; auto; lia.
Qed.



(** The exact difference that [Float.sub] rounds. *)
Lemma sub_exact (a : Float.double) (b : Z) :
  let e := Z.min (Float.expo a) 0 in
  let d := Float.man a * 2 ^ (Float.expo a - e) - b * 2 ^ (- e) in
  (Float.value d e == Float.to_Q a - inject_Z b)%Q.
Proof.
  intros e d. subst d. unfold Float.to_Q, Float.value.
  destruct (Z.leb_spec 0 (Float.expo a)) as [He|He].
  - assert (E : e = 0) by (unfold e; lia). rewrite E, Z.sub_0_r.
    change (- 0) with 0. rewrite Z.pow_0_r, Z.mul_1_r.
    destruct (Z.leb_spec 0 0); [|lia].
    unfold Qeq, Qminus, Qplus, Qopp. cbn [Qnum Qden inject_Z].
    rewrite ?Pos.mul_1_r, ?Z.mul_1_r. ring.
  - assert (E : e = Float.expo a) by (unfold e; lia). rewrite E.
    destruct (Z.leb_spec 0 (Float.expo a)); [lia|].
    rewrite Z.sub_diag, Z.mul_1_r.
    unfold Qeq, Qminus, Qplus, Qopp. cbn [Qnum Qden inject_Z].
    rewrite Pos.mul_1_r, pos_pow2 by lia. ring.
Qed.

Lemma double_bounds (d : Float.double) :
  Z.abs (Float.man d) < 2 ^ 53 /\ -1074 <= Float.expo d <= 971.
Proof.
  pose proof (Float.double_wf d) as H. unfold Float.is_double in H.
  apply andb_prop in H. destruct H as [H H3]. apply andb_prop in H. destruct H as [H1 H2].
  apply Z.ltb_lt in H1. apply Z.leb_le in H2. apply Z.leb_le in H3. lia.
Qed.

(** When the exact difference is itself a double, the subtraction returns
    it. *)
Lemma sub_representable (a : Float.double) (b : Z) :
  Float.representable (Float.to_Q a - inject_Z b) ->
  exists m e, Float.sub a b = Float.Finite m e /\
              (Float.value m e == Float.to_Q a - inject_Z b)%Q.
Proof.
  intros [d' Hd']. pose proof (sub_exact a b) as Hex. cbv zeta in Hex.
  unfold Float.sub.
  set (e := Z.min (Float.expo a) 0) in *.
  set (d := Float.man a * 2 ^ (Float.expo a - e) - b * 2 ^ (- e)) in *.
  destruct (double_bounds d') as [Hm' He'].
  destruct (double_bounds a) as [_ Hea].
  set (m' := Float.man d') in *. set (e' := Float.expo d') in *.
  assert (Heq : (Float.value d e == Float.value m' e')%Q).
  { rewrite Hex. symmetry. exact Hd'. }
  set (K := 1074).
  apply (value_eq_iff _ _ _ _ K) in Heq; try (unfold K, e; lia).
  assert (Hform : exists m k, 0 <= m < 2 ^ 53 /\ 0 <= k /\ Z.abs d = m * 2 ^ k /\
                              (k = 0 \/ e + k <= e')).
  { destruct (Z.le_gt_cases e e') as [Hle|Hgt].
    - exists (Z.abs m'), (e' - e). split; [lia|]. split; [lia|]. split; [|right; lia].
      assert (d = m' * 2 ^ (e' - e)).
      { replace (e' + K) with ((e' - e) + (e + K)) in Heq by ring.
        rewrite (Z.pow_add_r 2 (e' - e) (e + K)) in Heq by (unfold K, e; lia).
        rewrite Z.mul_assoc in Heq.
        apply Z.mul_cancel_r in Heq; [exact Heq|].
        assert (0 < 2 ^ (e + K)) by (apply Z.pow_pos_nonneg; unfold K, e; lia). lia. }
      rewrite H, Z.abs_mul. f_equal. apply Z.abs_eq. apply Z.pow_nonneg. lia.
    - exists (Z.abs d), 0. rewrite Z.mul_1_r. split; [|auto with zarith].
      split; [lia|].
      assert (m' = d * 2 ^ (e - e')).
      { replace (e + K) with ((e - e') + (e' + K)) in Heq by ring.
        rewrite (Z.pow_add_r 2 (e - e') (e' + K)) in Heq by (unfold K; lia).
        rewrite Z.mul_assoc in Heq.
        apply Z.mul_cancel_r in Heq; [now symmetry|].
        assert (0 < 2 ^ (e' + K)) by (apply Z.pow_pos_nonneg; unfold K; lia). lia. }
      assert (0 < 2 ^ (e - e')) by (apply Z.pow_pos_nonneg; lia).
      assert (Z.abs m' = Z.abs d * 2 ^ (e - e')).
      { rewrite H, Z.abs_mul. f_equal. lia. }
      nia. }
  destruct Hform as (m & k & Hm & Hk & Hd & Hke).
  destruct (round53_exact (Z.abs d) e m k Hm Hk Hd) as (q & s & Hr & Hs & Hqs & Hq & Hnorm).
  rewrite Hr. unfold Float.overflows. cbn [fst snd].
  assert (Hno : (0 <? q) && (1024 <=? Z.log2 q + (e + s)) = false).
  { destruct (Z.ltb_spec 0 q) as [Hqp|]; [|reflexivity]. cbn.
    apply Z.leb_gt.
    assert (Z.log2 q < 53) by (apply Z.log2_lt_pow2; lia).
    destruct Hnorm as [->|Hn52]; [unfold e; lia|].
    (* q * 2^s = m * 2^k with 2^52 <= q and m < 2^53: s <= k *)
    assert (s <= k).
    { destruct (Z.le_gt_cases s k) as [|Hgt]; [assumption|exfalso].
      assert (0 < 2 ^ k) by (apply Z.pow_pos_nonneg; lia).
      assert (q * 2 ^ (s - k) * 2 ^ k = m * 2 ^ k).
      { rewrite <- Z.mul_assoc, <- Z.pow_add_r by lia.
        replace (s - k + k) with s by ring. lia. }
      apply Z.mul_cancel_r in H1; [|lia].
      assert (2 <= 2 ^ (s - k)).
      { change 2 with (2 ^ 1) at 1. apply Z.pow_le_mono_r; lia. }
      assert (0 < 2 ^ 52) by (now apply Z.pow_pos_nonneg).
      change (2 ^ 53) with (2 * 2 ^ 52) in Hm. nia. }
    destruct Hke as [->|Hke]; [unfold e in *; lia|]. lia. }
  rewrite Hno. exists (Z.sgn d * q), (e + s). split; [reflexivity|].
  rewrite <- Hex, value_sgn, <- value_scale by assumption.
  rewrite <- Hqs. rewrite <- value_sgn. 
  assert (Hsa : forall z, Z.sgn z * Z.abs z = z) by (intros []; reflexivity).
  rewrite Hsa. reflexivity.
Qed.


(** Subtracting the integer 0 changes nothing. *)
Lemma sub_zero_le (a : Float.double) (w : Z) :
  Float.le_int (Float.sub a 0) w = Qle_bool (Float.to_Q a - 0) (inject_Z w).
Proof.
  assert (Hrep : Float.representable (Float.to_Q a - inject_Z 0)).
  { exists a. change (inject_Z 0) with 0%Q. ring. }
  destruct (sub_representable a 0 Hrep) as (m & e & -> & Hv).
  change (inject_Z 0) with 0%Q in Hv.
  apply Bool.eq_iff_eq_true. rewrite value_le_iff, Qle_bool_iff, Hv. reflexivity.
Qed.

End FloatFacts.


(** ** The timestamp check *)
Section Timestamp.
Context {W : Type} {py : Interpreter} (env : Env W) (cfg : config).

Lemma check_timestamp_run (payload : value) (s : store W) :
  res (GhostOracle._check_timestamp env cfg payload s) =
    match timestamp_of payload with
    | Ok ts =>
        match Float.of_int ts with
        | Ok f => Ok (Float.le_int (Float.sub (fst (time_time env (world s))) f)
                                   (time_window_seconds cfg))
        | Raise e => Raise e
        end
    | Raise e => Raise e
    end.
Proof.
  unfold GhostOracle._check_timestamp, timestamp_of, GhostOracle.time, bind, lift, emit, call, ret.
  cbn. destruct (py_get payload "timestamp" (VInt 0)) as [v|e]; cbn; [|reflexivity].
  destruct (py_int v) as [ts|e]; cbn; [|reflexivity].
  destruct (time_time env (world s)) as [t w]. cbn.
  destruct (Float.of_int ts) as [f|e]; reflexivity.
Qed.


End Timestamp.

(** ** The external risk check *)
Section ExternalRisk.
Context {W : Type} {py : Interpreter} (env : Env W) (cfg : config).

Let post (body : value) (w : W) : outcome response * W :=
  requests_post env (risk_api cfg) body (bearer_of (risk_api_key cfg)) w.

(** What the reply to the risk request amounts to. *)
Lemma reply_verdict_run (r : response) (s : store W) :
  res ((GhostOracle.raise_for_status r ;;
        reply <- GhostOracle.json r ;;
        score <- lift (py_get reply "riskScore" (VInt 0)) ;;
        lift (py_lt_int score 70)) s) = Ok true <->
  exists d, status_ok r = true /\ json_body r = Some (VDict d) /\ below_70 (score_of d) = true.
Proof.
  unfold GhostOracle.raise_for_status, GhostOracle.json, status_ok, below_70, score_of,
    bind, lift, raise, ret.
  destruct ((400 <=? status_code r) && (status_code r <? 600)); cbn.
  { split; [discriminate|]. intros (d & H & _). discriminate. }
  destruct (json_body r) as [[| | | | | |d]|]; cbn;
    try (split; [discriminate|intros (d' & _ & H & _); discriminate]).
  destruct (dict_lookup d "riskScore") as [v|] eqn:E; cbn.
  - destruct (py_lt_int v 70) as [[]|] eqn:E'; cbn.
    + split; [|reflexivity]. intros _. exists d. now rewrite E, E'.
    + split; [discriminate|]. intros (d' & _ & [= <-] & H).
      rewrite E, E' in H. discriminate.
    + split; [discriminate|]. intros (d' & _ & [= <-] & H).
      rewrite E, E' in H. discriminate.
  - split; [|reflexivity]. intros _. exists d. now rewrite E.
Qed.

(** A handler that prints and returns [False] turns every exception of
    the body into [False], and changes nothing when the body returns. *)
Lemma try_false_true (m : M W bool) (h : exn -> M W unit) (s : store W) :
  (forall e s', res (h e s') = Ok tt) ->
  (exists b, res (try_except m (fun e => h e ;; ret false) s) = Ok b) /\
  (res (try_except m (fun e => h e ;; ret false) s) = Ok true <-> res (m s) = Ok true).
Proof.
  intros Hh. unfold try_except, bind.
  destruct (res (m s)) as [b|e] eqn:E.
  - rewrite E. split; [now exists b|reflexivity].
  - cbn. rewrite Hh. cbn. split; [now exists false|]. split; discriminate.
Qed.

Lemma check_external_risk_unset (payload : value) (s : store W) :
  key_unset (risk_api_key cfg) = true ->
  GhostOracle._check_external_risk env cfg payload s =
    Result (Ok true) [EvEnter "_check_external_risk"] s.
Proof.
  intros H. unfold GhostOracle._check_external_risk.
  unfold bind at 1. cbn [emit res final trace]. rewrite H. reflexivity.
Qed.

Lemma check_external_risk_keyed (payload : value) (s : store W) :
  key_unset (risk_api_key cfg) = false ->
  let verdict := res (GhostOracle._check_external_risk env cfg payload s) in
  (exists b, verdict = Ok b) /\
  (verdict = Ok true <->
     exists body r d,
       risk_request payload = Ok body /\
       fst (post body (world s)) = Ok r /\
       status_ok r = true /\
       json_body r = Some (VDict d) /\
       below_70 (score_of d) = true).
Proof.
  intros H verdict. subst verdict.
  unfold GhostOracle._check_external_risk.
  unfold bind at 1. cbn [emit res final trace]. rewrite H.
  match goal with
  | |- context [try_except ?m _ ?s'] =>
      destruct (try_false_true m (fun e => GhostOracle.print stderr (MsgRiskFailed e)) s')
        as [Hex Hiff]; [reflexivity|]
  end.
  split; [exact Hex|]. rewrite Hiff. clear Hex Hiff.
  unfold risk_request, post.
  destruct (py_getitem payload "intentHash") as [h|e]; cbn;
    [|split; [discriminate|intros (?&?&?&?&_); discriminate]].
  destruct (to_hex_value h) as [hx|e]; cbn;
    [|split; [discriminate|intros (?&?&?&?&_); discriminate]].
  destruct (py_get payload "metadata" (VDict [])) as [md|e]; cbn;
    [|split; [discriminate|intros (?&?&?&?&_); discriminate]].
  unfold bind at 1. unfold call at 1. cbn.
  destruct (requests_post env (risk_api cfg) _ (bearer_of (risk_api_key cfg)) (world s))
    as [[r|e] w'] eqn:E; cbn.
  - rewrite reply_verdict_run. split.
    + intros (d & H1 & H2 & H3). eexists _, r, d. rewrite E. cbn. auto.
    + intros (body & r' & d & [= <-] & Hr & H1 & H2 & H3).
      rewrite E in Hr. cbn in Hr. injection Hr as <-. now exists d.
  - split; [discriminate|].
    intros (body & r' & d & [= <-] & Hr & _). rewrite E in Hr. discriminate.
Qed.

(** C3, as amended.  With no risk key the check passes and nothing is
    sent.  With a key it never raises, and it passes exactly when the
    request could be built, the service answered with a status that is not
    an error and a JSON object, and the score read from it (the [riskScore]
    field, or 0 when the object has none) is a number below 70: an
    integer score [n] passes iff [n < 70].  A transport error or timeout, an
    error status, and a body that is not a JSON object all fail the check. *)
Theorem external_risk_check (payload : value) (s : store W) :
  let verdict := res (GhostOracle._check_external_risk env cfg payload s) in
  (key_unset (risk_api_key cfg) = true ->
     GhostOracle._check_external_risk env cfg payload s =
       Result (Ok true) [EvEnter "_check_external_risk"] s) /\
  (key_unset (risk_api_key cfg) = false ->
     (exists b, verdict = Ok b) /\
     (verdict = Ok true <->
        exists body r d,
          risk_request payload = Ok body /\
          fst (post body (world s)) = Ok r /\
          status_ok r = true /\
          json_body r = Some (VDict d) /\
          below_70 (score_of d) = true) /\
     (forall body r d,
        risk_request payload = Ok body ->
        fst (post body (world s)) = Ok r ->
        status_ok r = true ->
        json_body r = Some (VDict d) ->
        (forall n, dict_lookup d "riskScore" = Some (VInt n) -> verdict = Ok (n <? 70)) /\
        (dict_lookup d "riskScore" = None -> verdict = Ok true)) /\
     (forall body e,
        risk_request payload = Ok body ->
        fst (post body (world s)) = Raise e ->
        verdict = Ok false) /\
     (forall body r,
        risk_request payload = Ok body ->
        fst (post body (world s)) = Ok r ->
        status_ok r = false \/ (forall d, json_body r <> Some (VDict d)) ->
        verdict = Ok false)).
Proof.
  intros verdict. split; [apply check_external_risk_unset|].
  intros Hkey.
  destruct (check_external_risk_keyed payload s Hkey) as [[b Hb] Hiff].
  fold verdict in Hb, Hiff.
  assert (Hfalse : verdict <> Ok true -> verdict = Ok false).
  { rewrite Hb. destruct b; congruence. }
  split; [now exists b|]. split; [exact Hiff|]. split; [|split].
  - intros body r d Hreq Hr Hst Hjs. split.
    + intros n Hn. destruct (n <? 70) eqn:E.
      * apply Hiff. exists body, r, d. repeat split; try assumption.
        unfold below_70, score_of. rewrite Hn. exact E.
      * apply Hfalse. rewrite Hiff.
        intros (body' & r' & d' & Hreq' & Hr' & _ & Hjs' & Hs).
        assert (body' = body) as -> by congruence.
        assert (r' = r) as -> by congruence.
        assert (d' = d) as -> by congruence.
        unfold below_70, score_of in Hs. rewrite Hn in Hs. cbn in Hs. congruence.
    + intros Hn. apply Hiff. exists body, r, d. repeat split; try assumption.
      unfold below_70, score_of. now rewrite Hn.
  - intros body e Hreq Hr. apply Hfalse. rewrite Hiff.
    intros (body' & r' & d' & Hreq' & Hr' & _).
    assert (body' = body) as -> by congruence. congruence.
  - intros body r Hreq Hr Hbad. apply Hfalse. rewrite Hiff.
    intros (body' & r' & d' & Hreq' & Hr' & Hst & Hjs & _).
    assert (body' = body) as -> by congruence.
    assert (r' = r) as -> by congruence.
    destruct Hbad as [Hbad|Hbad]; [congruence|]. now apply (Hbad d').
Qed.

End ExternalRisk.

(** C3 as stated fails: with a key configured, a reply whose JSON object
    has no [riskScore] carries no numeric score, yet the check passes. *)
Lemma external_risk_missing_score_passes :
  spec_reply_passes (Sim.ok_json (VDict [])) = false /\
  res (GhostOracle._check_external_risk
         (Sim.env (Sim.with_risk (Sim.ok_json (VDict [])) Sim.good)) Sim.keyed
         Sim.good_payload (Sim.start Sim.genesis)) = Ok true.
Proof. split; reflexivity. Qed.

Lemma external_risk_check_witness :
  res (GhostOracle._check_external_risk
         (Sim.env (Sim.with_risk (Sim.ok_json (VDict [("riskScore"%string, VInt 69)])) Sim.good))
         Sim.keyed Sim.good_payload (Sim.start Sim.genesis)) = Ok true /\
  res (GhostOracle._check_external_risk
         (Sim.env (Sim.with_risk (Sim.ok_json (VDict [("riskScore"%string, VInt 70)])) Sim.good))
         Sim.keyed Sim.good_payload (Sim.start Sim.genesis)) = Ok false /\
  res (GhostOracle._check_external_risk
         (Sim.env (Sim.with_risk (Raise Timeout) Sim.good))
         Sim.keyed Sim.good_payload (Sim.start Sim.genesis)) = Ok false /\
  res (GhostOracle._check_external_risk (Sim.env Sim.good) (CRA_CONFIG None)
         Sim.good_payload (Sim.start Sim.genesis)) = Ok true.
Proof.
  split; [|split; [|split]].
  - pose proof (external_risk_check
      (Sim.env (Sim.with_risk (Sim.ok_json (VDict [("riskScore"%string, VInt 69)])) Sim.good))
      Sim.keyed Sim.good_payload (Sim.start Sim.genesis)) as [_ H].
    destruct (H eq_refl) as (_ & _ & Hscore & _).
    exact (proj1 (Hscore _ _ _ eq_refl eq_refl eq_refl eq_refl) 69 eq_refl).
  - pose proof (external_risk_check
      (Sim.env (Sim.with_risk (Sim.ok_json (VDict [("riskScore"%string, VInt 70)])) Sim.good))
      Sim.keyed Sim.good_payload (Sim.start Sim.genesis)) as [_ H].
    destruct (H eq_refl) as (_ & _ & Hscore & _).
    exact (proj1 (Hscore _ _ _ eq_refl eq_refl eq_refl eq_refl) 70 eq_refl).
  - pose proof (external_risk_check
      (Sim.env (Sim.with_risk (Raise Timeout) Sim.good))
      Sim.keyed Sim.good_payload (Sim.start Sim.genesis)) as [_ H].
    destruct (H eq_refl) as (_ & _ & _ & Herr & _).
    exact (Herr _ Timeout eq_refl eq_refl).
  - pose proof (external_risk_check (Sim.env Sim.good) (CRA_CONFIG None)
      Sim.good_payload (Sim.start Sim.genesis)) as [H _].
    now rewrite (H eq_refl).
Defined.

(** ** The gas margin *)
Section GasMargin.

(** Rounding to nearest moves a number by at most half a unit. *)
Lemma half_even_shiftr_near (m s : Z) :
  0 <= m -> 0 < s ->
  let r := Float.half_even_shiftr m s in
  - 2 ^ s <= 2 * (r * 2 ^ s - m) <= 2 ^ s.
Proof.
  intros Hm Hs r. subst r. unfold Float.half_even_shiftr.
  rewrite Z.shiftr_div_pow2, !Z.shiftl_mul_pow2 by lia.
  assert (Hp : 0 < 2 ^ s) by (apply Z.pow_pos_nonneg; lia).
  assert (Hh : 2 ^ s = 2 * 2 ^ (s - 1)).
  { replace s with (1 + (s - 1)) at 1 by lia. rewrite Z.pow_add_r by lia. reflexivity. }
  pose proof (Z.div_mod m (2 ^ s) ltac:(lia)) as Hdm.
  pose proof (Z.mod_pos_bound m (2 ^ s) Hp) as Hb.
  set (q := m / 2 ^ s) in *. set (h := 2 ^ (s - 1)) in *.
  rewrite Z.mul_1_l.
  destruct (Z.ltb_spec (m - q * 2 ^ s) h); [lia|].
  destruct (Z.ltb_spec h (m - q * 2 ^ s)); [lia|].
  destruct (Z.even q); lia.
Qed.

(** On estimates below [2^51] the double product truncates to the exact
    quotient [6 * e / 5]: the margin is rounded down, not up. *)
Lemma gas_with_margin_floor (e : Z) :
  0 <= e < 2 ^ 51 -> gas_with_margin e = Ok (6 * e / 5).
Proof.
  intros He.
  destruct (Z.eq_dec e 0) as [->|H0]; [reflexivity|].
  destruct (Z.eq_dec e 1) as [->|H1]; [reflexivity|].
  assert (He2 : 2 <= e) by lia.
  unfold gas_with_margin.
  rewrite Z.abs_eq by lia.
  assert (Hle : Z.log2 e <= 52).
  { assert (Z.log2 e < 51); [|lia]. apply Z.log2_lt_pow2; lia. }
  assert (Hx : Float.round53 e 0 = (e, 0)).
  { unfold Float.round53. destruct (Z.leb_spec (Z.log2 e) 52); [reflexivity|lia]. }
  rewrite Hx. unfold Float.overflows at 1. cbn [fst snd].
  destruct (Z.leb_spec 1024 (Z.log2 e + 0)); [lia|]. rewrite andb_false_r.
  unfold Float.mul, Float.one_point_two. cbn [fst snd].
  set (N := e * 5404319552844595).
  assert (HN : 5 * N = 6 * e * 2 ^ 52 - e) by (unfold N; lia).
  assert (HNpos : 0 < N) by (unfold N; lia).
  pose proof (Z.log2_spec N HNpos) as Hspec.
  assert (Hb53 : 53 <= Z.log2 N).
  { apply Z.log2_le_pow2; [lia|]. unfold N. lia. }
  assert (Hb103 : Z.log2 N < 104).
  { apply Z.log2_lt_pow2; [lia|]. unfold N.
    change (2 ^ 104) with (2 ^ 51 * 2 ^ 53). nia. }
  set (b := Z.log2 N) in *. set (s := b - 52).
  unfold Float.round53. fold b.
  destruct (Z.leb_spec b 52); [lia|]. fold s. replace (0 + -52 + s) with (s - 52) by lia.
  set (m := Float.half_even_shiftr N s).
  pose proof (half_even_shiftr_near N s ltac:(lia) ltac:(unfold s; lia)) as Hnear.
  cbv zeta in Hnear. fold m in Hnear.
  set (P := 2 ^ s) in *. set (T := 2 ^ (52 - s)).
  assert (HP : 0 < P) by (apply Z.pow_pos_nonneg; unfold s; lia).
  assert (HT : 0 < T) by (apply Z.pow_pos_nonneg; unfold s; lia).
  assert (HPT : P * T = 2 ^ 52).
  { unfold P, T. rewrite <- Z.pow_add_r by (unfold s; lia). f_equal. lia. }
  assert (Hlo : 2 ^ 52 * P <= N).
  { unfold P. rewrite <- Z.pow_add_r by (unfold s; lia).
    replace (52 + s) with b by (unfold s; lia). lia. }
  assert (Hhi : N < 2 ^ 53 * P).
  { unfold P. rewrite <- Z.pow_add_r by (unfold s; lia).
    replace (53 + s) with (Z.succ b) by (unfold s; lia). lia. }
  change (2 ^ 52) with 4503599627370496 in *.
  change (2 ^ 53) with 9007199254740992 in *.
  change (2 ^ 51) with 2251799813685248 in *.
  pose proof (Z.div_mod (6 * e) 5 ltac:(lia)) as Hq.
  pose proof (Z.mod_pos_bound (6 * e) 5 ltac:(lia)) as Hr.
  set (q := 6 * e / 5) in *.
  assert (Hm0 : 0 <= m).
  { assert (0 <= m * P); [lia|]. nia. }
  assert (Hdiv : q * T <= m < (q + 1) * T).
  { split.
    - destruct (Z.le_gt_cases (q * T) m) as [|Hc]; [assumption|exfalso].
      assert (m * P <= (q * T - 1) * P) by (apply Z.mul_le_mono_nonneg_r; lia).
      assert ((q * T - 1) * P = q * 4503599627370496 - P) by (rewrite <- HPT; ring).
      lia.
    - destruct (Z.lt_ge_cases m ((q + 1) * T)) as [|Hc]; [assumption|exfalso].
      assert ((q + 1) * T * P <= m * P) by (apply Z.mul_le_mono_nonneg_r; lia).
      assert ((q + 1) * T * P = (q + 1) * 4503599627370496) by (rewrite <- HPT; ring).
      lia. }
  assert (Hover : Float.overflows (m, s - 52) = false).
  { unfold Float.overflows. cbn [fst snd].
    destruct (Z.ltb_spec 0 m); [|reflexivity]. cbn.
    apply Z.leb_gt.
    assert (Z.log2 m < 1000); [|unfold s; lia].
    apply Z.log2_lt_pow2; [lia|].
    assert (m < (q + 1) * T) by lia.
    assert (T <= 2 ^ 52).
    { unfold T. apply Z.pow_le_mono_r; unfold s; lia. }
    assert ((q + 1) * T <= 2 ^ 52 * 2 ^ 52).
    { apply Z.mul_le_mono_nonneg; lia. }
    assert (2 ^ 52 * 2 ^ 52 < 2 ^ 1000).
    { rewrite <- Z.pow_add_r by lia. apply Z.pow_lt_mono_r; lia. }
    lia. }
  rewrite Hover. f_equal.
  rewrite Z.sgn_pos by lia. rewrite Z.mul_1_l.
  unfold Float.trunc. cbn [fst snd].
  destruct (Z.leb_spec 0 (s - 52)); [unfold s in *; lia|].
  rewrite Z.shiftr_div_pow2 by lia.
  replace (- (s - 52)) with (52 - s) by lia. fold T.
  symmetry. apply Z.div_unique with (r := m - q * T); lia.
Qed.
End GasMargin.

Section GasSubmitted.
Context {W : Type} {py : Interpreter} (env : Env W).

(** The transaction that [execute_tx] signs is the built one with its gas
    set to [int(estimated * 1.2)]. *)
Lemma execute_tx_signs_margin (fn : string) (h : bytes) (sig : option bytes)
    (s : store W) (tx : transaction) (reply : outcome bytes) :
  In (EvSignTransaction tx reply) (trace (GhostOracle.execute_tx env fn h sig s)) ->
  exists tx0 e g,
    In (EvEstimateGas tx0 (Ok e)) (trace (GhostOracle.execute_tx env fn h sig s)) /\
    gas_with_margin e = Ok g /\
    tx = set_gas tx0 g.
Proof.
  unfold GhostOracle.execute_tx, GhostOracle.print.
  rewrite bind_call. destruct (fst (get_transaction_count env _)) as [nonce|x]; cbn;
    [|intros [H|[]]; discriminate].
  rewrite bind_call. destruct (fst (gas_price env _)) as [price|x]; cbn;
    [|intros [H|[H|[]]]; discriminate].
  rewrite bind_call. destruct (fst (build_transaction env _ _ _ _ _)) as [tx0|x]; cbn;
    [|intros [H|[H|[H|[]]]]; discriminate].
  rewrite bind_call. destruct (fst (estimate_gas env _ _)) as [e|x]; cbn;
    [|intros [H|[H|[H|[H|[]]]]]; discriminate].
  rewrite bind_lift. destruct (gas_with_margin e) as [g|x] eqn:Eg; cbn;
    [|intros [H|[H|[H|[H|[]]]]]; discriminate].
  intros Hin. exists tx0, e, g. split; [auto 6|]. split; [exact Eg|].
  revert Hin.
  rewrite bind_call. destruct (fst (sign_transaction env _ _)) as [raw|x]; cbn.
  - rewrite bind_call. destruct (fst (send_raw_transaction env _ _)) as [txh|x]; cbn.
    + rewrite ?bind_emit. rewrite bind_call.
      destruct (fst (wait_for_transaction_receipt env _ _)) as [rc|x]; cbn.
      * destruct (negb (status rc =? 1)); cbn;
          intros [H|[H|[H|[H|[H|[H|[H|[H|H]]]]]]]]; try discriminate;
          try (now injection H as <- _);
          repeat (destruct H as [H|H]; try discriminate); contradiction.
      * intros [H|[H|[H|[H|[H|[H|[H|[H|H]]]]]]]]; try discriminate;
          try (now injection H as <- _); contradiction.
    + intros [H|[H|[H|[H|[H|[H|H]]]]]]; try discriminate;
        try (now injection H as <- _); contradiction.
  - intros [H|[H|[H|[H|[H|H]]]]]; try discriminate;
      try (now injection H as <- _); contradiction.
Qed.

End GasSubmitted.

Section GasLimit.
Context {W : Type} {py : Interpreter} (env : Env W).

Lemma floor_margin (e : Z) : Qfloor (inject_Z e * (12 # 10)) = 6 * e / 5.
Proof.
  unfold Qfloor, Qmult, inject_Z. cbn [Qnum Qden].
  change (Z.pos (1 * 10)) with (5 * 2). replace (e * 12) with (6 * e * 2) by ring.
  apply Z.div_mul_cancel_r; lia.
Qed.

Lemma ceil_margin (e : Z) :
  spec_gas_limit e = 6 * e / 5 + (if e mod 5 =? 0 then 0 else 1).
Proof.
  unfold spec_gas_limit, Qceiling, Qfloor, Qopp, Qmult, inject_Z. cbn [Qnum Qden].
  change (Z.pos (1 * 10)) with 10.
  pose proof (Z.div_mod (6 * e) 5 ltac:(lia)).
  pose proof (Z.mod_pos_bound (6 * e) 5 ltac:(lia)).
  pose proof (Z.div_mod (- (e * 12)) 10 ltac:(lia)).
  pose proof (Z.mod_pos_bound (- (e * 12)) 10 ltac:(lia)).
  pose proof (Z.div_mod e 5 ltac:(lia)).
  pose proof (Z.mod_pos_bound e 5 ltac:(lia)).
  destruct (Z.eqb_spec (e mod 5) 0); lia.
Qed.

(** C4, as amended.  The transaction that is signed and sent carries the
    gas limit [int(estimated * 1.2)]; for an estimate [0 <= e < 2^51] this
    is [floor(e * 1.2)], one less than [ceil(e * 1.2)] unless [e] is a
    multiple of 5, and an estimate of 100000 gives exactly 120000. *)
Theorem submitted_gas_limit (fn : string) (h : bytes) (sig : option bytes)
    (s : store W) (tx : transaction) (reply : outcome bytes) :
  In (EvSignTransaction tx reply) (trace (GhostOracle.execute_tx env fn h sig s)) ->
  exists tx0 e g,
    In (EvEstimateGas tx0 (Ok e)) (trace (GhostOracle.execute_tx env fn h sig s)) /\
    tx = set_gas tx0 g /\
    gas_with_margin e = Ok g /\
    (0 <= e < 2 ^ 51 ->
       g = Qfloor (inject_Z e * (12 # 10)) /\
       spec_gas_limit e = g + (if e mod 5 =? 0 then 0 else 1)) /\
    (e = 100000 -> g = 120000).
Proof.
  intros Hin.
  destruct (execute_tx_signs_margin env fn h sig s tx reply Hin) as (tx0 & e & g & H1 & H2 & H3).
  exists tx0, e, g. repeat split; try assumption.
  - rewrite floor_margin. rewrite gas_with_margin_floor in H2 by assumption. congruence.
  - rewrite ceil_margin. rewrite gas_with_margin_floor in H2 by assumption.
    injection H2 as <-. reflexivity.
  - intros ->. vm_compute in H2. congruence.
Qed.

End GasLimit.

(** C4 as stated fails: an estimate of 1 is submitted with gas limit 1,
    while [ceil(1 * 1.2)] is 2. *)
Lemma gas_limit_not_ceiling :
  gas_with_margin 1 = Ok 1 /\
  spec_gas_limit 1 = 2 /\
  In (EvSignTransaction
        {| tx_function := "verifyIntent"; tx_args := ["h"; "sig"]; tx_nonce := 7;
           tx_gasPrice := 1000000000; tx_gas := Some 1 |} (Ok "verifyIntent"))%string
     (trace (GhostOracle.execute_tx
               (Sim.env (Sim.with_estimate (Ok 1) Sim.good))
               "verifyIntent" "h" (Some "sig"%string) (Sim.start Sim.genesis))).
Proof.
  split; [reflexivity|]. split; [reflexivity|]. vm_compute. auto 10.
Qed.

Lemma submitted_gas_limit_witness :
  exists tx0 e g,
    In (EvEstimateGas tx0 (Ok e))
       (trace (GhostOracle.execute_tx (Sim.env Sim.good) "verifyIntent" "h"
                 (Some "sig"%string) (Sim.start Sim.genesis))) /\
    {| tx_function := "verifyIntent"; tx_args := ["h"; "sig"]; tx_nonce := 7;
       tx_gasPrice := 1000000000; tx_gas := Some 120000 |}%string = set_gas tx0 g /\
    gas_with_margin e = Ok g /\
    (0 <= e < 2 ^ 51 ->
       g = Qfloor (inject_Z e * (12 # 10)) /\
       spec_gas_limit e = g + (if e mod 5 =? 0 then 0 else 1)) /\
    (e = 100000 -> g = 120000).
Proof.
  apply (submitted_gas_limit (Sim.env Sim.good) "verifyIntent" "h" (Some "sig"%string)
           (Sim.start Sim.genesis) _ (Ok "verifyIntent"%string)).
  vm_compute. auto 10.
Defined.

(** ** The audit *)
Section Audit.
Context {W : Type} {py : Interpreter} (env : Env W) (cfg : config).

Lemma trace_bind {A B} (m : M W A) (f : A -> M W B) (s : store W) :
  trace (bind m f s) =
    trace (m s) ++
    match res (m s) with
    | Ok a => trace (f a (final (m s)))
    | Raise _ => []
    end.
Proof.
  unfold bind. destruct (res (m s)); cbn; [reflexivity|now rewrite app_nil_r].
Qed.

Lemma trace_try {A} (m : M W A) (h : exn -> M W A) (s : store W) :
  trace (try_except m h s) =
    trace (m s) ++
    match res (m s) with
    | Ok _ => []
    | Raise e => trace (h e (final (m s)))
    end.
Proof.
  unfold try_except. destruct (res (m s)); cbn; [now rewrite app_nil_r|reflexivity].
Qed.

Lemma entered_app (t1 t2 : list event) : entered (t1 ++ t2) = entered t1 ++ entered t2.
Proof. apply omap_app. Qed.

Lemma reported_app (t1 t2 : list event) : reported (t1 ++ t2) = reported t1 ++ reported t2.
Proof. apply omap_app. Qed.

Lemma fetch_quiet (h : bytes) (s : store W) :
  entered (trace (GhostOracle.fetch_intent_payload env h s)) = [] /\
  reported (trace (GhostOracle.fetch_intent_payload env h s)) = [].
Proof.
  unfold GhostOracle.fetch_intent_payload, GhostOracle.raise_for_status, GhostOracle.json.
  rewrite bind_call. destruct (fst (requests_get env _ _)) as [r|x]; cbn; [|auto].
  destruct ((400 <=? status_code r) && (status_code r <? 600)); cbn; [auto|].
  destruct (json_body r); cbn; auto.
Qed.

Lemma check_timestamp_trace (payload : value) (s : store W) :
  entered (trace (GhostOracle._check_timestamp env cfg payload s)) = ["_check_timestamp"%string] /\
  reported (trace (GhostOracle._check_timestamp env cfg payload s)) = [].
Proof.
  unfold GhostOracle._check_timestamp, GhostOracle.time.
  rewrite bind_emit, bind_lift. destruct (py_get _ _ _) as [v|x]; cbn; [|auto].
  rewrite bind_lift. destruct (py_int v) as [ts|x]; cbn; [|auto].
  unfold bind. destruct (time_time env (world s)) as [t w]. cbn.
  destruct (Float.of_int ts); cbn; auto.
Qed.

Lemma check_amount_run (payload : value) (s : store W) :
  GhostOracle._check_amount cfg payload s =
    Result (match py_get payload "amountWei" (VInt 0) with
            | Ok v => match py_int v with
                      | Ok amount => Ok (amount <=? max_amount_wei cfg)
                      | Raise x => Raise x
                      end
            | Raise x => Raise x
            end)
           [EvEnter "_check_amount"] s.
Proof.
  unfold GhostOracle._check_amount.
  rewrite bind_emit, bind_lift. destruct (py_get _ _ _) as [v|x]; cbn; [|reflexivity].
  rewrite bind_lift. destruct (py_int v) as [a|x]; reflexivity.
Qed.

Lemma check_geography_run (payload : value) (s : store W) :
  GhostOracle._check_geography cfg payload s =
    Result (match py_get payload "originCountry" (VStr "") with
            | Ok v => match py_upper v with
                      | Ok country => Ok (bool_decide (country ∈ allowed_countries cfg))
                      | Raise x => Raise x
                      end
            | Raise x => Raise x
            end)
           [EvEnter "_check_geography"] s.
Proof.
  unfold GhostOracle._check_geography.
  rewrite bind_emit, bind_lift. destruct (py_get _ _ _) as [v|x]; cbn; [|reflexivity].
  rewrite bind_lift. destruct (py_upper v) as [a|x]; reflexivity.
Qed.

Lemma check_external_risk_trace (payload : value) (s : store W) :
  entered (trace (GhostOracle._check_external_risk env cfg payload s)) =
    ["_check_external_risk"%string] /\
  reported (trace (GhostOracle._check_external_risk env cfg payload s)) = [].
Proof.
  unfold GhostOracle._check_external_risk.
  rewrite bind_emit. cbn [trace].
  destruct (key_unset (risk_api_key cfg)); [cbn; auto|].
  rewrite trace_try.
  match goal with |- context [trace (?m s)] => set (body := m) end.
  assert (Hbody : entered (trace (body s)) = [] /\ reported (trace (body s)) = []).
  { subst body. unfold GhostOracle.raise_for_status, GhostOracle.json.
    rewrite bind_lift. destruct (py_getitem _ _) as [h|x]; cbn; [|auto].
    rewrite bind_lift. destruct (to_hex_value h) as [hx|x]; cbn; [|auto].
    rewrite bind_lift. destruct (py_get _ _ _) as [md|x]; cbn; [|auto].
    rewrite bind_call. destruct (fst (requests_post env _ _ _ _)) as [r|x]; cbn; [|auto].
    destruct ((400 <=? status_code r) && (status_code r <? 600)); cbn; [auto|].
    destruct (json_body r) as [reply|]; cbn; [|auto].
    destruct (py_get reply _ _) as [score|x]; cbn; [|auto].
    destruct (py_lt_int score 70); cbn; auto. }
  destruct Hbody as [H1 H2].
  change (entered (?e :: ?t)) with (entered [e] ++ entered t).
  change (reported (?e :: ?t)) with (reported [e] ++ reported t).
  rewrite entered_app, reported_app, H1, H2.
  destruct (res (body s)); cbn; auto.
Qed.

Lemma report_checks_run (checks : list (string * bool)) (s : store W) :
  GhostOracle.report_checks checks s =
    Result (Ok (forallb snd checks))
           (map (fun c => EvPrint stdout (MsgCheck (fst c) (snd c))) (up_to_first_failure checks))
           s.
Proof.
  induction checks as [|[name ok] rest IH]; [reflexivity|].
  cbn [GhostOracle.report_checks]. unfold GhostOracle.print. rewrite bind_emit.
  destruct ok; cbn; [|reflexivity]. rewrite IH. reflexivity.
Qed.

Lemma reported_prints (checks : list (string * bool)) :
  reported (map (fun c => EvPrint stdout (MsgCheck (fst c) (snd c))) checks) = checks /\
  entered (map (fun c => EvPrint stdout (MsgCheck (fst c) (snd c))) checks) = [].
Proof.
  induction checks as [|[name ok] rest [IH1 IH2]]; [split; reflexivity|].
  split; cbn; [f_equal; exact IH1|exact IH2].
Qed.

(** The three ways an audit can go. *)
Lemma audit_fetch_raises (h : bytes) (s : store W) (e : exn) :
  res (GhostOracle.fetch_intent_payload env h s) = Raise e ->
  GhostOracle.perform_cra_audit env cfg h s =
    Result (Ok false)
           (trace (GhostOracle.fetch_intent_payload env h s) ++
            [EvPrint stderr (MsgAuditError (to_hex h) e)])
           (final (GhostOracle.fetch_intent_payload env h s)).
Proof.
  intros H. unfold GhostOracle.perform_cra_audit, try_except.
  rewrite (bind_raise _ _ _ _ H). cbn. reflexivity.
Qed.

Lemma audit_check_raises (h : bytes) (s : store W) (payload : value) (e : exn) :
  let f := GhostOracle.fetch_intent_payload env h s in
  let c := GhostOracle.checks_dict env cfg payload (final f) in
  res f = Ok payload ->
  res c = Raise e ->
  GhostOracle.perform_cra_audit env cfg h s =
    Result (Ok false)
           (trace f ++ trace c ++ [EvPrint stderr (MsgAuditError (to_hex h) e)])
           (final c).
Proof.
  intros f c Hf Hc. unfold GhostOracle.perform_cra_audit, try_except.
  rewrite (bind_ok _ _ _ _ Hf). fold f.
  rewrite (bind_raise _ _ _ _ Hc). fold c. cbn. now rewrite <- app_assoc.
Qed.

Lemma audit_checks_return (h : bytes) (s : store W) (payload : value)
    (checks : list (string * bool)) :
  let f := GhostOracle.fetch_intent_payload env h s in
  let c := GhostOracle.checks_dict env cfg payload (final f) in
  res f = Ok payload ->
  res c = Ok checks ->
  GhostOracle.perform_cra_audit env cfg h s =
    Result (Ok (forallb snd checks))
           (trace f ++ trace c ++
            map (fun c => EvPrint stdout (MsgCheck (fst c) (snd c))) (up_to_first_failure checks))
           (final c).
Proof.
  intros f c Hf Hc. unfold GhostOracle.perform_cra_audit, try_except.
  rewrite (bind_ok _ _ _ _ Hf). fold f.
  rewrite (bind_ok _ _ _ _ Hc). fold c. rewrite report_checks_run. cbn. reflexivity.
Qed.

(** The dict literal runs the four checks one after the other and stops
    only if one of them raises. *)
Lemma checks_dict_run (payload : value) (s1 : store W) :
  let r1 := GhostOracle._check_timestamp env cfg payload s1 in
  let r2 := GhostOracle._check_amount cfg payload (final r1) in
  let r3 := GhostOracle._check_geography cfg payload (final r2) in
  let r4 := GhostOracle._check_external_risk env cfg payload (final r3) in
  let c := GhostOracle.checks_dict env cfg payload s1 in
  match res r1 with
  | Raise x => res c = Raise x /\ trace c = trace r1
  | Ok c1 =>
      match res r2 with
      | Raise x => res c = Raise x /\ trace c = trace r1 ++ trace r2
      | Ok c2 =>
          match res r3 with
          | Raise x => res c = Raise x /\ trace c = trace r1 ++ trace r2 ++ trace r3
          | Ok c3 =>
              match res r4 with
              | Raise x => res c = Raise x /\
                           trace c = trace r1 ++ trace r2 ++ trace r3 ++ trace r4
              | Ok c4 =>
                  res c = Ok [("timestamp"%string, c1); ("amount"%string, c2);
                              ("geography"%string, c3); ("externalRisk"%string, c4)] /\
                  trace c = trace r1 ++ trace r2 ++ trace r3 ++ trace r4
              end
          end
      end
  end.
Proof.
  intros r1 r2 r3 r4 c. subst c. unfold GhostOracle.checks_dict.
  destruct (res r1) as [c1|x] eqn:E1.
  2:{ rewrite (bind_raise _ _ _ _ E1). auto. }
  rewrite (bind_ok _ _ _ _ E1). fold r1. cbn [res trace].
  destruct (res r2) as [c2|x] eqn:E2.
  2:{ rewrite (bind_raise _ _ _ _ E2). auto. }
  rewrite (bind_ok _ _ _ _ E2). fold r2. cbn [res trace].
  destruct (res r3) as [c3|x] eqn:E3.
  2:{ rewrite (bind_raise _ _ _ _ E3). auto. }
  rewrite (bind_ok _ _ _ _ E3). fold r3. cbn [res trace].
  destruct (res r4) as [c4|x] eqn:E4.
  2:{ rewrite (bind_raise _ _ _ _ E4). auto. }
  rewrite (bind_ok _ _ _ _ E4). fold r4. cbn. rewrite app_nil_r. auto.
Qed.

Lemma risk_posts_app (t1 t2 : list event) :
  risk_posts (t1 ++ t2) = risk_posts t1 ++ risk_posts t2.
Proof. apply omap_app. Qed.

Lemma fetch_no_posts (h : bytes) (s : store W) :
  risk_posts (trace (GhostOracle.fetch_intent_payload env h s)) = [].
Proof.
  unfold GhostOracle.fetch_intent_payload, GhostOracle.raise_for_status, GhostOracle.json.
  rewrite bind_call. destruct (fst (requests_get env _ _)) as [r|x]; cbn; [|auto].
  destruct ((400 <=? status_code r) && (status_code r <? 600)); cbn; [auto|].
  destruct (json_body r); cbn; auto.
Qed.

Lemma check_timestamp_no_posts (payload : value) (s : store W) :
  risk_posts (trace (GhostOracle._check_timestamp env cfg payload s)) = [].
Proof.
  unfold GhostOracle._check_timestamp, GhostOracle.time.
  rewrite bind_emit, bind_lift. destruct (py_get _ _ _) as [v|x]; cbn; [|auto].
  rewrite bind_lift. destruct (py_int v) as [ts|x]; cbn; [|auto].
  unfold bind. destruct (time_time env (world s)) as [t w]. cbn.
  destruct (Float.of_int ts); cbn; auto.
Qed.

(** With a key configured and a request that can be built, the risk
    service is called, once. *)
Lemma check_external_risk_posts (payload body : value) (s : store W) :
  key_unset (risk_api_key cfg) = false ->
  risk_request payload = Ok body ->
  risk_posts (trace (GhostOracle._check_external_risk env cfg payload s)) = [body].
Proof.
  intros Hkey Hreq. unfold GhostOracle._check_external_risk.
  rewrite bind_emit. cbn [trace]. rewrite Hkey.
  change (risk_posts (?e :: ?t)) with (risk_posts [e] ++ risk_posts t).
  rewrite trace_try, risk_posts_app.
  match goal with |- context [trace (?m s)] => set (m0 := m) end.
  assert (Hbody : risk_posts (trace (m0 s)) = [body]).
  { subst m0. unfold risk_request in Hreq.
    unfold GhostOracle.raise_for_status, GhostOracle.json.
    rewrite bind_lift. destruct (py_getitem _ _) as [h|x]; [|discriminate].
    rewrite bind_lift. destruct (to_hex_value h) as [hx|x]; [|discriminate].
    rewrite bind_lift. destruct (py_get _ _ _) as [md|x]; [|discriminate].
    injection Hreq as <-.
    rewrite bind_call. destruct (fst (requests_post env _ _ _ _)) as [r|x]; cbn; [|auto].
    destruct ((400 <=? status_code r) && (status_code r <? 600)); cbn; [auto|].
    destruct (json_body r) as [reply|]; cbn; [|auto].
    destruct (py_get reply _ _) as [score|x]; cbn; [|auto].
    destruct (py_lt_int score 70); cbn; auto. }
  rewrite Hbody. destruct (res (m0 s)); reflexivity.
Qed.

Lemma prints_no_posts (checks : list (string * bool)) :
  risk_posts (map (fun c => EvPrint stdout (MsgCheck (fst c) (snd c))) checks) = [].
Proof. induction checks; [reflexivity|exact IHchecks]. Qed.

(** The checks are entered in the order written, and a later one is
    skipped only when an earlier one raised. *)
Lemma checks_dict_entered (payload : value) (s1 : store W) :
  let c := GhostOracle.checks_dict env cfg payload s1 in
  (exists k, entered (trace c) = firstn k check_names) /\
  (is_ok (res c) = true -> entered (trace c) = check_names) /\
  reported (trace c) = [].
Proof.
  intros c. pose proof (checks_dict_run payload s1) as H. cbv zeta in H. fold c in H.
  rewrite !check_amount_run, !check_geography_run in H. cbn [final trace res] in H.
  destruct (check_timestamp_trace payload s1) as [T1 T1'].
  destruct (check_external_risk_trace payload
              (final (GhostOracle._check_timestamp env cfg payload s1))) as [T4 T4'].
  destruct (res (GhostOracle._check_timestamp env cfg payload s1)) as [c1|x].
  2:{ destruct H as [-> ->]. rewrite T1, T1'. split; [now exists 1%nat|]. split; [discriminate|reflexivity]. }
  match type of H with match ?o with _ => _ end => destruct o as [c2|x] end.
  2:{ destruct H as [-> ->]. rewrite entered_app, reported_app, T1, T1'.
      split; [now exists 2%nat|]. split; [discriminate|reflexivity]. }
  match type of H with match ?o with _ => _ end => destruct o as [c3|x] end.
  2:{ destruct H as [-> ->]. rewrite !entered_app, !reported_app, T1, T1'.
      split; [now exists 3%nat|]. split; [discriminate|reflexivity]. }
  match type of H with match ?o with _ => _ end => destruct o as [c4|x] end.
  - destruct H as [-> ->]. rewrite !entered_app, !reported_app, T1, T1', T4, T4'.
    split; [now exists 4%nat|]. split; reflexivity.
  - destruct H as [-> ->]. rewrite !entered_app, !reported_app, T1, T1', T4, T4'.
    split; [now exists 4%nat|]. split; reflexivity.
Qed.

(** C2, as amended.  Once the payload is fetched, the four checks are
    evaluated in the fixed order timestamp, amount, geography, external
    risk, each whatever the earlier ones returned (only a check that raises
    stops the evaluation): with a key configured the risk service is called
    even after an earlier check has failed.  What stops at the first failing
    check is the loop that prints the results and returns. *)
Theorem checks_all_evaluated (h : bytes) (s : store W) (payload : value) :
  let f := GhostOracle.fetch_intent_payload env h s in
  let c := GhostOracle.checks_dict env cfg payload (final f) in
  let a := GhostOracle.perform_cra_audit env cfg h s in
  res f = Ok payload ->
  (exists k, entered (trace a) = firstn k check_names) /\
  (forall checks,
     res c = Ok checks ->
     entered (trace a) = check_names /\
     map fst checks = ["timestamp"; "amount"; "geography"; "externalRisk"]%string /\
     reported (trace a) = up_to_first_failure checks /\
     res a = Ok (forallb snd checks) /\
     (forall body,
        key_unset (risk_api_key cfg) = false ->
        risk_request payload = Ok body ->
        risk_posts (trace a) = [body])).
Proof.
  intros f c a Hf.
  destruct (fetch_quiet h s) as [F1 F2]. fold f in F1, F2.
  destruct (checks_dict_entered payload (final f)) as (Hk & Hall & Hrep). fold c in Hk, Hall, Hrep.
  split.
  - destruct (res c) as [checks|x] eqn:Hc.
    + subst a. rewrite (audit_checks_return h s payload checks Hf Hc). cbn [trace].
      fold f. fold c. rewrite !entered_app, F1.
      rewrite (proj2 (reported_prints _)), app_nil_r. exact Hk.
    + subst a. rewrite (audit_check_raises h s payload x Hf Hc). cbn [trace].
      fold f. fold c. rewrite !entered_app, F1. cbn. rewrite app_nil_r. exact Hk.
  - intros checks Hc. subst a. rewrite (audit_checks_return h s payload checks Hf Hc).
    cbn [trace res]. fold f. fold c.
    rewrite !entered_app, !reported_app, F1, F2, Hrep.
    destruct (reported_prints (up_to_first_failure checks)) as [-> ->].
    rewrite Hall by (now rewrite Hc). cbn [app]. rewrite app_nil_r.
    split; [reflexivity|].
    pose proof (checks_dict_run payload (final f)) as H. cbv zeta in H. fold c in H.
    rewrite !check_amount_run, !check_geography_run in H. cbn [final trace res] in H.
    split.
    { destruct (res (GhostOracle._check_timestamp env cfg payload (final f))) as [c1|x];
        [|destruct H; congruence].
      repeat match type of H with match ?o with _ => _ end =>
               destruct o; [|destruct H; congruence] end.
      destruct H as [H _]. rewrite Hc in H. injection H as ->. reflexivity. }
    split; [reflexivity|]. split; [reflexivity|].
    intros body Hkey Hreq.
    pose proof (fetch_no_posts h s) as F3. fold f in F3.
    rewrite !risk_posts_app, F3, prints_no_posts, app_nil_r. cbn [app].
    assert (Ht : trace c =
                 trace (GhostOracle._check_timestamp env cfg payload (final f)) ++
                 [EvEnter "_check_amount"] ++ [EvEnter "_check_geography"] ++
                 trace (GhostOracle._check_external_risk env cfg payload
                          (final (GhostOracle._check_timestamp env cfg payload (final f))))).
    { destruct (res (GhostOracle._check_timestamp env cfg payload (final f))) as [c1|x];
        [|destruct H; congruence].
      repeat match type of H with match ?o with _ => _ end =>
               destruct o; [|destruct H; congruence] end.
      now destruct H. }
    rewrite Ht, !risk_posts_app, check_timestamp_no_posts.
    rewrite (check_external_risk_posts payload body _ Hkey Hreq). reflexivity.
Qed.

(** C7.  The audit returns [True] exactly when the payload fetch succeeds
    and each of the four checks returns [True]; when the fetch fails the
    audit returns [False] and no check is entered. *)
Theorem audit_passes_iff (h : bytes) (s : store W) :
  let f := GhostOracle.fetch_intent_payload env h s in
  let a := GhostOracle.perform_cra_audit env cfg h s in
  (res a = Ok true <->
     exists payload,
       res f = Ok payload /\
       let r1 := GhostOracle._check_timestamp env cfg payload (final f) in
       let r2 := GhostOracle._check_amount cfg payload (final r1) in
       let r3 := GhostOracle._check_geography cfg payload (final r2) in
       let r4 := GhostOracle._check_external_risk env cfg payload (final r3) in
       res r1 = Ok true /\ res r2 = Ok true /\ res r3 = Ok true /\ res r4 = Ok true) /\
  (forall e, res f = Raise e ->
     res a = Ok false /\
     entered (trace a) = [] /\
     trace a = trace f ++ [EvPrint stderr (MsgAuditError (to_hex h) e)]).
Proof.
  intros f a. split.
  - destruct (res f) as [payload|e] eqn:Hf.
    2:{ subst a. rewrite (audit_fetch_raises h s e Hf). cbn.
        split; [discriminate|]. intros (p & Hp & _). discriminate. }
    pose proof (checks_dict_run payload (final f)) as H. cbv zeta in H.
    set (c := GhostOracle.checks_dict env cfg payload (final f)) in *.
    set (r1 := GhostOracle._check_timestamp env cfg payload (final f)) in *.
    set (r2 := GhostOracle._check_amount cfg payload (final r1)) in *.
    set (r3 := GhostOracle._check_geography cfg payload (final r2)) in *.
    set (r4 := GhostOracle._check_external_risk env cfg payload (final r3)) in *.
    assert (Hiff : res a = Ok true <->
                   res r1 = Ok true /\ res r2 = Ok true /\ res r3 = Ok true /\ res r4 = Ok true).
    { destruct (res r1) as [c1|x].
      2:{ destruct H as [Hc _]. subst a. rewrite (audit_check_raises h s payload x Hf Hc).
          cbn. split; [discriminate|intros [? _]; discriminate]. }
      destruct (res r2) as [c2|x].
      2:{ destruct H as [Hc _]. subst a. rewrite (audit_check_raises h s payload x Hf Hc).
          cbn. split; [discriminate|intros (_ & ? & _); discriminate]. }
      destruct (res r3) as [c3|x].
      2:{ destruct H as [Hc _]. subst a. rewrite (audit_check_raises h s payload x Hf Hc).
          cbn. split; [discriminate|intros (_ & _ & ? & _); discriminate]. }
      destruct (res r4) as [c4|x].
      2:{ destruct H as [Hc _]. subst a. rewrite (audit_check_raises h s payload x Hf Hc).
          cbn. split; [discriminate|intros (_ & _ & _ & ?); discriminate]. }
      destruct H as [Hc _]. subst a. rewrite (audit_checks_return h s payload _ Hf Hc).
      cbn. destruct c1, c2, c3, c4; cbn; split;
        first [discriminate | intros (? & ? & ? & ?); discriminate | auto]. }
    rewrite Hiff. split.
    + intros H'. exists payload. split; [reflexivity|exact H'].
    + intros (p & [= <-] & H'). exact H'.
  - intros e Hf. subst a. rewrite (audit_fetch_raises h s e Hf). cbn [res trace].
    fold f. split; [reflexivity|]. split; [|reflexivity].
    rewrite entered_app. destruct (fetch_quiet h s) as [F1 _]. fold f in F1.
    rewrite F1. reflexivity.
Qed.

(** The handler of the audit's [try] cannot raise, so the audit returns. *)
Lemma audit_returns (h : bytes) (s : store W) :
  exists b, res (GhostOracle.perform_cra_audit env cfg h s) = Ok b.
Proof.
  unfold GhostOracle.perform_cra_audit. apply try_except_returns.
  intros e s'. now exists false.
Qed.

(** C10.  The audit always returns a boolean: it never raises.  An
    exception raised by the payload fetch or by any check makes it return
    [False]; so do an amount that [int] rejects and, with a risk key
    configured, a payload whose [intentHash] is missing or cannot be
    encoded. *)
Theorem audit_never_raises (h : bytes) (s : store W) :
  let f := GhostOracle.fetch_intent_payload env h s in
  let a := GhostOracle.perform_cra_audit env cfg h s in
  (exists b, res a = Ok b) /\
  (forall e, res f = Raise e -> res a = Ok false) /\
  (forall payload,
     res f = Ok payload ->
     let r1 := GhostOracle._check_timestamp env cfg payload (final f) in
     let r2 := GhostOracle._check_amount cfg payload (final r1) in
     let r3 := GhostOracle._check_geography cfg payload (final r2) in
     let r4 := GhostOracle._check_external_risk env cfg payload (final r3) in
     (forall e,
        res r1 = Raise e \/ res r2 = Raise e \/ res r3 = Raise e \/ res r4 = Raise e ->
        res a = Ok false) /\
     (forall v e,
        py_get payload "amountWei" (VInt 0) = Ok v -> py_int v = Raise e ->
        res a = Ok false) /\
     (forall e,
        key_unset (risk_api_key cfg) = false -> risk_request payload = Raise e ->
        res a = Ok false)).
Proof.
  intros f a. split; [|split].
  - apply audit_returns.
  - intros e Hf. subst a. now rewrite (audit_fetch_raises h s e Hf).
  - intros payload Hf r1 r2 r3 r4.
    pose proof (checks_dict_run payload (final f)) as H. cbv zeta in H.
    fold r1 r2 r3 r4 in H.
    set (c := GhostOracle.checks_dict env cfg payload (final f)) in *.
    assert (Hraise : forall x, res c = Raise x -> res a = Ok false).
    { intros x Hc. subst a. now rewrite (audit_check_raises h s payload x Hf Hc). }
    assert (Hany : forall e,
               res r1 = Raise e \/ res r2 = Raise e \/ res r3 = Raise e \/ res r4 = Raise e ->
               res a = Ok false).
    { intros e He.
      destruct (res r1) as [c1|x]; [|destruct H as [Hc _]; exact (Hraise _ Hc)].
      destruct (res r2) as [c2|x]; [|destruct H as [Hc _]; exact (Hraise _ Hc)].
      destruct (res r3) as [c3|x]; [|destruct H as [Hc _]; exact (Hraise _ Hc)].
      destruct (res r4) as [c4|x]; [|destruct H as [Hc _]; exact (Hraise _ Hc)].
      destruct He as [?|[?|[?|?]]]; discriminate. }
    split; [exact Hany|]. split.
    + intros v e Hv He. apply (Hany e). right. left.
      subst r2. rewrite check_amount_run. cbn. now rewrite Hv, He.
    + intros e Hkey Hreq.
      destruct (check_external_risk_keyed env cfg payload (final r3) Hkey) as [[b Hb] Hiff].
      fold r4 in Hb, Hiff.
      assert (Hb' : res r4 = Ok false).
      { rewrite Hb. destruct b; [|reflexivity].
        destruct (proj1 Hiff Hb) as (body & _ & _ & Hbody & _). congruence. }
      destruct (res r1) as [c1|x]; [|destruct H as [Hc _]; exact (Hraise _ Hc)].
      destruct (res r2) as [c2|x]; [|destruct H as [Hc _]; exact (Hraise _ Hc)].
      destruct (res r3) as [c3|x]; [|destruct H as [Hc _]; exact (Hraise _ Hc)].
      rewrite Hb' in H. destruct H as [Hc _].
      subst a. rewrite (audit_checks_return h s payload _ Hf Hc). cbn.
      now rewrite !andb_false_r.
Qed.

End Audit.

(** C2 as stated fails: the timestamp check fails first, yet the three
    later checks are evaluated and the risk service is called. *)
Lemma risk_called_after_failed_timestamp :
  reported (trace (GhostOracle.perform_cra_audit
                     (Sim.env (Sim.at_time (2000000 # 1) Sim.good)) Sim.keyed "h"
                     (Sim.start Sim.genesis))) = [("timestamp"%string, false)] /\
  entered (trace (GhostOracle.perform_cra_audit
                    (Sim.env (Sim.at_time (2000000 # 1) Sim.good)) Sim.keyed "h"
                    (Sim.start Sim.genesis))) = check_names /\
  risk_posts (trace (GhostOracle.perform_cra_audit
                       (Sim.env (Sim.at_time (2000000 # 1) Sim.good)) Sim.keyed "h"
                       (Sim.start Sim.genesis))) =
    [VDict [("intentHash"%string, VStr "0x5"); ("metadata"%string, VDict [])]].
Proof. vm_compute. repeat split. Qed.

Lemma checks_all_evaluated_witness :
  entered (trace (GhostOracle.perform_cra_audit
                    (Sim.env (Sim.at_time (2000000 # 1) Sim.good)) Sim.keyed "h"
                    (Sim.start Sim.genesis))) = check_names /\
  res (GhostOracle.perform_cra_audit
         (Sim.env (Sim.at_time (2000000 # 1) Sim.good)) Sim.keyed "h"
         (Sim.start Sim.genesis)) = Ok false.
Proof.
  pose proof (checks_all_evaluated (Sim.env (Sim.at_time (2000000 # 1) Sim.good)) Sim.keyed
                "h" (Sim.start Sim.genesis) Sim.good_payload eq_refl) as [_ H].
  destruct (H [("timestamp"%string, false); ("amount"%string, true);
               ("geography"%string, true); ("externalRisk"%string, true)] eq_refl)
    as (H1 & _ & _ & H2 & _).
  split; [exact H1|exact H2].
Defined.

Lemma audit_passes_iff_witness :
  res (GhostOracle.perform_cra_audit (Sim.env Sim.good) (CRA_CONFIG None) "h"
         (Sim.start Sim.genesis)) = Ok true /\
  res (GhostOracle.perform_cra_audit
         (Sim.env (Sim.with_payload (Raise ConnectionError) Sim.good)) (CRA_CONFIG None) "h"
         (Sim.start Sim.genesis)) = Ok false.
Proof.
  split.
  - apply (proj1 (audit_passes_iff (Sim.env Sim.good) (CRA_CONFIG None) "h"
                    (Sim.start Sim.genesis))).
    exists Sim.good_payload. repeat split.
  - apply (proj2 (audit_passes_iff (Sim.env (Sim.with_payload (Raise ConnectionError) Sim.good))
                    (CRA_CONFIG None) "h" (Sim.start Sim.genesis)) ConnectionError).
    reflexivity.
Defined.

Lemma audit_never_raises_witness :
  res (GhostOracle.perform_cra_audit
         (Sim.env (Sim.with_payload
                     (Sim.ok_json (VDict [("amountWei"%string, VStr "abc")])) Sim.good))
         (CRA_CONFIG None) "h" (Sim.start Sim.genesis)) = Ok false /\
  res (GhostOracle.perform_cra_audit
         (Sim.env (Sim.with_payload
                     (Sim.ok_json (VDict [("timestamp"%string, VInt 1000000);
                                          ("originCountry"%string, VStr "US")])) Sim.good))
         Sim.keyed "h" (Sim.start Sim.genesis)) = Ok false /\
  res (GhostOracle.perform_cra_audit
         (Sim.env (Sim.with_payload (Raise Timeout) Sim.good))
         (CRA_CONFIG None) "h" (Sim.start Sim.genesis)) = Ok false.
Proof.
  split; [|split].
  - pose proof (audit_never_raises
      (Sim.env (Sim.with_payload (Sim.ok_json (VDict [("amountWei"%string, VStr "abc")])) Sim.good))
      (CRA_CONFIG None) "h" (Sim.start Sim.genesis)) as (_ & _ & H).
    destruct (H _ eq_refl) as (_ & Hamount & _).
    exact (Hamount (VStr "abc") ValueError eq_refl eq_refl).
  - pose proof (audit_never_raises
      (Sim.env (Sim.with_payload
                  (Sim.ok_json (VDict [("timestamp"%string, VInt 1000000);
                                       ("originCountry"%string, VStr "US")])) Sim.good))
      Sim.keyed "h" (Sim.start Sim.genesis)) as (_ & _ & H).
    destruct (H _ eq_refl) as (_ & _ & Hrisk).
    exact (Hrisk (KeyError "intentHash") eq_refl eq_refl).
  - pose proof (audit_never_raises (Sim.env (Sim.with_payload (Raise Timeout) Sim.good))
      (CRA_CONFIG None) "h" (Sim.start Sim.genesis)) as (_ & H & _).
    exact (H Timeout eq_refl).
Defined.

(** C9 as stated fails.  With the clock at [2^53 + 304] a timestamp of
    [2^53 + 3] is 301 seconds old, one more than the window, and the check
    passes: the timestamp becomes the double [2^53 + 4].  And a timestamp
    of [10^400] lies in the future, yet the check does not pass: it raises
    [OverflowError]. *)
Lemma rounded_age_passes_beyond_window :
  (fst (time_time (Sim.env (Sim.at_time (inject_Z (2 ^ 53 + 304)) Sim.good)) Sim.genesis)
   - inject_Z (2 ^ 53 + 3) == 301)%Q /\
  time_window_seconds (CRA_CONFIG None) = 300 /\
  res (GhostOracle._check_timestamp
         (Sim.env (Sim.at_time (inject_Z (2 ^ 53 + 304)) Sim.good)) (CRA_CONFIG None)
         (VDict [("timestamp"%string, VInt (2 ^ 53 + 3))]) (Sim.start Sim.genesis)) = Ok true /\
  (fst (time_time (Sim.env Sim.good) Sim.genesis) - inject_Z (10 ^ 400) < 0)%Q /\
  res (GhostOracle._check_timestamp (Sim.env Sim.good) (CRA_CONFIG None)
         (VDict [("timestamp"%string, VInt (10 ^ 400))]) (Sim.start Sim.genesis))
    = Raise OverflowError.
Proof. vm_compute. repeat split. Qed.





(** ** What each function touches *)
Section Quiet.
Context {W : Type} {py : Interpreter}.

Lemma quiet_ret {A} (p : event -> bool) (a : A) : quiet (W:=W) p (ret a).
Proof. intros s. split; [constructor|reflexivity]. Qed.

Lemma quiet_raise {A} (p : event -> bool) (e : exn) : quiet (W:=W) (A:=A) p (raise e).
Proof. intros s. split; [constructor|reflexivity]. Qed.

Lemma quiet_lift {A} (p : event -> bool) (o : outcome A) : quiet (W:=W) p (lift o).
Proof. intros s. split; [constructor|reflexivity]. Qed.

Lemma quiet_emit (p : event -> bool) (e : event) : p e = true -> quiet (W:=W) p (emit e).
Proof. intros H s. split; [repeat constructor; exact H|reflexivity]. Qed.

Lemma quiet_call {A} (p : event -> bool) (e : outcome A -> event) (f : W -> outcome A * W) :
  (forall o, p (e o) = true) -> quiet p (call e f).
Proof.
  intros H s. unfold call. destruct (f (world s)) as [o w]. cbn.
  split; [repeat constructor; apply H|reflexivity].
Qed.

Lemma quiet_bind {A B} (p : event -> bool) (m : M W A) (f : A -> M W B) :
  quiet p m -> (forall a, quiet p (f a)) -> quiet p (bind m f).
Proof.
  intros Hm Hf s. unfold bind. destruct (Hm s) as [H1 H2].
  destruct (res (m s)) as [a|e]; cbn; [|auto].
  destruct (Hf a (final (m s))) as [H3 H4].
  split; [apply Forall_app; auto|congruence].
Qed.

Lemma quiet_try {A} (p : event -> bool) (m : M W A) (h : exn -> M W A) :
  quiet p m -> (forall e, quiet p (h e)) -> quiet p (try_except m h).
Proof.
  intros Hm Hh s. unfold try_except. destruct (Hm s) as [H1 H2].
  destruct (res (m s)) as [a|e]; cbn; [auto|].
  destruct (Hh e (final (m s))) as [H3 H4].
  split; [apply Forall_app; auto|congruence].
Qed.

Lemma quiet_weaken {A} (p q : event -> bool) (m : M W A) :
  (forall e, p e = true -> q e = true) -> quiet p m -> quiet q m.
Proof.
  intros Hpq Hm s. destruct (Hm s) as [H1 H2]. split; [|exact H2].
  eapply Forall_impl; [exact H1|exact Hpq].
Qed.

End Quiet.

Ltac quiet_step :=
  first
    [ apply quiet_ret | apply quiet_raise | apply quiet_lift
    | apply quiet_emit; reflexivity
    | apply quiet_call; intros; reflexivity
    | apply quiet_bind; [|intros]
    | apply quiet_try; [|intros] ].

Section QuietProgram.
Context {W : Type} {py : Interpreter} (env : Env W) (cfg : config).

Lemma quiet_time (p : event -> bool) :
  (forall t, p (EvTime t) = true) -> quiet p (GhostOracle.time env).
Proof.
  intros H s. unfold GhostOracle.time. destruct (time_time env (world s)) as [t w]. cbn.
  split; [repeat constructor; apply H|reflexivity].
Qed.

Lemma quiet_report_checks (checks : list (string * bool)) :
  quiet (W:=W) audit_event (GhostOracle.report_checks checks).
Proof.
  induction checks as [|[name ok] rest IH]; cbn [GhostOracle.report_checks].
  - quiet_step.
  - unfold GhostOracle.print. quiet_step; [quiet_step|].
    destruct ok; cbn; [exact IH|quiet_step].
Qed.

Lemma quiet_audit (h : bytes) :
  quiet audit_event (GhostOracle.perform_cra_audit env cfg h).
Proof.
  unfold GhostOracle.perform_cra_audit, GhostOracle.fetch_intent_payload,
    GhostOracle.checks_dict, GhostOracle._check_timestamp, GhostOracle._check_amount,
    GhostOracle._check_geography, GhostOracle._check_external_risk,
    GhostOracle.raise_for_status, GhostOracle.json, GhostOracle.print.
  repeat first
    [ quiet_step
    | apply quiet_time; intros; reflexivity
    | apply quiet_report_checks
    | match goal with
      | |- quiet _ (if ?b then _ else _) => destruct b
      | |- quiet _ (match ?o with _ => _ end) => destruct o
      end ].
Qed.

Lemma quiet_sign_intent (h : bytes) : quiet sign_event (GhostOracle.sign_intent env h).
Proof. unfold GhostOracle.sign_intent. quiet_step. Qed.

Lemma quiet_execute_tx (fn : string) (h : bytes) (sig : option bytes) :
  quiet (tx_event fn) (GhostOracle.execute_tx env fn h sig).
Proof.
  unfold GhostOracle.execute_tx, GhostOracle.print.
  repeat first
    [ quiet_step
    | apply quiet_call; intros; cbn; apply String.eqb_refl
    | apply quiet_emit; cbn; apply String.eqb_refl
    | match goal with
      | |- quiet _ (if ?b then _ else _) => destruct b
      end ].
Qed.

Lemma quiet_utils_sign_intent (h : bytes) : quiet sign_event (Utils.sign_intent env h).
Proof.
  unfold Utils.sign_intent, Utils.check_contract_salt.
  repeat first [ quiet_step | match goal with |- quiet _ (if ?b then _ else _) => destruct b end ].
Qed.

Lemma quiet_utils_execute_tx (fn : string) (h : bytes) (sig : option bytes) :
  quiet (tx_event fn) (Utils.execute_tx env fn h sig).
Proof.
  unfold Utils.execute_tx, Utils.check_contract_salt, GhostOracle.print.
  repeat first
    [ quiet_step
    | apply quiet_call; intros; cbn; apply String.eqb_refl
    | apply quiet_emit; cbn; apply String.eqb_refl
    | match goal with
      | |- quiet _ (if ?b then _ else _) => destruct b
      end ].
Qed.

End QuietProgram.

(** ** [handle_intent], case by case *)
Section Handle.
Context {W : Type} {py : Interpreter} (env : Env W) (cfg : config).
Context (sign : bytes -> M W bytes) (exec : string -> bytes -> option bytes -> M W unit).

Lemma bind_get_processed {B} (k : gset bytes -> M W B) (s : store W) :
  bind get_processed k s = k (processed s) s.
Proof. unfold bind, get_processed. cbn. now destruct (k (processed s) s). Qed.

Lemma handle_seen (ev : log_entry) (s : store W) :
  intentHash ev ∈ processed s ->
  GhostOracle.handle_intent_with env cfg sign exec ev s =
    Result (Ok tt) [EvHandle (intentHash ev)] s.
Proof.
  intros H. unfold GhostOracle.handle_intent_with.
  rewrite bind_emit, bind_get_processed.
  rewrite bool_decide_eq_true_2 by assumption. reflexivity.
Qed.

(** The [try] statement around the two submissions. *)
Lemma try_submissions (h sig : bytes) (s : store W) :
  let v := exec "verifyIntent"%string h (Some sig) s in
  let z := exec "seizeAssets"%string h None (final v) in
  try_except
    (exec "verifyIntent"%string h (Some sig) ;; exec "seizeAssets"%string h None)
    (fun exc => GhostOracle.print stderr (MsgExecutionError exc)) s =
  match res v with
  | Raise e => Result (Ok tt) (trace v ++ [EvPrint stderr (MsgExecutionError e)]) (final v)
  | Ok _ =>
      match res z with
      | Raise e =>
          Result (Ok tt) (trace v ++ trace z ++ [EvPrint stderr (MsgExecutionError e)]) (final z)
      | Ok u => Result (Ok u) (trace v ++ trace z) (final z)
      end
  end.
Proof.
  intros v z. unfold try_except.
  destruct (res v) as [[]|e] eqn:Ev.
  - rewrite (bind_ok _ _ _ _ Ev). fold v. fold z. cbn [res trace final].
    destruct (res z) as [u|e] eqn:Ez; cbn; [reflexivity|now rewrite <- app_assoc].
  - rewrite (bind_raise _ _ _ _ Ev). fold v. cbn. reflexivity.
Qed.

Lemma bind_result {A B} (m : M W A) (k : A -> M W B) (s s' : store W) (a : A)
    (t : list event) :
  m s = Result (Ok a) t s' ->
  bind m k s = Result (res (k a s')) (t ++ trace (k a s')) (final (k a s')).
Proof. intros H. unfold bind. rewrite H. reflexivity. Qed.

Lemma handle_new (ev : log_entry) (s : store W) :
  intentHash ev ∉ processed s ->
  let h := intentHash ev in
  let pre := [EvHandle h; EvPrint stdout (MsgNewIntent (to_hex h))] in
  let add st := Store (world st) ({[h]} ∪ processed st) in
  let a := GhostOracle.perform_cra_audit env cfg h s in
  GhostOracle.handle_intent_with env cfg sign exec ev s =
    match res a with
    | Raise e => Result (Raise e) (pre ++ trace a) (final a)
    | Ok false =>
        Result (Ok tt)
               (pre ++ trace a ++ [EvPrint stdout MsgAuditFailed; EvProcessedAdd h])
               (add (final a))
    | Ok true =>
        let sg := sign h (final a) in
        match res sg with
        | Raise e => Result (Raise e) (pre ++ trace a ++ trace sg) (final sg)
        | Ok sig =>
            let v := exec "verifyIntent"%string h (Some sig) (final sg) in
            match res v with
            | Raise e =>
                Result (Ok tt)
                       (pre ++ trace a ++ trace sg ++ trace v ++
                        [EvPrint stderr (MsgExecutionError e); EvProcessedAdd h])
                       (add (final v))
            | Ok _ =>
                let z := exec "seizeAssets"%string h None (final v) in
                match res z with
                | Raise e =>
                    Result (Ok tt)
                           (pre ++ trace a ++ trace sg ++ trace v ++ trace z ++
                            [EvPrint stderr (MsgExecutionError e); EvProcessedAdd h])
                           (add (final z))
                | Ok _ =>
                    Result (Ok tt)
                           (pre ++ trace a ++ trace sg ++ trace v ++ trace z ++
                            [EvProcessedAdd h])
                           (add (final z))
                end
            end
        end
    end.
Proof.
  intros H h pre add a. unfold GhostOracle.handle_intent_with, GhostOracle.print.
  fold h. rewrite bind_emit, bind_get_processed.
  rewrite bool_decide_eq_false_2 by assumption. rewrite bind_emit. cbn [res trace final app].
  destruct (res a) as [[]|e] eqn:Ea.
  - rewrite (bind_ok _ _ _ _ Ea). fold a. cbn [negb].
    set (sg := sign h (final a)).
    destruct (res sg) as [sig|e] eqn:Es.
    + rewrite (bind_ok _ _ _ _ Es). fold sg. cbn [res trace final].
      pose proof (try_submissions h sig (final sg)) as Ht. cbv zeta in Ht.
      set (v := exec "verifyIntent"%string h (Some sig) (final sg)) in *.
      set (z := exec "seizeAssets"%string h None (final v)) in *.
      unfold GhostOracle.print in Ht.
      destruct (res v) as [[]|e].
      * destruct (res z) as [[]|e];
          rewrite (bind_result _ _ _ _ _ _ Ht); cbn; unfold pre; cbn;
          rewrite <- ?app_assoc; reflexivity.
      * rewrite (bind_result _ _ _ _ _ _ Ht); cbn; unfold pre; cbn;
          rewrite <- ?app_assoc; reflexivity.
    + rewrite (bind_raise _ _ _ _ Es). fold sg. cbn. reflexivity.
  - rewrite (bind_ok _ _ _ _ Ea). fold a. cbn. unfold processed_add. cbn. reflexivity.
  - rewrite (bind_raise _ _ _ _ Ea). reflexivity.
Qed.

End Handle.

(** ** Submissions *)
Section Submissions.
Context {W : Type} {py : Interpreter} (env : Env W).

Ltac in_cases H :=
  repeat (destruct H as [H|H]; try discriminate H); try contradiction.

(** What a receipt means for the call that waited for it. *)
Lemma execute_tx_receipt (fn : string) (h : bytes) (sig : option bytes) (s : store W) :
  let r := GhostOracle.execute_tx env fn h sig s in
  (forall tx_hash rc,
     In (EvWaitReceipt tx_hash (Ok rc)) (trace r) ->
     res r = if status rc =? 1 then Ok tt else Raise (RuntimeError fn (status rc))) /\
  (res r = Ok tt ->
     exists tx_hash rc,
       In (EvWaitReceipt tx_hash (Ok rc)) (trace r) /\ status rc = 1 /\
       In (EvPrint stdout (MsgMined fn (gasUsed rc))) (trace r)) /\
  tx_attempts (trace r) = 1%nat.
Proof.
  intros r. subst r. unfold GhostOracle.execute_tx, GhostOracle.print.
  rewrite bind_call. destruct (fst (get_transaction_count env _)) as [nonce|x]; cbn;
    [|split; [intros ? ? H; in_cases H|split; [discriminate|reflexivity]]].
  rewrite bind_call. destruct (fst (gas_price env _)) as [price|x]; cbn;
    [|split; [intros ? ? H; in_cases H|split; [discriminate|reflexivity]]].
  rewrite bind_call. destruct (fst (build_transaction env _ _ _ _ _)) as [tx0|x]; cbn;
    [|split; [intros ? ? H; in_cases H|split; [discriminate|reflexivity]]].
  rewrite bind_call. destruct (fst (estimate_gas env _ _)) as [e|x]; cbn;
    [|split; [intros ? ? H; in_cases H|split; [discriminate|reflexivity]]].
  rewrite bind_lift. destruct (gas_with_margin e) as [g|x]; cbn;
    [|split; [intros ? ? H; in_cases H|split; [discriminate|reflexivity]]].
  rewrite bind_call. destruct (fst (sign_transaction env _ _)) as [raw|x]; cbn;
    [|split; [intros ? ? H; in_cases H|split; [discriminate|reflexivity]]].
  rewrite bind_call. destruct (fst (send_raw_transaction env _ _)) as [txh|x]; cbn;
    [|split; [intros ? ? H; in_cases H|split; [discriminate|reflexivity]]].
  rewrite bind_call. destruct (fst (wait_for_transaction_receipt env _ _)) as [rc|x]; cbn;
    [|split; [intros ? ? H; in_cases H|split; [discriminate|reflexivity]]].
  destruct (status rc =? 1) eqn:Est; cbn.
  - split; [|split; [|reflexivity]].
    + intros ? rc' H. in_cases H. injection H as _ <-. now rewrite Est.
    + intros _. exists txh, rc. apply Z.eqb_eq in Est. auto 12.
  - split; [|split; [discriminate|reflexivity]].
    intros ? rc' H. in_cases H. injection H as _ <-. now rewrite Est.
Qed.

(** The salt check in front of a statement. *)
Lemma bind_check_salt {B} (k : bool -> M W B) (s : store W) :
  bind (Utils.check_contract_salt env) k s =
    let s' := Store (snd (CONTRACT_SALT env (world s))) (processed s) in
    match fst (CONTRACT_SALT env (world s)) with
    | Ok salt =>
        if String.eqb salt Utils.OFFICIAL_SALT
        then Result (res (k true s')) (EvSaltCall (Ok salt) :: trace (k true s')) (final (k true s'))
        else Result (Raise SaltMismatch) [EvSaltCall (Ok salt)] s'
    | Raise x => Result (Raise x) [EvSaltCall (Raise x)] s'
    end.
Proof.
  unfold Utils.check_contract_salt, bind, call, raise, ret.
  destruct (CONTRACT_SALT env (world s)) as [[salt|x] w]; cbn; [|reflexivity].
  destruct (String.eqb salt Utils.OFFICIAL_SALT); cbn; reflexivity.
Qed.

Lemma utils_execute_tx_receipt (fn : string) (h : bytes) (sig : option bytes) (s : store W) :
  let r := Utils.execute_tx env fn h sig s in
  forall tx_hash rc,
    In (EvWaitReceipt tx_hash (Ok rc)) (trace r) ->
    res r = if status rc =? 1 then Ok tt else Raise (RuntimeError fn (status rc)).
Proof.
  intros r. subst r. unfold Utils.execute_tx, GhostOracle.print.
  rewrite bind_check_salt. cbv zeta.
  destruct (fst (CONTRACT_SALT env _)) as [salt|x]; cbn; [|intros ? ? H; in_cases H].
  destruct (salt =? Utils.OFFICIAL_SALT)%string; cbn; [|intros ? ? H; in_cases H].
  rewrite bind_call. destruct (fst (get_transaction_count env _)) as [nonce|x]; cbn;
    [|intros ? ? H; in_cases H].
  rewrite bind_call. destruct (fst (gas_price env _)) as [price|x]; cbn;
    [|intros ? ? H; in_cases H].
  rewrite bind_call. destruct (fst (build_transaction env _ _ _ _ _)) as [tx0|x]; cbn;
    [|intros ? ? H; in_cases H].
  rewrite bind_call. destruct (fst (estimate_gas env _ _)) as [e|x]; cbn;
    [|intros ? ? H; in_cases H].
  rewrite bind_lift. destruct (gas_with_margin e) as [g|x]; cbn;
    [|intros ? ? H; in_cases H].
  rewrite bind_call. destruct (fst (sign_transaction env _ _)) as [raw|x]; cbn;
    [|intros ? ? H; in_cases H].
  rewrite bind_call. destruct (fst (send_raw_transaction env _ _)) as [txh|x]; cbn;
    [|intros ? ? H; in_cases H].
  rewrite bind_call. destruct (fst (wait_for_transaction_receipt env _ _)) as [rc|x]; cbn;
    [|intros ? ? H; in_cases H].
  destruct (status rc =? 1) eqn:Est; cbn;
    intros ? rc' H; in_cases H; injection H as _ <-; now rewrite Est.
Qed.

End Submissions.

Section Abort.
Context {W : Type} {py : Interpreter} (env : Env W) (cfg : config).

Lemma quiet_in {A} (p : event -> bool) (m : M W A) (s : store W) (e : event) :
  quiet p m -> In e (trace (m s)) -> p e = true.
Proof.
  intros Hq Hin. destruct (Hq s) as [H _].
  exact (proj1 (List.Forall_forall _ _) H e Hin).
Qed.

Lemma tx_attempts_app (t1 t2 : list event) :
  tx_attempts (t1 ++ t2) = (tx_attempts t1 + tx_attempts t2)%nat.
Proof. unfold tx_attempts. now rewrite List.filter_app, List.length_app. Qed.

Lemma quiet_no_attempts {A} (p : event -> bool) (m : M W A) (s : store W) :
  (forall e, p e = true -> is_nonce_read e = false) ->
  quiet p m -> tx_attempts (trace (m s)) = 0%nat.
Proof.
  intros Hp Hq. destruct (Hq s) as [H _]. unfold tx_attempts.
  induction H as [|e t He _ IH]; [reflexivity|].
  cbn. now rewrite (Hp e He).
Qed.

Lemma audit_no_attempts (h : bytes) (s : store W) :
  tx_attempts (trace (GhostOracle.perform_cra_audit env cfg h s)) = 0%nat.
Proof.
  apply (quiet_no_attempts audit_event); [|apply quiet_audit].
  intros [] H; try reflexivity; discriminate.
Qed.

Lemma sign_no_attempts (h : bytes) (s : store W) :
  tx_attempts (trace (GhostOracle.sign_intent env h s)) = 0%nat.
Proof.
  apply (quiet_no_attempts sign_event); [|apply quiet_sign_intent].
  intros [] H; try reflexivity; discriminate.
Qed.

(** C8.  A receipt whose status is not 1 makes [execute_tx] raise a
    [RuntimeError] to its caller, in [ghost_oracle.py] and in [utils.py]
    alike; when the [verifyIntent] call raises, the [try] block ends there,
    and [handle_intent] builds a [seizeAssets] transaction only after a
    [verifyIntent] receipt with status 1. *)
Theorem failed_receipt_aborts (ev : log_entry) (s : store W) :
  (forall fn h sig s' tx_hash rc,
     In (EvWaitReceipt tx_hash (Ok rc)) (trace (GhostOracle.execute_tx env fn h sig s')) ->
     status rc <> 1 ->
     res (GhostOracle.execute_tx env fn h sig s') = Raise (RuntimeError fn (status rc))) /\
  (forall fn h sig s' tx_hash rc,
     In (EvWaitReceipt tx_hash (Ok rc)) (trace (Utils.execute_tx env fn h sig s')) ->
     status rc <> 1 ->
     res (Utils.execute_tx env fn h sig s') = Raise (RuntimeError fn (status rc))) /\
  (forall h sig s' e,
     let v := GhostOracle.execute_tx env "verifyIntent" h (Some sig) s' in
     res v = Raise e ->
     try_except
       (GhostOracle.execute_tx env "verifyIntent" h (Some sig) ;;
        GhostOracle.execute_tx env "seizeAssets" h None)
       (fun exc => GhostOracle.print stderr (MsgExecutionError exc)) s' =
     Result (Ok tt) (trace v ++ [EvPrint stderr (MsgExecutionError e)]) (final v)) /\
  let t := trace (GhostOracle.handle_intent env cfg ev s) in
  (forall args nonce price reply,
     In (EvBuildTransaction "seizeAssets" args nonce price reply) t ->
     exists tx_hash rc,
       In (EvWaitReceipt tx_hash (Ok rc)) t /\ status rc = 1 /\
       In (EvPrint stdout (MsgMined "verifyIntent" (gasUsed rc))) t) /\
  (tx_attempts t <= 2)%nat /\
  (tx_attempts t = 2%nat ->
     exists tx_hash rc,
       In (EvWaitReceipt tx_hash (Ok rc)) t /\ status rc = 1 /\
       In (EvPrint stdout (MsgMined "verifyIntent" (gasUsed rc))) t).
Proof.
  split; [|split; [|split]].
  - intros fn h sig s' tx_hash rc Hin Hst.
    rewrite (proj1 (execute_tx_receipt env fn h sig s') tx_hash rc Hin).
    destruct (Z.eqb_spec (status rc) 1); [contradiction|reflexivity].
  - intros fn h sig s' tx_hash rc Hin Hst.
    rewrite (utils_execute_tx_receipt env fn h sig s' tx_hash rc Hin).
    destruct (Z.eqb_spec (status rc) 1); [contradiction|reflexivity].
  - intros h sig s' e v Hv.
    pose proof (try_submissions (GhostOracle.execute_tx env) h sig s') as Ht.
    cbv zeta in Ht. fold v in Ht. rewrite Hv in Ht. exact Ht.
  - intros t. subst t. unfold GhostOracle.handle_intent.
    destruct (decide (intentHash ev ∈ processed s)) as [Hseen|Hnew].
    { rewrite (handle_seen env cfg _ _ ev s Hseen). cbn.
      split; [intros ? ? ? ? [H|[]]; discriminate|]. split; [lia|discriminate]. }
    rewrite (handle_new env cfg _ _ ev s Hnew). cbv zeta.
    set (h := intentHash ev).
    set (a := GhostOracle.perform_cra_audit env cfg h s).
    pose proof (audit_no_attempts h s) as Na. fold a in Na.
    assert (Ha : forall args nonce price reply,
               ~ In (EvBuildTransaction "seizeAssets" args nonce price reply) (trace a)).
    { intros ? ? ? ? Hin. apply (quiet_in _ _ _ _ (quiet_audit env cfg h)) in Hin. discriminate. }
    destruct (res a) as [[]|e].
    2:{ cbn [trace]. split; [|rewrite !tx_attempts_app, Na; cbn; split; [lia|discriminate]].
        intros ? ? ? ? Hin. rewrite !in_app_iff in Hin.
        destruct Hin as [Hin|[Hin|Hin]]; [|now apply Ha in Hin|];
          repeat (destruct Hin as [Hin|Hin]; try discriminate); contradiction. }
    2:{ cbn [trace]. split; [|rewrite !tx_attempts_app, Na; cbn; split; [lia|discriminate]].
        intros ? ? ? ? Hin. rewrite !in_app_iff in Hin.
        destruct Hin as [Hin|Hin]; [|now apply Ha in Hin].
        repeat (destruct Hin as [Hin|Hin]; try discriminate); contradiction. }
    set (sg := GhostOracle.sign_intent env h (final a)).
    pose proof (sign_no_attempts h (final a)) as Ns. fold sg in Ns.
    assert (Hs : forall args nonce price reply,
               ~ In (EvBuildTransaction "seizeAssets" args nonce price reply) (trace sg)).
    { intros ? ? ? ? Hin. apply (quiet_in _ _ _ _ (quiet_sign_intent env h)) in Hin. discriminate. }
    destruct (res sg) as [sig|e].
    2:{ cbn [trace]. split; [|rewrite !tx_attempts_app, Na, Ns; cbn; split; [lia|discriminate]].
        intros ? ? ? ? Hin. rewrite !in_app_iff in Hin.
        destruct Hin as [Hin|[Hin|Hin]]; [|now apply Ha in Hin|now apply Hs in Hin].
        repeat (destruct Hin as [Hin|Hin]; try discriminate); contradiction. }
    set (v := GhostOracle.execute_tx env "verifyIntent" h (Some sig) (final sg)).
    destruct (execute_tx_receipt env "verifyIntent" h (Some sig) (final sg)) as (_ & Hmined & Nv).
    fold v in Hmined, Nv.
    assert (Hv : forall args nonce price reply,
               ~ In (EvBuildTransaction "seizeAssets" args nonce price reply) (trace v)).
    { intros ? ? ? ? Hin.
      apply (quiet_in _ _ _ _ (quiet_execute_tx env "verifyIntent" h (Some sig))) in Hin.
      discriminate. }
    destruct (res v) as [[]|e].
    2:{ cbn [trace]. split; [|rewrite !tx_attempts_app, Na, Ns, Nv; cbn; split; [lia|discriminate]].
        intros ? ? ? ? Hin. rewrite !in_app_iff in Hin.
        destruct Hin as [Hin|[Hin|[Hin|[Hin|Hin]]]];
          [|now apply Ha in Hin|now apply Hs in Hin|now apply Hv in Hin|];
          repeat (destruct Hin as [Hin|Hin]; try discriminate); contradiction. }
    destruct (Hmined eq_refl) as (tx_hash & rc & H1 & H2 & H3).
    set (z := GhostOracle.execute_tx env "seizeAssets" h None (final v)).
    destruct (execute_tx_receipt env "seizeAssets" h None (final v)) as (_ & _ & Nz).
    fold z in Nz.
    assert (Hgoal : forall post,
              exists tx_hash rc,
                In (EvWaitReceipt tx_hash (Ok rc))
                   ([EvHandle h; EvPrint stdout (MsgNewIntent (to_hex h))] ++
                    trace a ++ trace sg ++ trace v ++ trace z ++ post) /\
                status rc = 1 /\
                In (EvPrint stdout (MsgMined "verifyIntent" (gasUsed rc)))
                   ([EvHandle h; EvPrint stdout (MsgNewIntent (to_hex h))] ++
                    trace a ++ trace sg ++ trace v ++ trace z ++ post)).
    { intros post. exists tx_hash, rc. rewrite !in_app_iff. auto 8. }
    destruct (res z) as [[]|e]; cbn [trace]; (split; [intros; apply Hgoal|]);
      rewrite !tx_attempts_app, Na, Ns, Nv, Nz; cbn; (split; [lia|intros _; apply Hgoal]).
Qed.

End Abort.

Lemma failed_receipt_aborts_witness :
  res (GhostOracle.execute_tx (Sim.env (Sim.with_receipts (fun _ => 0) Sim.good))
         "verifyIntent" "h" (Some "sig"%string) (Sim.start Sim.genesis)) =
    Raise (RuntimeError "verifyIntent" 0) /\
  tx_attempts (trace (GhostOracle.handle_intent
                        (Sim.env (Sim.with_receipts (fun _ => 0) Sim.good)) (CRA_CONFIG None)
                        (Sim.entry "h" 1) (Sim.start Sim.genesis))) = 1%nat.
Proof.
  pose proof (failed_receipt_aborts (Sim.env (Sim.with_receipts (fun _ => 0) Sim.good))
                (CRA_CONFIG None) (Sim.entry "h" 1) (Sim.start Sim.genesis))
    as (H1 & _ & _ & _).
  split; [|reflexivity].
  apply (H1 "verifyIntent"%string "h"%string (Some "sig"%string) (Sim.start Sim.genesis)
            "verifyIntent"%string {| status := 0; gasUsed := 21000 |}).
  - vm_compute. auto 12.
  - discriminate.
Defined.

(** ** The processed set *)
Section Processed.
Context {W : Type} {py : Interpreter}.

Lemma added_app (t1 t2 : list event) : added (t1 ++ t2) = added t1 ++ added t2.
Proof. apply omap_app. Qed.





End Processed.

Section ProcessedProgram.
Context {W : Type} {py : Interpreter} (env : Env W) (cfg : config).

Lemma quiet_added {A} (p : event -> bool) (m : M W A) (s : store W) :
  (forall h, p (EvProcessedAdd h) = false) -> quiet p m ->
  added (trace (m s)) = [] /\ processed (final (m s)) = processed s.
Proof.
  intros Hp Hq. destruct (Hq s) as [HF Hproc]. split; [|exact Hproc].
  induction HF as [|e t He _ IH]; [reflexivity|].
  destruct e; try exact IH. rewrite Hp in He. discriminate.
Qed.

(** How a first observation ends: either the decision is reached and the
    identifier is added, last and once, or signing raised and nothing is
    added. *)
Lemma handle_new_summary (ev : log_entry) (s : store W) :
  intentHash ev ∉ processed s ->
  let h := intentHash ev in
  let r := GhostOracle.handle_intent env cfg ev s in
  (res r = Ok tt /\
   (exists t, trace r = t ++ [EvProcessedAdd h] /\ added t = []) /\
   processed (final r) = {[h]} ∪ processed s) \/
  (exists e t,
     res r = Raise e /\ trace r = t ++ [EvSignHash h (Raise e)] /\
     added (trace r) = [] /\ processed (final r) = processed s /\
     forall sig, ~ In (EvSignHash h (Ok sig)) (trace r)).
Proof.
  intros Hnew h r. subst r. unfold GhostOracle.handle_intent.
  rewrite (handle_new env cfg _ _ ev s Hnew). cbv zeta. fold h.
  set (a := GhostOracle.perform_cra_audit env cfg h s).
  destruct (quiet_added audit_event _ s ltac:(reflexivity) (quiet_audit env cfg h)) as [Aa Pa].
  fold a in Aa, Pa.
  destruct (audit_returns env cfg h s) as [b Hb]. fold a in Hb.
  rewrite Hb. destruct b.
  2:{ left. cbn [res trace final processed]. split; [reflexivity|]. split; [|now rewrite Pa].
      eexists. split.
      - rewrite !app_assoc. change [EvPrint stdout MsgAuditFailed; EvProcessedAdd h]
          with ([EvPrint stdout MsgAuditFailed] ++ [EvProcessedAdd h]).
        rewrite !app_assoc. reflexivity.
      - rewrite !added_app, Aa. reflexivity. }
  set (sg := GhostOracle.sign_intent env h (final a)).
  assert (Hsg : trace sg = [EvSignHash h (res sg)] /\ processed (final sg) = processed (final a)).
  { subst sg. unfold GhostOracle.sign_intent, call.
    destruct (sign_hash env h (world (final a))) as [o w]. split; reflexivity. }
  destruct Hsg as [Tsg Psg].
  destruct (res sg) as [sig|e].
  2:{ right. exists e. eexists. cbn [res trace final]. split; [reflexivity|]. split.
      - rewrite Tsg, !app_assoc. reflexivity.
      - rewrite !added_app, Aa, Tsg. split; [reflexivity|]. split; [now rewrite Psg|].
        intros sig Hin. rewrite !in_app_iff in Hin.
        destruct Hin as [Hin|[Hin|Hin]].
        + repeat (destruct Hin as [Hin|Hin]; try discriminate); contradiction.
        + apply (quiet_in _ _ _ _ (quiet_audit env cfg h)) in Hin. discriminate.
        + repeat (destruct Hin as [Hin|Hin]; try discriminate); contradiction. }
  set (s1 := final sg) in *.
  set (v := GhostOracle.execute_tx env "verifyIntent" h (Some sig) s1).
  destruct (quiet_added (tx_event "verifyIntent") _ s1 ltac:(reflexivity)
              (quiet_execute_tx env "verifyIntent" h (Some sig))) as [Av Pv].
  fold v in Av, Pv.
  left. destruct (res v) as [[]|e].
  - set (z := GhostOracle.execute_tx env "seizeAssets" h None (final v)).
    destruct (quiet_added (tx_event "seizeAssets") _ (final v) ltac:(reflexivity)
                (quiet_execute_tx env "seizeAssets" h None)) as [Az Pz].
    fold z in Az, Pz.
    destruct (res z) as [[]|e]; cbn [res trace final processed];
      (split; [reflexivity|]); (split; [|now rewrite Pz, Pv, Psg, Pa]).
    + eexists. split; [rewrite !app_assoc; reflexivity|].
      rewrite !added_app, Aa, Av, Az, Tsg. reflexivity.
    + eexists. split.
      * change [EvPrint stderr (MsgExecutionError e); EvProcessedAdd h]
          with ([EvPrint stderr (MsgExecutionError e)] ++ [EvProcessedAdd h]).
        rewrite !app_assoc. reflexivity.
      * rewrite !added_app, Aa, Av, Az, Tsg. reflexivity.
  - cbn [res trace final processed].
    split; [reflexivity|]. split; [|now rewrite Pv, Psg, Pa].
    eexists. split.
    + change [EvPrint stderr (MsgExecutionError e); EvProcessedAdd h]
        with ([EvPrint stderr (MsgExecutionError e)] ++ [EvProcessedAdd h]).
      rewrite !app_assoc. reflexivity.
    + rewrite !added_app, Aa, Av, Tsg. reflexivity.
Qed.






End ProcessedProgram.

Lemma sim_first_observation_signed :
  In (EvSignHash "h" (Ok "sig"%string))
     (trace (GhostOracle.handle_intent
               (Sim.env (Sim.with_receipts (fun _ => 0) Sim.good)) (CRA_CONFIG None)
               (Sim.entry "h" 1) (Sim.start Sim.genesis))).
Proof. vm_compute. repeat (first [left; reflexivity | right]). Qed.


(** C6 as stated fails.  The signer is down and the node reports the head
    block to each new filter: the intent ["g"] is observed at both ticks,
    and the second observation is no no-op: the payload is fetched and audited
    again and the signature is asked for again, for the first observation
    added nothing to [processed]. *)
Lemma signing_failure_is_observed_again :
  handled
    (trace (GhostOracle.scheduler
              (Sim.env (Sim.with_signature (Raise (Web3Error 2))
                          (Sim.with_latest true Sim.good)))
              (CRA_CONFIG None) (map Sim.mined [[[Sim.entry "g" 1]]; []])
              (Sim.start Sim.genesis))) = ["g"; "g"]%string /\
  List.filter (fun e => match e with EvHttpGet _ _ => true | _ => false end)
    (trace (GhostOracle.scheduler
              (Sim.env (Sim.with_signature (Raise (Web3Error 2))
                          (Sim.with_latest true Sim.good)))
              (CRA_CONFIG None) (map Sim.mined [[[Sim.entry "g" 1]]; []])
              (Sim.start Sim.genesis))) =
    [EvHttpGet "https://your-backend.example.com/intents/0x67" (Sim.ok_json Sim.good_payload);
     EvHttpGet "https://your-backend.example.com/intents/0x67" (Sim.ok_json Sim.good_payload)] /\
  List.filter is_sign_hash
    (trace (GhostOracle.scheduler
              (Sim.env (Sim.with_signature (Raise (Web3Error 2))
                          (Sim.with_latest true Sim.good)))
              (CRA_CONFIG None) (map Sim.mined [[[Sim.entry "g" 1]]; []])
              (Sim.start Sim.genesis))) =
    [EvSignHash "g" (Raise (Web3Error 2)); EvSignHash "g" (Raise (Web3Error 2))] /\
  added
    (trace (GhostOracle.scheduler
              (Sim.env (Sim.with_signature (Raise (Web3Error 2))
                          (Sim.with_latest true Sim.good)))
              (CRA_CONFIG None) (map Sim.mined [[[Sim.entry "g" 1]]; []])
              (Sim.start Sim.genesis))) = [].
Proof. vm_compute. repeat split. Qed.

(** ** The salt guard *)
Section SaltGuard.
Context {W : Type} {py : Interpreter} (env : Env W) (cfg : config).


Lemma audit_unsalted (h : bytes) :
  quiet (fun e => negb (is_salt_call e)) (GhostOracle.perform_cra_audit env cfg h).
Proof.
  apply (quiet_weaken audit_event); [|apply quiet_audit].
  intros [] H; try reflexivity; discriminate.
Qed.

Lemma sign_intent_unsalted (h : bytes) :
  quiet (fun e => negb (is_salt_call e)) (GhostOracle.sign_intent env h).
Proof. unfold GhostOracle.sign_intent. apply quiet_call. reflexivity. Qed.

Lemma execute_tx_unsalted (fn : string) (h : bytes) (sig : option bytes) :
  quiet (fun e => negb (is_salt_call e)) (GhostOracle.execute_tx env fn h sig).
Proof.
  unfold GhostOracle.execute_tx, GhostOracle.print.
  repeat first
    [ quiet_step
    | match goal with
      | |- quiet _ (if ?b then _ else _) => destruct b
      end ].
Qed.

(** X14.  [handle_intent] of [ghost_oracle.py] never reads the contract salt. *)
Lemma handle_intent_never_reads_salt (ev : log_entry) (s : store W) (e : event) :
  In e (trace (GhostOracle.handle_intent env cfg ev s)) -> is_salt_call e = false.
Proof.
  unfold GhostOracle.handle_intent.
  destruct (decide (intentHash ev ∈ processed s)) as [Hseen|Hnew].
  { rewrite (handle_seen env cfg _ _ ev s Hseen). cbn. intros [<-|[]]. reflexivity. }
  rewrite (handle_new env cfg _ _ ev s Hnew). cbv zeta.
  set (h := intentHash ev).
  set (a := GhostOracle.perform_cra_audit env cfg h s).
  assert (Ha : In e (trace a) -> is_salt_call e = false).
  { intros Hin. apply (quiet_in _ _ _ _ (audit_unsalted h)) in Hin.
    now apply negb_true_iff in Hin. }
  set (sg := GhostOracle.sign_intent env h (final a)).
  assert (Hs : In e (trace sg) -> is_salt_call e = false).
  { intros Hin. apply (quiet_in _ _ _ _ (sign_intent_unsalted h)) in Hin.
    now apply negb_true_iff in Hin. }
  assert (Hx : forall fn sig s', In e (trace (GhostOracle.execute_tx env fn h sig s')) ->
                                 is_salt_call e = false).
  { intros fn sig s' Hin. apply (quiet_in _ _ _ _ (execute_tx_unsalted fn h sig)) in Hin.
    now apply negb_true_iff in Hin. }
  assert (Hl : forall l, Forall (fun x => is_salt_call x = false) l -> In e l ->
                         is_salt_call e = false).
  { intros l Hl Hin. exact (proj1 (List.Forall_forall _ _) Hl e Hin). }
  destruct (res a) as [[]|x]; cbn [trace].
  - destruct (res sg) as [sig|x]; cbn [trace].
    + destruct (res (GhostOracle.execute_tx env "verifyIntent" h (Some sig) (final sg)))
        as [[]|x]; cbn [trace].
      * destruct (res (GhostOracle.execute_tx env "seizeAssets" h None _)) as [[]|x];
          cbn [trace]; rewrite !in_app_iff;
          intros [H|[H|[H|[H|[H|H]]]]]; eauto;
          (eapply Hl; [|exact H]); repeat constructor.
      * rewrite !in_app_iff. intros [H|[H|[H|[H|H]]]]; eauto;
          (eapply Hl; [|exact H]); repeat constructor.
    + rewrite !in_app_iff. intros [H|[H|H]]; eauto.
      (eapply Hl; [|exact H]); repeat constructor.
  - rewrite !in_app_iff. intros [H|[H|H]]; eauto;
      (eapply Hl; [|exact H]); repeat constructor.
  - rewrite !in_app_iff. intros [H|H]; eauto.
    (eapply Hl; [|exact H]); repeat constructor.
Qed.

(** X13.  A signature is asked for only after the audit of that intent passed. *)
Lemma signature_only_after_passing_audit (ev : log_entry) (s : store W)
    (h' : bytes) (o : outcome bytes) :
  In (EvSignHash h' o) (trace (GhostOracle.handle_intent env cfg ev s)) ->
  h' = intentHash ev /\
  intentHash ev ∉ processed s /\
  res (GhostOracle.perform_cra_audit env cfg (intentHash ev) s) = Ok true.
Proof.
  unfold GhostOracle.handle_intent.
  destruct (decide (intentHash ev ∈ processed s)) as [Hseen|Hnew].
  { rewrite (handle_seen env cfg _ _ ev s Hseen). cbn. intros [H|[]]. discriminate. }
  rewrite (handle_new env cfg _ _ ev s Hnew). cbv zeta.
  set (h := intentHash ev).
  set (a := GhostOracle.perform_cra_audit env cfg h s).
  assert (Ha : ~ In (EvSignHash h' o) (trace a)).
  { intros Hin. apply (quiet_in _ _ _ _ (quiet_audit env cfg h)) in Hin. discriminate. }
  assert (Hl : forall l, Forall (fun x => is_sign_hash x = false) l -> ~ In (EvSignHash h' o) l).
  { intros l Hl Hin. pose proof (proj1 (List.Forall_forall _ _) Hl _ Hin). discriminate. }
  destruct (res a) as [[]|x]; cbn [trace].
  - intros Hin. split; [|split; [exact Hnew|reflexivity]].
    set (sg := GhostOracle.sign_intent env h (final a)) in *.
    assert (Hs : In (EvSignHash h' o) (trace sg) -> h' = h).
    { subst sg. unfold GhostOracle.sign_intent, call.
      destruct (sign_hash env h (world (final a))) as [o' w]. cbn.
      intros [H|[]]. now injection H. }
    assert (Hx : forall fn sig s', ~ In (EvSignHash h' o)
                                     (trace (GhostOracle.execute_tx env fn h sig s'))).
    { intros fn sig s' H. apply (quiet_in _ _ _ _ (quiet_execute_tx env fn h sig)) in H.
      discriminate. }
    destruct (res sg) as [sig|x]; cbn [trace] in Hin.
    + destruct (res (GhostOracle.execute_tx env "verifyIntent" h (Some sig) (final sg)))
        as [[]|x]; cbn [trace] in Hin.
      * destruct (res (GhostOracle.execute_tx env "seizeAssets" h None _)) as [[]|x];
          cbn [trace] in Hin; rewrite !in_app_iff in Hin;
          destruct Hin as [H|[H|[H|[H|[H|H]]]]]; auto;
          try (now apply Ha in H); try (now apply Hx in H);
          exfalso; (eapply Hl; [|exact H]); repeat constructor.
      * rewrite !in_app_iff in Hin.
        destruct Hin as [H|[H|[H|[H|H]]]]; auto;
          try (now apply Ha in H); try (now apply Hx in H);
          exfalso; (eapply Hl; [|exact H]); repeat constructor.
    + rewrite !in_app_iff in Hin.
      destruct Hin as [H|[H|H]]; auto; try (now apply Ha in H).
      exfalso; (eapply Hl; [|exact H]); repeat constructor.
  - rewrite !in_app_iff. intros [H|[H|H]]; try (now apply Ha in H);
      exfalso; (eapply Hl; [|exact H]); repeat constructor.
  - rewrite !in_app_iff. intros [H|H]; try (now apply Ha in H).
    exfalso; (eapply Hl; [|exact H]); repeat constructor.
Qed.

End SaltGuard.

Section SaltGuardUtils.
Context {W : Type} {py : Interpreter} (env : Env W) (cfg : config).

Lemma quiet_filter_nil {A} (p q : event -> bool) (m : M W A) (s : store W) :
  (forall e, p e = true -> q e = false) -> quiet p m -> List.filter q (trace (m s)) = [].
Proof.
  intros Hpq Hq. destruct (Hq s) as [HF _].
  induction HF as [|e t He _ IH]; [reflexivity|].
  cbn. now rewrite (Hpq e He).
Qed.

(** With the functions of [utils.py] in the place of the module's own,
    an intent whose audit passed is neither signed nor submitted nor marked
    processed when the contract does not return the official salt. *)
Lemma utils_guard_blocks (ev : log_entry) (s : store W) :
  let h := intentHash ev in
  let a := GhostOracle.perform_cra_audit env cfg h s in
  let r := GhostOracle.handle_intent_with env cfg
             (Utils.sign_intent env) (Utils.execute_tx env) ev s in
  h ∉ processed s ->
  res a = Ok true ->
  fst (CONTRACT_SALT env (world (final a))) <> Ok Utils.OFFICIAL_SALT ->
  (exists e, res r = Raise e) /\
  List.filter is_sign_hash (trace r) = [] /\
  List.filter is_send (trace r) = [] /\
  added (trace r) = [] /\
  processed (final r) = processed s.
Proof.
  intros h a r Hnew Ha Hsalt. subst r.
  rewrite (handle_new env cfg _ _ ev s Hnew). cbv zeta. fold h. fold a. rewrite Ha.
  destruct (quiet_added audit_event _ s ltac:(reflexivity) (quiet_audit env cfg h)) as [Aa Pa].
  fold a in Aa, Pa.
  assert (Fa : List.filter is_sign_hash (trace a) = [] /\ List.filter is_send (trace a) = []).
  { split;
      (apply (quiet_filter_nil audit_event _ (GhostOracle.perform_cra_audit env cfg h) s);
       [intros [] H; try reflexivity; discriminate|apply quiet_audit]). }
  destruct Fa as [Fa1 Fa2].
  assert (Hsg : exists e o,
             Utils.sign_intent env h (final a) =
               Result (Raise e) [EvSaltCall o]
                      (Store (snd (CONTRACT_SALT env (world (final a)))) (processed (final a)))).
  { unfold Utils.sign_intent. rewrite bind_check_salt. cbv zeta.
    destruct (fst (CONTRACT_SALT env (world (final a)))) as [salt|x] eqn:E.
    - destruct (String.eqb_spec salt Utils.OFFICIAL_SALT) as [->|Hne]; [congruence|].
      now exists SaltMismatch, (Ok salt).
    - now exists x, (Raise x). }
  destruct Hsg as (e & o & ->). cbn [res trace final processed].
  split; [now exists e|].
  rewrite !List.filter_app, !added_app, Fa1, Fa2, Aa. cbn. auto.
Qed.

End SaltGuardUtils.

(** C1 on the code: the contract returns a salt that is not the official
    one, [utils.check_contract_salt] would raise, and [handle_intent] of
    [ghost_oracle.py], which never calls it, signs the intent, sends both
    transactions and marks the intent processed. *)
Theorem salt_mismatch_still_signs :
  res (Utils.check_contract_salt (Sim.env (Sim.with_salt (Ok "0xBOGUS"%string) Sim.good))
         (Sim.start Sim.genesis)) = Raise SaltMismatch /\
  res (GhostOracle.perform_cra_audit (Sim.env (Sim.with_salt (Ok "0xBOGUS"%string) Sim.good))
         (CRA_CONFIG None) "h" (Sim.start Sim.genesis)) = Ok true /\
  List.filter is_salt_call
    (trace (GhostOracle.handle_intent (Sim.env (Sim.with_salt (Ok "0xBOGUS"%string) Sim.good))
              (CRA_CONFIG None) (Sim.entry "h" 1) (Sim.start Sim.genesis))) = [] /\
  List.filter is_sign_hash
    (trace (GhostOracle.handle_intent (Sim.env (Sim.with_salt (Ok "0xBOGUS"%string) Sim.good))
              (CRA_CONFIG None) (Sim.entry "h" 1) (Sim.start Sim.genesis))) =
    [EvSignHash "h" (Ok "sig"%string)] /\
  List.filter is_send
    (trace (GhostOracle.handle_intent (Sim.env (Sim.with_salt (Ok "0xBOGUS"%string) Sim.good))
              (CRA_CONFIG None) (Sim.entry "h" 1) (Sim.start Sim.genesis))) =
    [EvSendRawTransaction "verifyIntent" (Ok "verifyIntent"%string);
     EvSendRawTransaction "seizeAssets" (Ok "seizeAssets"%string)] /\
  added
    (trace (GhostOracle.handle_intent (Sim.env (Sim.with_salt (Ok "0xBOGUS"%string) Sim.good))
              (CRA_CONFIG None) (Sim.entry "h" 1) (Sim.start Sim.genesis))) = ["h"%string].
Proof. vm_compute. repeat split. Qed.

(** ** The monitor *)
Section Monitor.
Context {W : Type} {py : Interpreter} (env : Env W) (cfg : config).

Lemma handled_app (t1 t2 : list event) : handled (t1 ++ t2) = handled t1 ++ handled t2.
Proof. apply omap_app. Qed.

Lemma quiet_handled {A} (p : event -> bool) (m : M W A) (s : store W) :
  (forall h, p (EvHandle h) = false) -> quiet p m -> handled (trace (m s)) = [].
Proof.
  intros Hp Hq. destruct (Hq s) as [HF _].
  induction HF as [|e t He _ IH]; [reflexivity|].
  destruct e; try exact IH. rewrite Hp in He. discriminate.
Qed.

(** Each call of [handle_intent] is one delivery. *)
Lemma handled_handle_intent (ev : log_entry) (s : store W) :
  handled (trace (GhostOracle.handle_intent env cfg ev s)) = [intentHash ev].
Proof.
  unfold GhostOracle.handle_intent.
  destruct (decide (intentHash ev ∈ processed s)) as [Hseen|Hnew].
  { now rewrite (handle_seen env cfg _ _ ev s Hseen). }
  rewrite (handle_new env cfg _ _ ev s Hnew). cbv zeta.
  set (h := intentHash ev).
  set (a := GhostOracle.perform_cra_audit env cfg h s).
  pose proof (quiet_handled audit_event _ s ltac:(reflexivity) (quiet_audit env cfg h)) as Ha.
  fold a in Ha.
  set (sg := GhostOracle.sign_intent env h (final a)).
  pose proof (quiet_handled sign_event _ (final a) ltac:(reflexivity)
                (quiet_sign_intent env h)) as Hs.
  fold sg in Hs.
  assert (Hx : forall fn sig s', handled (trace (GhostOracle.execute_tx env fn h sig s')) = []).
  { intros fn sig s'.
    apply (quiet_handled (tx_event fn)); [reflexivity|apply quiet_execute_tx]. }
  destruct (res a) as [[]|x]; cbn [trace]; rewrite ?handled_app, ?Ha; try reflexivity.
  destruct (res sg) as [sig|x]; cbn [trace]; rewrite ?handled_app, ?Ha, ?Hs; try reflexivity.
  destruct (res (GhostOracle.execute_tx env "verifyIntent" h (Some sig) (final sg))) as [[]|x];
    cbn [trace]; rewrite ?handled_app, ?Ha, ?Hs, ?Hx; try reflexivity.
  destruct (res (GhostOracle.execute_tx env "seizeAssets" h None _)) as [[]|x];
    cbn [trace]; rewrite ?handled_app, ?Ha, ?Hs, ?Hx; reflexivity.
Qed.

(** The loop delivers the entries in the order given, up to the first call
    that raises. *)
Lemma handled_for_each (entries : list log_entry) (s : store W) :
  let r := GhostOracle.for_each entries (GhostOracle.handle_intent env cfg) s in
  (exists k, handled (trace r) = firstn k (map intentHash entries)) /\
  (res r = Ok tt -> handled (trace r) = map intentHash entries).
Proof.
  revert s. induction entries as [|ev rest IH]; intros s r; subst r.
  - cbn. split; [now exists 0%nat|reflexivity].
  - cbn [GhostOracle.for_each].
    pose proof (handled_handle_intent ev s) as Hh.
    destruct (res (GhostOracle.handle_intent env cfg ev s)) as [[]|x] eqn:E.
    + rewrite (bind_ok _ _ _ _ E). cbn [res trace].
      destruct (IH (final (GhostOracle.handle_intent env cfg ev s))) as [[k Hk] Hall].
      rewrite handled_app, Hh. split.
      * rewrite Hk. now exists (S k).
      * intros Hres. rewrite (Hall Hres). reflexivity.
    + rewrite (bind_raise _ _ _ _ E). cbn [res trace].
      rewrite Hh. split; [now exists 1%nat|discriminate].
Qed.

(** One tick: a new filter, one poll, and the entries it reports. *)
Lemma monitor_job_run (s : store W) :
  let r := GhostOracle.monitor_job env cfg s in
  res r = Ok tt /\
  match fst (create_filter env (world s)) with
  | Raise x => handled (trace r) = []
  | Ok flt =>
      let s1 := Store (snd (create_filter env (world s))) (processed s) in
      match fst (get_new_entries env flt (world s1)) with
      | Raise x => handled (trace r) = []
      | Ok entries =>
          let s2 := Store (snd (get_new_entries env flt (world s1))) (processed s) in
          let loop := GhostOracle.for_each entries (GhostOracle.handle_intent env cfg) s2 in
          handled (trace r) = handled (trace loop) /\
          In (EvGetNewEntries flt (Ok entries)) (trace r)
      end
  end.
Proof.
  intros r. subst r. unfold GhostOracle.monitor_job, GhostOracle.print, try_except.
  rewrite bind_call.
  destruct (fst (create_filter env (world s))) as [flt|x]; cbn; [|auto].
  rewrite bind_call.
  destruct (fst (get_new_entries env flt _)) as [entries|x]; cbn; [|auto].
  set (loop := GhostOracle.for_each entries (GhostOracle.handle_intent env cfg) _).
  destruct (res loop) as [[]|x]; cbn; rewrite ?handled_app; cbn; rewrite ?app_nil_r; auto.
Qed.

End Monitor.

(** ** The monitor on the simulated chain *)
Section Steady.
Context {W X : Type} {py : Interpreter} (view : W -> X).

Lemma steady_ret {A} (a : A) : steady (W:=W) view (ret a).
Proof. intros s. reflexivity. Qed.

Lemma steady_raise {A} (e : exn) : steady (W:=W) (A:=A) view (raise e).
Proof. intros s. reflexivity. Qed.

Lemma steady_lift {A} (o : outcome A) : steady (W:=W) view (lift o).
Proof. intros s. reflexivity. Qed.

Lemma steady_emit (e : event) : steady (W:=W) view (emit e).
Proof. intros s. reflexivity. Qed.

Lemma steady_get_processed : steady (W:=W) view get_processed.
Proof. intros s. reflexivity. Qed.

Lemma steady_processed_add (h : bytes) : steady (W:=W) view (processed_add h).
Proof. intros s. reflexivity. Qed.

Lemma steady_call {A} (e : outcome A -> event) (f : W -> outcome A * W) :
  (forall w, view (snd (f w)) = view w) -> steady view (call e f).
Proof.
  intros H s. unfold call. specialize (H (world s)).
  destruct (f (world s)) as [o w]. exact H.
Qed.

Lemma steady_bind {A B} (m : M W A) (f : A -> M W B) :
  steady view m -> (forall a, steady view (f a)) -> steady view (bind m f).
Proof.
  intros Hm Hf s. unfold bind. specialize (Hm s).
  destruct (res (m s)) as [a|e]; cbn; [|exact Hm].
  now rewrite (Hf a (final (m s))).
Qed.

Lemma steady_try {A} (m : M W A) (h : exn -> M W A) :
  steady view m -> (forall e, steady view (h e)) -> steady view (try_except m h).
Proof.
  intros Hm Hh s. unfold try_except. specialize (Hm s).
  destruct (res (m s)) as [a|e]; cbn; [exact Hm|].
  now rewrite (Hh e (final (m s))).
Qed.

End Steady.

Ltac steady_step :=
  first
    [ apply steady_ret | apply steady_raise | apply steady_lift | apply steady_emit
    | apply steady_get_processed | apply steady_processed_add
    | apply steady_call; intros; reflexivity
    | apply steady_bind; [|intros]
    | apply steady_try; [|intros]
    | match goal with
      | |- steady _ (if ?b then _ else _) => destruct b
      | |- steady _ (match ?o with _ => _ end) => destruct o
      end ].

Section SimChain.
Context {py : Interpreter} (a : Sim.answers) (cfg : config).

Lemma sim_report_checks_steady (checks : list (string * bool)) :
  steady (W:=Sim.node) Sim.blocks (GhostOracle.report_checks checks).
Proof.
  induction checks as [|[name ok] rest IH]; cbn [GhostOracle.report_checks].
  - steady_step.
  - unfold GhostOracle.print. steady_step; [steady_step|].
    destruct ok; cbn; [exact IH|steady_step].
Qed.

(** Handling an intent mines nothing. *)
Lemma sim_handle_intent_steady (ev : log_entry) :
  steady Sim.blocks (GhostOracle.handle_intent (Sim.env a) cfg ev).
Proof.
  unfold GhostOracle.handle_intent, GhostOracle.handle_intent_with,
    GhostOracle.perform_cra_audit, GhostOracle.fetch_intent_payload,
    GhostOracle.checks_dict, GhostOracle._check_timestamp, GhostOracle._check_amount,
    GhostOracle._check_geography, GhostOracle._check_external_risk,
    GhostOracle.sign_intent, GhostOracle.execute_tx,
    GhostOracle.raise_for_status, GhostOracle.json, GhostOracle.print.
  repeat first
    [ apply sim_report_checks_steady
    | intros s; reflexivity
    | steady_step ].
Qed.

Lemma sim_for_each_steady (entries : list log_entry) :
  steady Sim.blocks
    (GhostOracle.for_each entries (GhostOracle.handle_intent (Sim.env a) cfg)).
Proof.
  induction entries as [|ev rest IH]; cbn [GhostOracle.for_each].
  - steady_step.
  - apply steady_bind; [apply sim_handle_intent_steady|intros _; exact IH].
Qed.

End SimChain.

Section MonitorComplete.
Context {W : Type} {py : Interpreter} (env : Env W) (cfg : config).

(** The loop stops early only when signing raised. *)
Lemma for_each_raises (entries : list log_entry) (s : store W) (x : exn) :
  res (GhostOracle.for_each entries (GhostOracle.handle_intent env cfg) s) = Raise x ->
  exists h, In (EvSignHash h (Raise x))
               (trace (GhostOracle.for_each entries (GhostOracle.handle_intent env cfg) s)).
Proof.
  revert s. induction entries as [|ev rest IH]; intros s; [discriminate|].
  cbn [GhostOracle.for_each].
  destruct (res (GhostOracle.handle_intent env cfg ev s)) as [[]|e] eqn:E.
  - rewrite (bind_ok _ _ _ _ E). cbn [res trace]. intros Hr.
    destruct (IH _ Hr) as [h Hh]. exists h. apply in_or_app. now right.
  - rewrite (bind_raise _ _ _ _ E). cbn [res trace]. intros [= <-].
    destruct (decide (intentHash ev ∈ processed s)) as [Hseen|Hnew].
    { unfold GhostOracle.handle_intent in E.
      rewrite (handle_seen env cfg _ _ ev s Hseen) in E. discriminate. }
    destruct (handle_new_summary env cfg ev s Hnew)
      as [(Hok & _)|(e' & t & He & Ht & _)]; [congruence|].
    exists (intentHash ev). rewrite Ht. apply in_or_app. right. left.
    congruence.
Qed.

Lemma monitor_job_delivers (s : store W) (flt : Z) (entries : list log_entry) :
  let r := GhostOracle.monitor_job env cfg s in
  fst (create_filter env (world s)) = Ok flt ->
  fst (get_new_entries env flt (snd (create_filter env (world s)))) = Ok entries ->
  (exists k, handled (trace r) = firstn k (map intentHash entries)) /\
  ((forall h e, ~ In (EvSignHash h (Raise e)) (trace r)) ->
   handled (trace r) = map intentHash entries).
Proof.
  intros r Hc Hg. subst r.
  unfold GhostOracle.monitor_job, GhostOracle.print, try_except.
  rewrite bind_call, Hc. cbn [res trace final].
  rewrite bind_call. cbn [world processed]. rewrite Hg. cbn [res trace final].
  set (loop := GhostOracle.for_each entries (GhostOracle.handle_intent env cfg) _).
  destruct (handled_for_each env cfg entries
              (Store (snd (get_new_entries env flt (snd (create_filter env (world s)))))
                     (processed s))) as [Hk Hall].
  cbv zeta in Hk, Hall. fold loop in Hk, Hall.
  pose proof (for_each_raises entries
                (Store (snd (get_new_entries env flt (snd (create_filter env (world s)))))
                       (processed s))) as Hraise.
  fold loop in Hraise.
  assert (Hh : forall t, handled (EvCreateFilter (Ok flt) :: EvGetNewEntries flt (Ok entries) :: t)
                         = handled t) by reflexivity.
  destruct (res loop) as [[]|x]; cbn [res trace].
  - split.
    + destruct Hk as [k Hk]. exists k. now rewrite Hh.
    + intros _. rewrite Hh. now apply Hall.
  - split.
    + destruct Hk as [k Hk]. exists k.
      rewrite handled_app, Hh, Hk. apply app_nil_r.
    + intros Hno. exfalso. destruct (Hraise x eq_refl) as [h Hin].
      apply (Hno h x). apply in_or_app. left. right. right. exact Hin.
Qed.

End MonitorComplete.

Section SimMonitor.
Context {py : Interpreter} (a : Sim.answers) (cfg : config).

(** A filter created at the head reports nothing, or the head block. *)
Lemma fresh_entries_head (inclusive : bool) (w : Sim.node) :
  Sim.fresh_entries inclusive w =
    if inclusive then List.last (Sim.blocks w) [] else [].
Proof.
  unfold Sim.fresh_entries. destruct inclusive.
  - destruct (Sim.blocks w) as [|b l] using rev_ind; [reflexivity|].
    rewrite List.length_app. cbn [length]. rewrite Nat.add_1_r. cbn [Nat.pred].
    rewrite List.skipn_app, List.skipn_all, Nat.sub_diag. cbn.
    rewrite List.last_last. apply app_nil_r.
  - now rewrite List.skipn_all.
Qed.

Lemma sim_monitor_job_steady : steady Sim.blocks (GhostOracle.monitor_job (Sim.env a) cfg).
Proof.
  unfold GhostOracle.monitor_job, GhostOracle.print.
  apply steady_try; [|intros; apply steady_emit].
  apply steady_bind; [apply steady_call; intros; reflexivity|intros flt].
  apply steady_bind; [|intros; apply sim_for_each_steady].
  apply steady_call. intros w. cbn. unfold Sim.filter_changes.
  destruct (nth_error (Sim.cursors w) (Z.to_nat flt)); reflexivity.
Qed.

(** One tick on the simulated chain. *)
Lemma sim_tick (w : Sim.node) (p : gset bytes) :
  let r := GhostOracle.monitor_job (Sim.env a) cfg (Store w p) in
  (exists k, handled (trace r) =
             firstn k (map intentHash (Sim.fresh_entries (Sim.latest_inclusive a) w))) /\
  Sim.blocks (world (final r)) = Sim.blocks w.
Proof.
  intros r. split; [|apply (sim_monitor_job_steady (Store w p))].
  refine (proj1 (monitor_job_delivers (Sim.env a) cfg (Store w p)
                   (Z.of_nat (length (Sim.cursors w))) _ eq_refl _)).
  cbn. unfold Sim.filter_changes. cbn. rewrite Nat2Z.id.
  rewrite List.nth_error_app2 by lia. rewrite Nat.sub_diag. reflexivity.
Qed.

(** Over a run: whatever is delivered sat in the head block at a tick. *)
Lemma sim_run_delivers (schedule : list (list (list log_entry))) (s : store Sim.node) (h : bytes) :
  In h (handled (trace (GhostOracle.scheduler (Sim.env a) cfg (map Sim.mined schedule) s))) ->
  Sim.latest_inclusive a = true /\
  exists b, In b (Sim.tick_heads (Sim.blocks (world s)) schedule) /\ In h (map intentHash b).
Proof.
  revert s. induction schedule as [|bs rest IH]; intros s; [intros []|].
  cbn [map GhostOracle.scheduler Sim.tick_heads].
  unfold GhostOracle.world_step. unfold bind at 1. cbn [res trace final app].
  set (s1 := Store (Sim.mined bs (world s)) (processed s)).
  rewrite trace_bind, handled_app.
  destruct (sim_tick (Sim.mined bs (world s)) (processed s)) as [[k Hk] Hb].
  fold s1 in Hk, Hb.
  assert (Hres : res (GhostOracle.monitor_job (Sim.env a) cfg s1) = Ok tt).
  { apply (monitor_job_run (Sim.env a) cfg s1). }
  rewrite Hres. intros Hin. apply in_app_or in Hin. destruct Hin as [Hin|Hin].
  - rewrite Hk in Hin.
    assert (Hin' : In h (map intentHash
                           (Sim.fresh_entries (Sim.latest_inclusive a)
                              (Sim.mined bs (world s))))).
    { rewrite <- (List.firstn_skipn k). apply in_or_app. now left. }
    clear Hin. rename Hin' into Hin.
    rewrite fresh_entries_head in Hin.
    destruct (Sim.latest_inclusive a); [|destruct Hin].
    split; [reflexivity|]. exists (List.last (Sim.blocks (world s) ++ bs) []).
    split; [now left|exact Hin].
  - destruct (IH _ Hin) as [Hi (b & Hb1 & Hb2)]. split; [exact Hi|].
    exists b. split; [|exact Hb2]. right.
    rewrite Hb in Hb1. exact Hb1.
Qed.

End SimMonitor.

(** C5, as amended.  A tick never raises; it creates a new filter, polls
    it once and hands the reported entries to [handle_intent] in the order
    reported, all of them unless signing raised.  No observation point is
    kept from one tick to the next: on the simulated chain, every intent
    delivered during a run sat in the head block of the chain at one of
    the ticks, and only on a node that reports the head block to a new
    filter. *)
Theorem monitor_delivers_fresh_filter_entries :
  (forall (W : Type) (py : Interpreter) (env : Env W) (cfg : config) (s : store W),
     let r := GhostOracle.monitor_job env cfg s in
     res r = Ok tt /\
     forall flt entries,
       fst (create_filter env (world s)) = Ok flt ->
       fst (get_new_entries env flt (snd (create_filter env (world s)))) = Ok entries ->
       (exists k, handled (trace r) = firstn k (map intentHash entries)) /\
       ((forall h e, ~ In (EvSignHash h (Raise e)) (trace r)) ->
        handled (trace r) = map intentHash entries)) /\
  (forall (py : Interpreter) (a : Sim.answers) (cfg : config)
          (schedule : list (list (list log_entry)))
          (s : store Sim.node) (h : bytes),
     In h (handled (trace (GhostOracle.scheduler (Sim.env a) cfg (map Sim.mined schedule) s))) ->
     Sim.latest_inclusive a = true /\
     exists b, In b (Sim.tick_heads (Sim.blocks (world s)) schedule) /\
               In h (map intentHash b)).
Proof.
  split.
  - intros W py env cfg s r. split; [apply (monitor_job_run (py:=py) env cfg s)|].
    intros flt entries Hc Hg.
    exact (monitor_job_delivers (py:=py) env cfg s flt entries Hc Hg).
  - intros py a cfg schedule s h. apply (sim_run_delivers (py:=py)).
Qed.

(** C5 as stated fails: the intent ["h"] is declared in a block that is
    followed by another block before the next tick, and no tick ever
    delivers it, whether or not the node reports the head block to a new
    filter; and on a node that does, an intent in the head block is
    delivered again by the next tick. *)
Lemma event_between_ticks_is_missed :
  In (Sim.entry "h" 1) (concat (concat [[]; [[Sim.entry "h" 1]; []]; []])) /\
  handled (trace (GhostOracle.scheduler (Sim.env Sim.good) (CRA_CONFIG None)
                    (map Sim.mined [[]; [[Sim.entry "h" 1]; []]; []])
                    (Sim.start Sim.genesis))) = [] /\
  handled (trace (GhostOracle.scheduler (Sim.env (Sim.with_latest true Sim.good))
                    (CRA_CONFIG None)
                    (map Sim.mined [[]; [[Sim.entry "h" 1]; []]; []])
                    (Sim.start Sim.genesis))) = [] /\
  handled (trace (GhostOracle.scheduler (Sim.env (Sim.with_latest true Sim.good))
                    (CRA_CONFIG None)
                    (map Sim.mined [[[Sim.entry "g" 1]]; []])
                    (Sim.start Sim.genesis))) = ["g"; "g"]%string.
Proof. vm_compute. repeat split. now left. Qed.

Lemma sim_head_delivered :
  In "g"%string
     (handled (trace (GhostOracle.scheduler (Sim.env (Sim.with_latest true Sim.good))
                        (CRA_CONFIG None) (map Sim.mined [[[Sim.entry "g" 1]]])
                        (Sim.start Sim.genesis)))).
Proof. vm_compute. now left. Qed.

Lemma monitor_delivers_fresh_filter_entries_witness :
  Sim.latest_inclusive (Sim.with_latest true Sim.good) = true /\
  exists b, In b (Sim.tick_heads (Sim.blocks (world (Sim.start Sim.genesis)))
                    [[[Sim.entry "g" 1]]]) /\
            In "g"%string (map intentHash b).
Proof.
  exact (proj2 monitor_delivers_fresh_filter_entries Sim.python
           (Sim.with_latest true Sim.good) (CRA_CONFIG None) [[[Sim.entry "g" 1]]]
           (Sim.start Sim.genesis) "g"%string sim_head_delivered).
Defined.
Lemma bind_raise_res {W A B} (m : M W A) (f : A -> M W B) (s : store W) (e : exn) :
  res (m s) = Raise e -> res (bind m f s) = Raise e.
Proof. intros H. now rewrite (bind_raise _ _ _ _ H). Qed.


(** ** The same audit in [cra_audit.py] *)
Section CraAuditFacts.
Context {W : Type} {py : Interpreter} (env : Env W) (cfg : config) (fromisoformat : string -> option Q).

Lemma cra_check_timestamp_run (payload : value) (s : store W) :
  res (CraAudit._check_timestamp env cfg fromisoformat payload s) =
    match py_getitem payload "timestamp" with
    | Ok v =>
        match CraAudit.py_fromisoformat fromisoformat v with
        | Ok ts => Ok (Qle_bool (fst (datetime_now env (world s)) - ts)
                                (inject_Z (time_window_seconds cfg)))
        | Raise e => Raise e
        end
    | Raise e => Raise e
    end.
Proof.
  unfold CraAudit._check_timestamp, CraAudit.utcnow.
  rewrite bind_emit, bind_lift. cbn [res].
  destruct (py_getitem payload "timestamp") as [v|e]; [|reflexivity].
  rewrite bind_lift.
  destruct (CraAudit.py_fromisoformat fromisoformat v) as [ts|e]; [|reflexivity].
  unfold bind. destruct (datetime_now env (world s)) as [t w]. reflexivity.
Qed.

(** X18.  The window test of [cra_audit.py] is the same one-sided comparison,
    on the age of the ISO timestamp read as UTC. *)
Lemma cra_check_timestamp_window (payload : value) (s : store W) (iso : string) (ts : Q) :
  py_getitem payload "timestamp" = Ok (VStr iso) ->
  fromisoformat iso = Some ts ->
  let now := fst (datetime_now env (world s)) in
  let window := inject_Z (time_window_seconds cfg) in
  let verdict := res (CraAudit._check_timestamp env cfg fromisoformat payload s) in
  (verdict = Ok true <-> (now - ts <= window)%Q) /\
  ((now - ts == window)%Q -> verdict = Ok true) /\
  ((now - ts == window + 1)%Q -> verdict = Ok false) /\
  (0 <= time_window_seconds cfg -> (now - ts < 0)%Q -> verdict = Ok true).
Proof.
  intros Hget Hiso now window verdict. subst verdict.
  rewrite cra_check_timestamp_run, Hget. cbn. rewrite Hiso. fold now. fold window.
  split; [|split; [|split]].
  - split; [intros [= H]; now apply Qle_bool_iff|intros H; f_equal; now apply Qle_bool_iff].
  - intros H. f_equal. apply Qle_bool_iff. rewrite H. apply Qle_refl.
  - intros H. f_equal. apply not_true_is_false. rewrite Qle_bool_iff.
    intros H'. rewrite H in H'. lra.
  - intros Hw H. f_equal. apply Qle_bool_iff.
    assert (0 <= window)%Q.
    { unfold window. change 0%Q with (inject_Z 0). now rewrite <- Zle_Qle. }
    lra.
Qed.

(** With its own configuration, which has no risk key, the external
    risk check of [cra_audit.py] always passes and sends nothing. *)
Lemma cra_external_risk_default (payload : value) (s : store W) :
  CraAudit._check_external_risk env CraAudit.CRA_CONFIG payload s =
    Result (Ok true) [EvEnter "_check_external_risk"] s.
Proof. reflexivity. Qed.

(** X20.  The audit of [cra_audit.py] returns a verdict whatever the fetch and
    the checks do: its handler turns every exception into [False]. *)
Lemma cra_audit_never_raises (h : bytes) (s : store W) :
  exists b, res (CraAudit.perform_cra_audit env cfg fromisoformat h s) = Ok b.
Proof.
  unfold CraAudit.perform_cra_audit. apply try_except_returns.
  intros e s'. now exists false.
Qed.

(** X19.  The dict literal of [cra_audit.py] too runs the four checks before the
    loop, and the audit passes exactly when the fetch and the four checks
    do. *)
Lemma cra_audit_passes_iff (h : bytes) (s : store W) :
  let f := CraAudit.fetch_intent_payload env h s in
  let a := CraAudit.perform_cra_audit env cfg fromisoformat h s in
  (res a = Ok true <->
     exists payload,
       res f = Ok payload /\
       let r1 := CraAudit._check_timestamp env cfg fromisoformat payload (final f) in
       let r2 := CraAudit._check_amount cfg payload (final r1) in
       let r3 := CraAudit._check_geography cfg payload (final r2) in
       let r4 := CraAudit._check_external_risk env cfg payload (final r3) in
       res r1 = Ok true /\ res r2 = Ok true /\ res r3 = Ok true /\ res r4 = Ok true) /\
  (forall e, res f = Raise e ->
     a = Result (Ok false) (trace f ++ [EvPrint stdout (MsgAuditError (to_hex h) e)]) (final f)).
Proof.
  intros f a. split.
  2:{ intros e Hf. subst a. unfold CraAudit.perform_cra_audit, try_except.
      rewrite (bind_raise _ _ _ _ Hf). reflexivity. }
  subst a. unfold CraAudit.perform_cra_audit, try_except.
  destruct (res f) as [payload|e] eqn:Hf.
  2:{ rewrite (bind_raise _ _ _ _ Hf). cbn.
      split; [discriminate|intros (p & Hp & _); discriminate]. }
  rewrite (bind_ok _ _ _ _ Hf). fold f. cbn [res trace final].
  unfold CraAudit.checks_dict.
  set (r1 := CraAudit._check_timestamp env cfg fromisoformat payload (final f)).
  transitivity (res r1 = Ok true /\
                res (CraAudit._check_amount cfg payload (final r1)) = Ok true /\
                res (CraAudit._check_geography cfg payload
                       (final (CraAudit._check_amount cfg payload (final r1)))) = Ok true /\
                res (CraAudit._check_external_risk env cfg payload
                       (final (CraAudit._check_geography cfg payload
                                 (final (CraAudit._check_amount cfg payload (final r1))))))
                  = Ok true).
  2:{ split; [intros H; now exists payload|intros (p & [= <-] & H); exact H]. }
  set (r2 := CraAudit._check_amount cfg payload (final r1)).
  set (r3 := CraAudit._check_geography cfg payload (final r2)).
  set (r4 := CraAudit._check_external_risk env cfg payload (final r3)).
  destruct (res r1) as [c1|x] eqn:E1.
  2:{ rewrite (bind_raise _ _ _ _ (bind_raise_res _ _ _ _ E1)). cbn.
      split; [discriminate|intros [? _]; discriminate]. }
  destruct (res r2) as [c2|x] eqn:E2.
  2:{ rewrite (bind_raise _ _ _ _ (eq_trans (f_equal res (bind_ok _ _ _ _ E1))
                                      (bind_raise_res _ _ _ _ E2))). cbn.
      split; [discriminate|intros (_ & ? & _); discriminate]. }
  destruct (res r3) as [c3|x] eqn:E3.
  2:{ rewrite (bind_raise _ _ _ _
                 (eq_trans (f_equal res (bind_ok _ _ _ _ E1))
                    (eq_trans (f_equal res (bind_ok _ _ _ _ E2))
                       (bind_raise_res _ _ _ _ E3)))). cbn.
      split; [discriminate|intros (_ & _ & ? & _); discriminate]. }
  destruct (res r4) as [c4|x] eqn:E4.
  2:{ rewrite (bind_raise _ _ _ _
                 (eq_trans (f_equal res (bind_ok _ _ _ _ E1))
                    (eq_trans (f_equal res (bind_ok _ _ _ _ E2))
                       (eq_trans (f_equal res (bind_ok _ _ _ _ E3))
                          (bind_raise_res _ _ _ _ E4))))). cbn.
      split; [discriminate|intros (_ & _ & _ & ?); discriminate]. }
  assert (Hc : res ((c_timestamp <- CraAudit._check_timestamp env cfg fromisoformat payload ;;
                     c_amount <- CraAudit._check_amount cfg payload ;;
                     c_geography <- CraAudit._check_geography cfg payload ;;
                     c_externalRisk <- CraAudit._check_external_risk env cfg payload ;;
                     ret [("timestamp"%string, c_timestamp); ("amount"%string, c_amount);
                          ("geography"%string, c_geography);
                          ("externalRisk"%string, c_externalRisk)]) (final f)) =
                Ok [("timestamp"%string, c1); ("amount"%string, c2);
                    ("geography"%string, c3); ("externalRisk"%string, c4)]).
  { rewrite (bind_ok _ _ _ _ E1). cbn [res]. rewrite (bind_ok _ _ _ _ E2). cbn [res].
    rewrite (bind_ok _ _ _ _ E3). cbn [res]. rewrite (bind_ok _ _ _ _ E4). reflexivity. }
  rewrite (bind_ok _ _ _ _ Hc). rewrite report_checks_run. cbn.
  destruct c1, c2, c3, c4; cbn; split;
    first [discriminate | intros (? & ? & ? & ?); discriminate | auto].
Qed.

End CraAuditFacts.

(** * Further properties of the code *)

(** ** The amount and geography checks *)
Section LocalChecks.
Context {W : Type} {py : Interpreter} (cfg : config).

(** X1.  The amount check makes no outside call and passes exactly when
    [int(amountWei)] is at most the configured maximum; a payload without
    [amountWei] counts as 0, and an amount that [int] rejects raises. *)
Theorem check_amount_boundary (payload : value) (s : store W) :
  let r := GhostOracle._check_amount cfg payload s in
  trace r = [EvEnter "_check_amount"] /\ final r = s /\
  (res r = Ok true <->
     exists v n, py_get payload "amountWei" (VInt 0) = Ok v /\ py_int v = Ok n /\
                 n <= max_amount_wei cfg) /\
  (forall d n, payload = VDict d -> dict_lookup d "amountWei" = Some (VInt n) ->
     res r = Ok (n <=? max_amount_wei cfg)) /\
  (forall d, payload = VDict d -> dict_lookup d "amountWei" = None ->
     res r = Ok (0 <=? max_amount_wei cfg)) /\
  (forall v e, py_get payload "amountWei" (VInt 0) = Ok v -> py_int v = Raise e ->
     res r = Raise e).
Proof.
  intros r. subst r. rewrite check_amount_run. cbn [res trace final].
  split; [reflexivity|]. split; [reflexivity|]. split; [|split; [|split]].
  - destruct (py_get payload "amountWei" (VInt 0)) as [v|e] eqn:E1.
    + destruct (py_int v) as [n|e] eqn:E2.
      * split.
        -- intros [= H]. exists v, n. apply Z.leb_le in H.
           split; [reflexivity|]. split; [exact E2|exact H].
        -- intros (v' & n' & [= <-] & Hn & H). f_equal.
           rewrite E2 in Hn. injection Hn as <-. now apply Z.leb_le.
      * split; [discriminate|].
        intros (v' & n' & [= <-] & Hn & _). rewrite E2 in Hn. discriminate.
    + split; [discriminate|intros (v' & n' & H & _); discriminate].
  - intros d n -> Hd. cbn. now rewrite Hd.
  - intros d -> Hd. cbn. now rewrite Hd.
  - intros v e -> ->. reflexivity.
Qed.

(** X2.  The geography check makes no outside call, depends on the country only
    through its upper-case form, fails a payload with no or an empty country
    when the empty string is not allowed, and raises on a country that is not
    a string. *)
Theorem check_geography_case_insensitive (d : list (string * value)) (s : store W) :
  let r := GhostOracle._check_geography cfg (VDict d) s in
  trace r = [EvEnter "_check_geography"] /\ final r = s /\
  (forall c, dict_lookup d "originCountry" = Some (VStr c) ->
     res r = Ok (bool_decide (upper c ∈ allowed_countries cfg)) /\
     forall d' c', dict_lookup d' "originCountry" = Some (VStr c') ->
       upper c' = upper c ->
       res (GhostOracle._check_geography cfg (VDict d') s) = res r) /\
  (dict_lookup d "originCountry" = None \/
   dict_lookup d "originCountry" = Some (VStr "") ->
   ""%string ∉ allowed_countries cfg -> res r = Ok false) /\
  (forall v, dict_lookup d "originCountry" = Some v -> (forall c, v <> VStr c) ->
     res r = Raise AttributeError).
Proof.
  intros r. subst r. rewrite check_geography_run. cbn [res trace final py_get].
  split; [reflexivity|]. split; [reflexivity|]. split; [|split].
  - intros c Hc. rewrite Hc. cbn. split; [reflexivity|].
    intros d' c' Hc' Hup. rewrite Hc'. cbn. now rewrite Hup.
  - intros [->| ->] Hempty; unfold py_upper; rewrite upper_empty; cbn [res];
      f_equal; now apply bool_decide_eq_false_2.
  - intros v -> Hv. destruct v; try reflexivity. now destruct (Hv s0).
Qed.

End LocalChecks.

Lemma check_amount_boundary_witness :
  res (GhostOracle._check_amount (W:=Sim.node) (CRA_CONFIG None)
         (VDict [("amountWei"%string, VInt (10 ^ 18))]) (Sim.start Sim.genesis)) = Ok true /\
  res (GhostOracle._check_amount (W:=Sim.node) (CRA_CONFIG None)
         (VDict [("amountWei"%string, VInt (10 ^ 18 + 1))]) (Sim.start Sim.genesis)) = Ok false /\
  res (GhostOracle._check_amount (W:=Sim.node) (CRA_CONFIG None)
         (VDict []) (Sim.start Sim.genesis)) = Ok true /\
  res (GhostOracle._check_amount (W:=Sim.node) (CRA_CONFIG None)
         (VDict [("amountWei"%string, VStr "1e18")]) (Sim.start Sim.genesis))
    = Raise ValueError.
Proof.
  split; [|split; [|split]].
  - exact (proj1 (proj2 (proj2 (proj2
      (check_amount_boundary (CRA_CONFIG None) (VDict [("amountWei"%string, VInt (10 ^ 18))])
         (Sim.start Sim.genesis))))) _ (10 ^ 18) eq_refl eq_refl).
  - exact (proj1 (proj2 (proj2 (proj2
      (check_amount_boundary (CRA_CONFIG None) (VDict [("amountWei"%string, VInt (10 ^ 18 + 1))])
         (Sim.start Sim.genesis))))) _ (10 ^ 18 + 1) eq_refl eq_refl).
  - exact (proj1 (proj2 (proj2 (proj2 (proj2
      (check_amount_boundary (CRA_CONFIG None) (VDict []) (Sim.start Sim.genesis))))))
      _ eq_refl eq_refl).
  - exact (proj2 (proj2 (proj2 (proj2 (proj2
      (check_amount_boundary (CRA_CONFIG None) (VDict [("amountWei"%string, VStr "1e18")])
         (Sim.start Sim.genesis))))))
      (VStr "1e18") ValueError eq_refl eq_refl).
Defined.

Lemma sim_empty_not_allowed : ""%string ∉ allowed_countries (CRA_CONFIG None).
Proof. vm_compute. intros H. discriminate H. Qed.

Lemma check_geography_case_insensitive_witness :
  res (GhostOracle._check_geography (W:=Sim.node) (CRA_CONFIG None)
         (VDict [("originCountry"%string, VStr "us")]) (Sim.start Sim.genesis)) =
  res (GhostOracle._check_geography (W:=Sim.node) (CRA_CONFIG None)
         (VDict [("originCountry"%string, VStr "Us")]) (Sim.start Sim.genesis)) /\
  res (GhostOracle._check_geography (W:=Sim.node) (CRA_CONFIG None)
         (VDict []) (Sim.start Sim.genesis)) = Ok false /\
  res (GhostOracle._check_geography (W:=Sim.node) (CRA_CONFIG None)
         (VDict [("originCountry"%string, VInt 1)]) (Sim.start Sim.genesis))
    = Raise AttributeError.
Proof.
  split; [|split].
  - exact (proj2 (proj1 (proj2 (proj2
      (check_geography_case_insensitive (CRA_CONFIG None)
         [("originCountry"%string, VStr "Us")] (Sim.start Sim.genesis)))) "Us"%string eq_refl)
      [("originCountry"%string, VStr "us")] "us"%string eq_refl eq_refl).
  - exact (proj1 (proj2 (proj2 (proj2
      (check_geography_case_insensitive (CRA_CONFIG None) [] (Sim.start Sim.genesis)))))
      (or_introl eq_refl) sim_empty_not_allowed).
  - refine (proj2 (proj2 (proj2 (proj2
      (check_geography_case_insensitive (CRA_CONFIG None)
         [("originCountry"%string, VInt 1)] (Sim.start Sim.genesis))))) (VInt 1) eq_refl _).
    intros c. discriminate.
Defined.

(** ** What the audit does and does not do *)
Section AuditEffects.
Context {W : Type} {py : Interpreter} (env : Env W) (cfg : config).

Lemma fetch_trace (h : bytes) (s : store W) :
  exists reply,
    trace (GhostOracle.fetch_intent_payload env h s) =
      [EvHttpGet (String.append "https://your-backend.example.com/intents/" (to_hex h)) reply].
Proof.
  unfold GhostOracle.fetch_intent_payload, GhostOracle.raise_for_status, GhostOracle.json.
  rewrite bind_call. destruct (fst (requests_get env _ _)) as [r|x]; cbn; [|eauto].
  destruct ((400 <=? status_code r) && (status_code r <? 600)); cbn; [eauto|].
  destruct (json_body r); cbn; eauto.
Qed.

Lemma checks_dict_no_fetch (payload : value) :
  quiet (fun e => match e with
                  | EvEnter _ | EvHttpPost _ _ _ _ | EvTime _
                  | EvPrint _ (MsgRiskFailed _) => true
                  | _ => false
                  end)
        (GhostOracle.checks_dict env cfg payload).
Proof.
  unfold GhostOracle.checks_dict, GhostOracle._check_timestamp, GhostOracle._check_amount,
    GhostOracle._check_geography, GhostOracle._check_external_risk,
    GhostOracle.raise_for_status, GhostOracle.json, GhostOracle.print.
  repeat first
    [ quiet_step
    | apply quiet_time; intros; reflexivity
    | match goal with
      | |- quiet _ (if ?b then _ else _) => destruct b
      | |- quiet _ (match ?o with _ => _ end) => destruct o
      end ].
Qed.

(** X3.  The audit fetches the payload once, first, and is otherwise
    read-only: it changes [processed] not at all, asks for no signature,
    reads neither salt nor nonce, and sends nothing. *)
Theorem audit_is_read_only (h : bytes) (s : store W) :
  let a := GhostOracle.perform_cra_audit env cfg h s in
  processed (final a) = processed s /\
  added (trace a) = [] /\
  List.filter is_sign_hash (trace a) = [] /\
  List.filter is_send (trace a) = [] /\
  List.filter is_salt_call (trace a) = [] /\
  tx_attempts (trace a) = 0%nat /\
  exists reply t,
    trace a = EvHttpGet (String.append "https://your-backend.example.com/intents/" (to_hex h))
                        reply :: t /\
    List.filter (fun e => match e with EvHttpGet _ _ => true | _ => false end) t = [].
Proof.
  intros a.
  destruct (quiet_added audit_event _ s ltac:(reflexivity) (quiet_audit env cfg h)) as [Aa Pa].
  fold a in Aa, Pa.
  split; [exact Pa|]. split; [exact Aa|].
  split; [apply (quiet_filter_nil audit_event _ (GhostOracle.perform_cra_audit env cfg h) s);
          [intros [] H; try reflexivity; discriminate|apply quiet_audit]|].
  split; [apply (quiet_filter_nil audit_event _ (GhostOracle.perform_cra_audit env cfg h) s);
          [intros [] H; try reflexivity; discriminate|apply quiet_audit]|].
  split; [apply (quiet_filter_nil audit_event _ (GhostOracle.perform_cra_audit env cfg h) s);
          [intros [] H; try reflexivity; discriminate|apply quiet_audit]|].
  split; [apply audit_no_attempts|].
  destruct (fetch_trace h s) as [reply Hf]. exists reply.
  set (f := GhostOracle.fetch_intent_payload env h s) in *.
  destruct (res f) as [payload|e] eqn:Ef.
  - set (c := GhostOracle.checks_dict env cfg payload (final f)).
    assert (Hc : List.filter (fun e => match e with EvHttpGet _ _ => true | _ => false end)
                   (trace c) = []).
    { eapply (quiet_filter_nil _ _ (GhostOracle.checks_dict env cfg payload) (final f));
        [|apply checks_dict_no_fetch].
      intros [] H; try reflexivity; discriminate. }
    destruct (res c) as [checks|e] eqn:Ec.
    + subst a. rewrite (audit_checks_return env cfg h s payload checks Ef Ec).
      cbn [trace]. fold f. fold c. rewrite Hf. cbn [app]. eexists. split; [reflexivity|].
      rewrite List.filter_app, Hc. cbn [app].
      induction (up_to_first_failure checks) as [|x l IH]; [reflexivity|exact IH].
    + subst a. rewrite (audit_check_raises env cfg h s payload e Ef Ec).
      cbn [trace]. fold f. fold c. rewrite Hf. cbn [app]. eexists. split; [reflexivity|].
      rewrite List.filter_app, Hc. reflexivity.
  - subst a. rewrite (audit_fetch_raises env cfg h s e Ef). cbn [trace]. fold f.
    rewrite Hf. eexists. split; reflexivity.
Qed.

(** X4.  When a check raises, the audit fails without printing the result of
    any check, not even of those that had returned: the results are printed
    only after all four have been computed. *)
Theorem raising_check_reports_nothing (h : bytes) (s : store W) (payload : value) (e : exn) :
  let f := GhostOracle.fetch_intent_payload env h s in
  let c := GhostOracle.checks_dict env cfg payload (final f) in
  let a := GhostOracle.perform_cra_audit env cfg h s in
  res f = Ok payload ->
  res c = Raise e ->
  res a = Ok false /\
  reported (trace a) = [] /\
  List.last (trace a) (EvEnter "") = EvPrint stderr (MsgAuditError (to_hex h) e).
Proof.
  intros f c a Hf Hc. subst a. rewrite (audit_check_raises env cfg h s payload e Hf Hc).
  cbn [res trace]. fold f. fold c. split; [reflexivity|].
  destruct (fetch_quiet env h s) as [_ F2]. fold f in F2.
  destruct (checks_dict_entered env cfg payload (final f)) as (_ & _ & Hrep). fold c in Hrep.
  split.
  - rewrite !reported_app, F2, Hrep. reflexivity.
  - rewrite app_assoc. apply List.last_last.
Qed.

(** X5.  A payload with no [timestamp]: [ghost_oracle.py] reads it as 0, so the
    check compares the clock itself with the window; [cra_audit.py] indexes
    the payload and raises [KeyError]. *)
Theorem missing_timestamp (fromisoformat : string -> option Q)
    (d : list (string * value)) (s : store W) :
  dict_lookup d "timestamp" = None ->
  res (GhostOracle._check_timestamp env cfg (VDict d) s) =
    Ok (Qle_bool (fst (time_time env (world s)) - 0) (inject_Z (time_window_seconds cfg))) /\
  res (CraAudit._check_timestamp env cfg fromisoformat (VDict d) s) =
    Raise (KeyError "timestamp").
Proof.
  intros Hd. rewrite check_timestamp_run, cra_check_timestamp_run.
  unfold timestamp_of. cbn [py_get py_getitem]. rewrite Hd. split; [|reflexivity].
  cbn [py_int]. change (Float.of_int 0) with (Ok (A:=Z) 0). cbv beta iota.
  now rewrite sub_zero_le.
Qed.

End AuditEffects.

Lemma raising_check_reports_nothing_witness :
  reported (trace (GhostOracle.perform_cra_audit
                     (Sim.env (Sim.with_payload
                                 (Sim.ok_json (VDict [("timestamp"%string, VInt 1000000);
                                                      ("amountWei"%string, VStr "abc")]))
                                 Sim.good))
                     (CRA_CONFIG None) "h" (Sim.start Sim.genesis))) = [].
Proof.
  exact (proj1 (proj2
    (raising_check_reports_nothing
       (Sim.env (Sim.with_payload
                   (Sim.ok_json (VDict [("timestamp"%string, VInt 1000000);
                                        ("amountWei"%string, VStr "abc")]))
                   Sim.good))
       (CRA_CONFIG None) "h" (Sim.start Sim.genesis)
       (VDict [("timestamp"%string, VInt 1000000); ("amountWei"%string, VStr "abc")])
       ValueError eq_refl eq_refl))).
Defined.

Lemma missing_timestamp_witness :
  res (GhostOracle._check_timestamp (Sim.env Sim.good) (CRA_CONFIG None) (VDict [])
         (Sim.start Sim.genesis)) = Ok false /\
  res (CraAudit._check_timestamp (Sim.env Sim.good) (CRA_CONFIG None) (fun _ => None)
         (VDict []) (Sim.start Sim.genesis)) = Raise (KeyError "timestamp").
Proof.
  exact (missing_timestamp (Sim.env Sim.good) (CRA_CONFIG None) (fun _ => None) []
           (Sim.start Sim.genesis) eq_refl).
Defined.

(** ** The guarded functions of [utils.py] *)
Section UtilsGuard.
Context {W : Type} {py : Interpreter} (env : Env W).

(** X6.  [check_contract_salt] returns only on the exact official salt, and
    [utils.sign_intent] asks for a signature only after it has: any other
    salt raises the mismatch, a failing salt read raises its own exception,
    and in both cases nothing is signed. *)
Theorem utils_sign_intent_guarded (h : bytes) (s : store W) :
  let salt := fst (CONTRACT_SALT env (world s)) in
  let s' := Store (snd (CONTRACT_SALT env (world s))) (processed s) in
  let r := Utils.sign_intent env h s in
  (res (Utils.check_contract_salt env s) = Ok true <-> salt = Ok Utils.OFFICIAL_SALT) /\
  (salt = Ok Utils.OFFICIAL_SALT ->
     r = Result (fst (sign_hash env h (world s')))
                [EvSaltCall salt; EvSignHash h (fst (sign_hash env h (world s')))]
                (Store (snd (sign_hash env h (world s'))) (processed s))) /\
  (salt <> Ok Utils.OFFICIAL_SALT ->
     r = Result (match salt with Ok _ => Raise SaltMismatch | Raise x => Raise x end)
                [EvSaltCall salt] s') /\
  (forall sig, res r = Ok sig -> salt = Ok Utils.OFFICIAL_SALT).
Proof.
  intros salt s' r.
  assert (Hr : r = match salt with
                   | Ok v =>
                       if String.eqb v Utils.OFFICIAL_SALT
                       then Result (fst (sign_hash env h (world s')))
                              [EvSaltCall salt; EvSignHash h (fst (sign_hash env h (world s')))]
                              (Store (snd (sign_hash env h (world s'))) (processed s))
                       else Result (Raise SaltMismatch) [EvSaltCall salt] s'
                   | Raise x => Result (Raise x) [EvSaltCall salt] s'
                   end).
  { subst r. unfold Utils.sign_intent. rewrite bind_check_salt. cbv zeta.
    fold salt. fold s'. destruct salt as [v|x]; [|reflexivity].
    destruct (String.eqb v Utils.OFFICIAL_SALT); [|reflexivity].
    unfold call. cbn. destruct (sign_hash env h (snd (CONTRACT_SALT env (world s)))) as [o w].
    reflexivity. }
  split; [|split; [|split]].
  - unfold Utils.check_contract_salt. rewrite bind_call. fold salt.
    destruct salt as [v|x]; cbn; [|split; discriminate].
    destruct (String.eqb_spec v Utils.OFFICIAL_SALT) as [->|Hne]; cbn.
    + split; reflexivity.
    + split; [discriminate|]. intros [= H]. contradiction.
  - intros Hs. rewrite Hr, Hs. rewrite String.eqb_refl. now rewrite <- Hs.
  - intros Hs. rewrite Hr. destruct salt as [v|x]; [|reflexivity].
    destruct (String.eqb_spec v Utils.OFFICIAL_SALT) as [->|Hne]; [contradiction|reflexivity].
  - intros sig. rewrite Hr. destruct salt as [v|x]; [|discriminate].
    destruct (String.eqb_spec v Utils.OFFICIAL_SALT) as [->|Hne]; [reflexivity|discriminate].
Qed.

(** X7.  [utils.execute_tx] behind its guard: with any salt but the official one
    it stops after the salt read, without reading the nonce or sending; with
    the official salt it does what [ghost_oracle.execute_tx] does from the
    world the salt read leaves, with an empty signature dropped like a
    missing one and without the final line about the mined transaction. *)
Theorem utils_execute_tx_refines (fn : string) (h : bytes) (sig : option bytes) (s : store W) :
  let salt := fst (CONTRACT_SALT env (world s)) in
  let s' := Store (snd (CONTRACT_SALT env (world s))) (processed s) in
  let r := Utils.execute_tx env fn h sig s in
  let g := GhostOracle.execute_tx env fn h (Utils.truthy sig) s' in
  (salt <> Ok Utils.OFFICIAL_SALT ->
     r = Result (match salt with Ok _ => Raise SaltMismatch | Raise x => Raise x end)
                [EvSaltCall salt] s') /\
  (salt = Ok Utils.OFFICIAL_SALT ->
     res r = res g /\ final r = final g /\
     trace r =
       EvSaltCall salt ::
       List.filter (fun e => match e with EvPrint _ (MsgMined _ _) => false | _ => true end)
                   (trace g)).
Proof.
  intros salt s' r g. subst r g. unfold Utils.execute_tx, GhostOracle.execute_tx, GhostOracle.print.
  rewrite bind_check_salt. cbv zeta. fold salt. fold s'. split.
  - intros Hs. destruct salt as [v|x]; [|reflexivity].
    destruct (String.eqb_spec v Utils.OFFICIAL_SALT) as [->|Hne]; [contradiction|reflexivity].
  - intros Hs. rewrite Hs, String.eqb_refl. cbn [res trace final].
    rewrite !bind_call.
    destruct (fst (get_transaction_count env _)) as [nonce|x]; cbn; [|auto].
    rewrite !bind_call.
    destruct (fst (gas_price env _)) as [price|x]; cbn; [|auto].
    rewrite !bind_call.
    destruct (fst (build_transaction env _ _ _ _ _)) as [tx0|x]; cbn; [|auto].
    rewrite !bind_call.
    destruct (fst (estimate_gas env _ _)) as [e|x]; cbn; [|auto].
    rewrite !bind_lift.
    destruct (gas_with_margin e) as [gas|x]; cbn; [|auto].
    rewrite !bind_call.
    destruct (fst (sign_transaction env _ _)) as [raw|x]; cbn; [|auto].
    rewrite !bind_call.
    destruct (fst (send_raw_transaction env _ _)) as [txh|x]; cbn; [|auto].
    rewrite !bind_call.
    destruct (fst (wait_for_transaction_receipt env _ _)) as [rc|x]; cbn; [|auto].
    destruct (status rc =? 1); cbn; auto.
Qed.

End UtilsGuard.

Lemma utils_sign_intent_guarded_witness :
  Utils.sign_intent (Sim.env Sim.good) "h" (Sim.start Sim.genesis) =
    Result (Ok "sig"%string)
           [EvSaltCall (Ok Utils.OFFICIAL_SALT); EvSignHash "h" (Ok "sig"%string)]
           (Sim.start Sim.genesis) /\
  Utils.sign_intent (Sim.env (Sim.with_salt (Ok "0xbogus"%string) Sim.good)) "h"
    (Sim.start Sim.genesis) =
    Result (Raise SaltMismatch) [EvSaltCall (Ok "0xbogus"%string)] (Sim.start Sim.genesis).
Proof.
  split.
  - exact (proj1 (proj2 (utils_sign_intent_guarded (Sim.env Sim.good) "h"
                           (Sim.start Sim.genesis))) eq_refl).
  - refine (proj1 (proj2 (proj2 (utils_sign_intent_guarded
                                   (Sim.env (Sim.with_salt (Ok "0xbogus"%string) Sim.good)) "h"
                                   (Sim.start Sim.genesis)))) _).
    discriminate.
Defined.

Lemma utils_execute_tx_refines_witness :
  res (Utils.execute_tx (Sim.env Sim.good) "verifyIntent" "h" (Some ""%string)
         (Sim.start Sim.genesis)) =
  res (GhostOracle.execute_tx (Sim.env Sim.good) "verifyIntent" "h" None
         (Sim.start Sim.genesis)) /\
  tx_attempts (trace (Utils.execute_tx (Sim.env (Sim.with_salt (Raise (Web3Error 1)) Sim.good))
                        "verifyIntent" "h" (Some "sig"%string) (Sim.start Sim.genesis)))
    = 0%nat.
Proof.
  split.
  - exact (proj1 (proj2 (utils_execute_tx_refines (Sim.env Sim.good) "verifyIntent" "h"
                           (Some ""%string) (Sim.start Sim.genesis)) eq_refl)).
  - rewrite (proj1 (utils_execute_tx_refines
                      (Sim.env (Sim.with_salt (Raise (Web3Error 1)) Sim.good))
                      "verifyIntent" "h" (Some "sig"%string) (Sim.start Sim.genesis))
               ltac:(discriminate)).
    reflexivity.
Defined.

(** ** One submission *)
Section Submission.
Context {W : Type} {py : Interpreter} (env : Env W).

Ltac step_call F :=
  rewrite bind_call; destruct (fst F) as [?v|?x]; cbn.

Ltac in_cases H :=
  repeat (destruct H as [H|H]; try discriminate H); try contradiction.

Ltac only_failure :=
  let ev := fresh "ev" in
  let x := fresh "x" in
  let Hin := fresh "Hin" in
  let Hf := fresh "Hf" in
  intros ev x Hin Hf;
  repeat (destruct Hin as [<-|Hin];
          [cbn in Hf;
           first [ discriminate Hf
                 | injection Hf as <-;
                   split; [reflexivity|split; [reflexivity|repeat constructor]] ]
          |]);
  contradiction.

(** X8.  [execute_tx] has no handler of its own: the first outside call that
    fails ends it, its exception reaches the caller unchanged, and nothing
    is asked of the node afterwards. *)
Theorem execute_tx_stops_at_first_failure (fn : string) (h : bytes) (sig : option bytes)
    (s : store W) (ev : event) (x : exn) :
  let r := GhostOracle.execute_tx env fn h sig s in
  In ev (trace r) -> failure_of ev = Some x ->
  res r = Raise x /\
  List.last (trace r) ev = ev /\
  Forall (fun e => failure_of e = None) (removelast (trace r)).
Proof.
  intros r. subst r. revert ev x.
  unfold GhostOracle.execute_tx, GhostOracle.print.
  rewrite bind_call. destruct (fst (get_transaction_count env _)) as [nonce|x0]; cbn;
    [|only_failure].
  rewrite bind_call. destruct (fst (gas_price env _)) as [price|x0]; cbn; [|only_failure].
  rewrite bind_call. destruct (fst (build_transaction env _ _ _ _ _)) as [tx0|x0]; cbn;
    [|only_failure].
  rewrite bind_call. destruct (fst (estimate_gas env _ _)) as [e|x0]; cbn; [|only_failure].
  rewrite bind_lift. destruct (gas_with_margin e) as [g|x0]; cbn; [|only_failure].
  rewrite bind_call. destruct (fst (sign_transaction env _ _)) as [raw|x0]; cbn;
    [|only_failure].
  rewrite bind_call. destruct (fst (send_raw_transaction env _ _)) as [txh|x0]; cbn;
    [|only_failure].
  rewrite bind_call. destruct (fst (wait_for_transaction_receipt env _ _)) as [rc|x0]; cbn;
    [|only_failure].
  destruct (status rc =? 1); cbn; only_failure.
Qed.

(** X9.  Whatever [execute_tx] sends is the transaction it had signed just
    before: built for the function and arguments given, with the nonce and
    the gas price read in this call, and with the gas limit computed from the
    estimate of that very transaction.  It sends once, and an estimate or a
    signature that fails means nothing is sent. *)
Theorem execute_tx_sends_what_it_signed (fn : string) (h : bytes) (sig : option bytes)
    (s : store W) (raw : bytes) (reply : outcome bytes) :
  let r := GhostOracle.execute_tx env fn h sig s in
  In (EvSendRawTransaction raw reply) (trace r) ->
  exists nonce price tx0 e g t,
    trace r =
      [EvGetTransactionCount (Ok nonce); EvGasPrice (Ok price);
       EvBuildTransaction fn (h :: match sig with Some x => [x] | None => [] end)
         nonce price (Ok tx0);
       EvEstimateGas tx0 (Ok e);
       EvSignTransaction (set_gas tx0 g) (Ok raw);
       EvSendRawTransaction raw reply] ++ t /\
    gas_with_margin e = Ok g /\
    List.filter is_send t = [].
Proof.
  intros r. subst r. unfold GhostOracle.execute_tx, GhostOracle.print.
  rewrite bind_call. destruct (fst (get_transaction_count env _)) as [nonce|x0]; cbn;
    [|intros H; in_cases H].
  rewrite bind_call. destruct (fst (gas_price env _)) as [price|x0]; cbn;
    [|intros H; in_cases H].
  rewrite bind_call. destruct (fst (build_transaction env _ _ _ _ _)) as [tx0|x0]; cbn;
    [|intros H; in_cases H].
  rewrite bind_call. destruct (fst (estimate_gas env _ _)) as [e|x0]; cbn;
    [|intros H; in_cases H].
  rewrite bind_lift. destruct (gas_with_margin e) as [g|x0] eqn:Eg; cbn;
    [|intros H; in_cases H].
  rewrite bind_call. destruct (fst (sign_transaction env _ _)) as [raw0|x0]; cbn;
    [|intros H; in_cases H].
  rewrite bind_call. destruct (fst (send_raw_transaction env _ _)) as [txh|x0]; cbn.
  2:{ intros H; in_cases H. injection H as <- <-.
      exists nonce, price, tx0, e, g, []. auto. }
  rewrite bind_call. destruct (fst (wait_for_transaction_receipt env _ _)) as [rc|x0]; cbn.
  2:{ intros H; in_cases H. injection H as <- <-.
      exists nonce, price, tx0, e, g. eexists. split; [reflexivity|]. auto. }
  destruct (status rc =? 1); cbn;
    intros H; in_cases H; injection H as <- <-;
    exists nonce, price, tx0, e, g; eexists; (split; [reflexivity|]); auto.
Qed.

(** The contract function and the arguments of the transaction built. *)
Lemma execute_tx_builds (fn : string) (h : bytes) (sig : option bytes) (s : store W)
    (fn' : string) (args : list bytes) (nonce price : Z) (reply : outcome transaction) :
  In (EvBuildTransaction fn' args nonce price reply)
     (trace (GhostOracle.execute_tx env fn h sig s)) ->
  fn' = fn /\ args = h :: match sig with Some x => [x] | None => [] end.
Proof.
  unfold GhostOracle.execute_tx, GhostOracle.print.
  rewrite bind_call. destruct (fst (get_transaction_count env _)) as [nonce0|x0]; cbn;
    [|intros H; in_cases H].
  rewrite bind_call. destruct (fst (gas_price env _)) as [price0|x0]; cbn;
    [|intros H; in_cases H].
  rewrite bind_call. destruct (fst (build_transaction env _ _ _ _ _)) as [tx0|x0]; cbn;
    [|intros H; in_cases H; now injection H as <- <- _ _ _].
  rewrite bind_call. destruct (fst (estimate_gas env _ _)) as [e|x0]; cbn;
    [|intros H; in_cases H; now injection H as <- <- _ _ _].
  rewrite bind_lift. destruct (gas_with_margin e) as [g|x0] eqn:Eg; cbn;
    [|intros H; in_cases H; now injection H as <- <- _ _ _].
  rewrite bind_call. destruct (fst (sign_transaction env _ _)) as [raw0|x0]; cbn;
    [|intros H; in_cases H; now injection H as <- <- _ _ _].
  rewrite bind_call. destruct (fst (send_raw_transaction env _ _)) as [txh|x0]; cbn;
    [|intros H; in_cases H; now injection H as <- <- _ _ _].
  rewrite bind_call. destruct (fst (wait_for_transaction_receipt env _ _)) as [rc|x0]; cbn;
    [|intros H; in_cases H; now injection H as <- <- _ _ _].
  destruct (status rc =? 1); cbn; intros H; in_cases H; now injection H as <- <- _ _ _.
Qed.

End Submission.

Lemma execute_tx_stops_at_first_failure_witness :
  res (GhostOracle.execute_tx (Sim.env (Sim.with_estimate (Raise (Web3Error 3)) Sim.good))
         "verifyIntent" "h" (Some "sig"%string) (Sim.start Sim.genesis)) =
    Raise (Web3Error 3) /\
  List.filter is_send
    (trace (GhostOracle.execute_tx (Sim.env (Sim.with_estimate (Raise (Web3Error 3)) Sim.good))
              "verifyIntent" "h" (Some "sig"%string) (Sim.start Sim.genesis))) = [].
Proof.
  split; [|reflexivity].
  refine (proj1 (execute_tx_stops_at_first_failure
                   (Sim.env (Sim.with_estimate (Raise (Web3Error 3)) Sim.good))
                   "verifyIntent" "h" (Some "sig"%string) (Sim.start Sim.genesis)
                   (EvEstimateGas
                      {| tx_function := "verifyIntent"; tx_args := ["h"; "sig"]%string;
                         tx_nonce := 7; tx_gasPrice := 1000000000; tx_gas := None |}
                      (Raise (Web3Error 3)))
                   (Web3Error 3) _ eq_refl)).
  vm_compute. repeat (first [left; reflexivity | right]).
Defined.

Lemma execute_tx_sends_what_it_signed_witness :
  exists nonce price tx0 e g t,
    trace (GhostOracle.execute_tx (Sim.env Sim.good) "seizeAssets" "h" None
             (Sim.start Sim.genesis)) =
      [EvGetTransactionCount (Ok nonce); EvGasPrice (Ok price);
       EvBuildTransaction "seizeAssets" ["h"%string] nonce price (Ok tx0);
       EvEstimateGas tx0 (Ok e);
       EvSignTransaction (set_gas tx0 g) (Ok "seizeAssets"%string);
       EvSendRawTransaction "seizeAssets" (Ok "seizeAssets"%string)] ++ t /\
    gas_with_margin e = Ok g /\
    List.filter is_send t = [].
Proof.
  apply (execute_tx_sends_what_it_signed (Sim.env Sim.good) "seizeAssets" "h" None
           (Sim.start Sim.genesis) "seizeAssets" (Ok "seizeAssets"%string)).
  vm_compute. repeat (first [left; reflexivity | right]).
Defined.

(** ** How one observation can end *)
Section Observation.
Context {W : Type} {py : Interpreter} (env : Env W) (cfg : config).

Lemma sign_intent_run (h : bytes) (s : store W) :
  let sg := GhostOracle.sign_intent env h s in
  trace sg = [EvSignHash h (res sg)] /\ processed (final sg) = processed s.
Proof.
  intros sg. subst sg. unfold GhostOracle.sign_intent, call.
  destruct (sign_hash env h (world s)) as [o w]. split; reflexivity.
Qed.

(** A signature that fails is the last thing [handle_intent] does. *)
Lemma handle_sign_failure (ev : log_entry) (s : store W) (h' : bytes) (x : exn) :
  let r := GhostOracle.handle_intent env cfg ev s in
  In (EvSignHash h' (Raise x)) (trace r) ->
  h' = intentHash ev /\
  intentHash ev ∉ processed s /\
  res (GhostOracle.perform_cra_audit env cfg (intentHash ev) s) = Ok true /\
  res r = Raise x /\
  (exists t, trace r = t ++ [EvSignHash h' (Raise x)]) /\
  processed (final r) = processed s /\
  tx_attempts (trace r) = 0%nat.
Proof.
  intros r. subst r. unfold GhostOracle.handle_intent.
  destruct (decide (intentHash ev ∈ processed s)) as [Hseen|Hnew].
  { rewrite (handle_seen env cfg _ _ ev s Hseen). cbn. intros [H|[]]. discriminate. }
  rewrite (handle_new env cfg _ _ ev s Hnew). cbv zeta.
  set (h := intentHash ev).
  set (a := GhostOracle.perform_cra_audit env cfg h s).
  destruct (quiet_added audit_event _ s ltac:(reflexivity) (quiet_audit env cfg h)) as [_ Pa].
  fold a in Pa.
  pose proof (audit_no_attempts env cfg h s) as Na. fold a in Na.
  assert (Ha : ~ In (EvSignHash h' (Raise x)) (trace a)).
  { intros Hin. apply (quiet_in _ _ _ _ (quiet_audit env cfg h)) in Hin. discriminate. }
  assert (Hl : forall l, Forall (fun e => is_sign_hash e = false) l ->
                         ~ In (EvSignHash h' (Raise x)) l).
  { intros l Hl Hin. pose proof (proj1 (List.Forall_forall _ _) Hl _ Hin). discriminate. }
  assert (Hx : forall fn sig s', ~ In (EvSignHash h' (Raise x))
                                   (trace (GhostOracle.execute_tx env fn h sig s'))).
  { intros fn sig s' H. apply (quiet_in _ _ _ _ (quiet_execute_tx env fn h sig)) in H.
    discriminate. }
  destruct (res a) as [[]|e]; cbn [trace res final].
  - set (sg := GhostOracle.sign_intent env h (final a)).
    destruct (sign_intent_run h (final a)) as [Tsg Psg]. fold sg in Tsg, Psg.
    destruct (res sg) as [sig|e].
    + assert (Hs : ~ In (EvSignHash h' (Raise x)) (trace sg)).
      { rewrite Tsg. intros [H|[]]. discriminate. }
      destruct (res (GhostOracle.execute_tx env "verifyIntent" h (Some sig) (final sg)))
        as [[]|e]; cbn [trace].
      * destruct (res (GhostOracle.execute_tx env "seizeAssets" h None _)) as [[]|e];
          cbn [trace]; rewrite !in_app_iff;
          intros [H|[H|[H|[H|[H|H]]]]];
          try (now apply Ha in H); try (now apply Hs in H); try (now apply Hx in H);
          exfalso; (eapply Hl; [|exact H]); repeat constructor.
      * rewrite !in_app_iff. intros [H|[H|[H|[H|H]]]];
          try (now apply Ha in H); try (now apply Hs in H); try (now apply Hx in H);
          exfalso; (eapply Hl; [|exact H]); repeat constructor.
    + cbn [trace res final]. rewrite Tsg, !in_app_iff.
      intros [H|[H|H]]; [exfalso; (eapply Hl; [|exact H]); repeat constructor
                        |now apply Ha in H|].
      destruct H as [H|[]]. injection H as <- <-.
      split; [reflexivity|]. split; [exact Hnew|]. split; [reflexivity|].
      split; [reflexivity|]. split; [|split].
      * eexists. rewrite !app_assoc. reflexivity.
      * now rewrite Psg, Pa.
      * rewrite !tx_attempts_app, Na. reflexivity.
  - rewrite !in_app_iff. intros [H|[H|H]]; try (now apply Ha in H);
      exfalso; (eapply Hl; [|exact H]); repeat constructor.
  - rewrite !in_app_iff. intros [H|H]; try (now apply Ha in H).
    exfalso; (eapply Hl; [|exact H]); repeat constructor.
Qed.

(** X10.  [handle_intent] raises exactly when the signature of its intent does:
    the audit cannot raise and a failed submission is caught.  The
    exception is the signer's, no transaction was attempted, and the intent
    is not marked processed, so that a later observation starts over. *)
Theorem signing_failure_escapes (ev : log_entry) (s : store W) (x : exn) :
  let h := intentHash ev in
  let r := GhostOracle.handle_intent env cfg ev s in
  (res r = Raise x <-> In (EvSignHash h (Raise x)) (trace r)) /\
  (res r = Raise x ->
     (exists t, trace r = t ++ [EvSignHash h (Raise x)]) /\
     res (GhostOracle.perform_cra_audit env cfg h s) = Ok true /\
     tx_attempts (trace r) = 0%nat /\
     processed (final r) = processed s /\
     h ∉ processed (final r)).
Proof.
  intros h r.
  assert (Hin : res r = Raise x -> In (EvSignHash h (Raise x)) (trace r)).
  { subst r h. intros Hr. destruct (decide (intentHash ev ∈ processed s)) as [Hseen|Hnew].
    { unfold GhostOracle.handle_intent in Hr.
      rewrite (handle_seen env cfg _ _ ev s Hseen) in Hr. discriminate. }
    destruct (handle_new_summary env cfg ev s Hnew)
      as [(Hok & _)|(e & t & He & Ht & _)]; [congruence|].
    rewrite Ht. apply in_or_app. right. left. congruence. }
  split.
  - split; [exact Hin|]. intros H.
    now destruct (handle_sign_failure ev s h x H) as (_ & _ & _ & Hr & _).
  - intros Hr.
    destruct (handle_sign_failure ev s h x (Hin Hr)) as (_ & Hnew & Ha & _ & Ht & Hp & Hn).
    fold r in Ht, Hp, Hn. repeat split; try assumption. now rewrite Hp.
Qed.

(** X11.  An intent whose audit does not pass (a check failed, or the payload
    could not be fetched or read) is never signed and never submitted, and
    it is marked processed all the same: every later observation of it is a
    no-op, whatever its payload has become. *)
Theorem failed_audit_is_final (ev : log_entry) (s : store W) :
  let h := intentHash ev in
  let a := GhostOracle.perform_cra_audit env cfg h s in
  let r := GhostOracle.handle_intent env cfg ev s in
  h ∉ processed s ->
  res a = Ok false ->
  r = Result (Ok tt)
        ([EvHandle h; EvPrint stdout (MsgNewIntent (to_hex h))] ++ trace a ++
         [EvPrint stdout MsgAuditFailed; EvProcessedAdd h])
        (Store (world (final a)) ({[h]} ∪ processed s)) /\
  List.filter is_sign_hash (trace r) = [] /\
  tx_attempts (trace r) = 0%nat /\
  forall ev' w,
    intentHash ev' = h ->
    GhostOracle.handle_intent env cfg ev' (Store w (processed (final r))) =
      Result (Ok tt) [EvHandle h] (Store w (processed (final r))).
Proof.
  intros h a r Hnew Ha.
  destruct (quiet_added audit_event _ s ltac:(reflexivity) (quiet_audit env cfg h)) as [_ Pa].
  fold a in Pa.
  pose proof (audit_no_attempts env cfg h s) as Na. fold a in Na.
  assert (Fa : List.filter is_sign_hash (trace a) = []).
  { apply (quiet_filter_nil audit_event _ (GhostOracle.perform_cra_audit env cfg h) s);
      [intros [] H; try reflexivity; discriminate|apply quiet_audit]. }
  assert (Hr : r = Result (Ok tt)
                     ([EvHandle h; EvPrint stdout (MsgNewIntent (to_hex h))] ++ trace a ++
                      [EvPrint stdout MsgAuditFailed; EvProcessedAdd h])
                     (Store (world (final a)) ({[h]} ∪ processed s))).
  { subst r. unfold GhostOracle.handle_intent.
    rewrite (handle_new env cfg _ _ ev s Hnew). cbv zeta. fold h. fold a.
    rewrite Ha, Pa. reflexivity. }
  split; [exact Hr|]. rewrite Hr. cbn [trace final processed].
  split; [|split].
  - rewrite !List.filter_app, Fa. reflexivity.
  - rewrite !tx_attempts_app, Na. reflexivity.
  - intros ev' w Hev. unfold GhostOracle.handle_intent.
    rewrite (handle_seen env cfg _ _ ev' (Store w ({[h]} ∪ processed s)));
      [now rewrite Hev|].
    cbn. rewrite Hev. set_solver.
Qed.

(** X12.  The only transactions [handle_intent] builds are a [verifyIntent] of
    its intent with the signature the signer returned for it, and a
    [seizeAssets] of its intent alone. *)
Theorem submissions_carry_the_intent (ev : log_entry) (s : store W)
    (fn : string) (args : list bytes) (nonce price : Z) (reply : outcome transaction) :
  let h := intentHash ev in
  let t := trace (GhostOracle.handle_intent env cfg ev s) in
  In (EvBuildTransaction fn args nonce price reply) t ->
  (fn = "verifyIntent"%string /\
   exists sig, args = [h; sig] /\ In (EvSignHash h (Ok sig)) t) \/
  (fn = "seizeAssets"%string /\ args = [h]).
Proof.
  intros h t. subst t. unfold GhostOracle.handle_intent.
  destruct (decide (intentHash ev ∈ processed s)) as [Hseen|Hnew].
  { rewrite (handle_seen env cfg _ _ ev s Hseen). cbn. intros [H|[]]. discriminate. }
  rewrite (handle_new env cfg _ _ ev s Hnew). cbv zeta. fold h.
  set (a := GhostOracle.perform_cra_audit env cfg h s).
  assert (Ha : ~ In (EvBuildTransaction fn args nonce price reply) (trace a)).
  { intros Hin. apply (quiet_in _ _ _ _ (quiet_audit env cfg h)) in Hin. discriminate. }
  assert (Hl : forall l, Forall (fun e => is_nonce_read e = false /\
                                          match e with
                                          | EvBuildTransaction _ _ _ _ _ => False
                                          | _ => True
                                          end) l ->
                         ~ In (EvBuildTransaction fn args nonce price reply) l).
  { intros l Hl Hin. destruct (proj1 (List.Forall_forall _ _) Hl _ Hin) as [_ []]. }
  destruct (res a) as [[]|e]; cbn [trace].
  - set (sg := GhostOracle.sign_intent env h (final a)).
    destruct (sign_intent_run h (final a)) as [Tsg _]. fold sg in Tsg.
    assert (Hs : ~ In (EvBuildTransaction fn args nonce price reply) (trace sg)).
    { rewrite Tsg. intros [H|[]]. discriminate. }
    destruct (res sg) as [sig|e]; cbn [trace].
    + set (v := GhostOracle.execute_tx env "verifyIntent" h (Some sig) (final sg)).
      assert (Hv : In (EvBuildTransaction fn args nonce price reply) (trace v) ->
                   forall l1 l2,
                     (fn = "verifyIntent"%string /\
                      exists sig0, args = [h; sig0] /\
                                   In (EvSignHash h (Ok sig0))
                                      (l1 ++ trace a ++ trace sg ++ l2)) \/
                     (fn = "seizeAssets"%string /\ args = [h])).
      { intros H l1 l2. unfold v in H.
        destruct (execute_tx_builds env _ _ _ _ _ _ _ _ _ H) as [-> ->].
        left. split; [reflexivity|]. exists sig. split; [reflexivity|].
        rewrite Tsg, !in_app_iff. right. right. left. now left. }
      assert (Hz : forall s', In (EvBuildTransaction fn args nonce price reply)
                                 (trace (GhostOracle.execute_tx env "seizeAssets" h None s')) ->
                              fn = "seizeAssets"%string /\ args = [h]).
      { intros s' H. exact (execute_tx_builds env _ _ _ _ _ _ _ _ _ H). }
      destruct (res v) as [[]|e]; cbn [trace].
      * destruct (res (GhostOracle.execute_tx env "seizeAssets" h None _)) as [[]|e];
          cbn [trace]; rewrite !in_app_iff;
          intros [H|[H|[H|[H|[H|H]]]]];
          try (now apply Ha in H); try (now apply Hs in H);
          try (now apply Hv); try (right; now apply Hz in H);
          exfalso; (eapply Hl; [|exact H]); repeat constructor.
      * rewrite !in_app_iff. intros [H|[H|[H|[H|H]]]];
          try (now apply Ha in H); try (now apply Hs in H);
          try (now apply (Hv H _ (trace v ++ _)));
          exfalso; (eapply Hl; [|exact H]); repeat constructor.
    + rewrite !in_app_iff. intros [H|[H|H]];
        try (now apply Ha in H); try (now apply Hs in H);
        exfalso; (eapply Hl; [|exact H]); repeat constructor.
  - rewrite !in_app_iff. intros [H|[H|H]]; try (now apply Ha in H);
      exfalso; (eapply Hl; [|exact H]); repeat constructor.
  - rewrite !in_app_iff. intros [H|H]; try (now apply Ha in H).
    exfalso; (eapply Hl; [|exact H]); repeat constructor.
Qed.

End Observation.

Lemma signing_failure_escapes_witness :
  tx_attempts
    (trace (GhostOracle.handle_intent
              (Sim.env (Sim.with_signature (Raise (Web3Error 2)) Sim.good)) (CRA_CONFIG None)
              (Sim.entry "h" 1) (Sim.start Sim.genesis))) = 0%nat /\
  processed
    (final (GhostOracle.handle_intent
              (Sim.env (Sim.with_signature (Raise (Web3Error 2)) Sim.good)) (CRA_CONFIG None)
              (Sim.entry "h" 1) (Sim.start Sim.genesis))) = processed (Sim.start Sim.genesis).
Proof.
  pose proof (proj2 (signing_failure_escapes (py:=Sim.python)
                       (Sim.env (Sim.with_signature (Raise (Web3Error 2)) Sim.good))
                       (CRA_CONFIG None) (Sim.entry "h" 1) (Sim.start Sim.genesis)
                       (Web3Error 2))
                ltac:(vm_compute; reflexivity)) as (_ & _ & H1 & H2 & _).
  exact (conj H1 H2).
Defined.

Lemma failed_audit_is_final_witness :
  List.filter is_sign_hash
    (trace (GhostOracle.handle_intent
              (Sim.env (Sim.with_payload (Raise ConnectionError) Sim.good)) (CRA_CONFIG None)
              (Sim.entry "h" 1) (Sim.start Sim.genesis))) = [] /\
  tx_attempts
    (trace (GhostOracle.handle_intent
              (Sim.env (Sim.with_payload (Raise ConnectionError) Sim.good)) (CRA_CONFIG None)
              (Sim.entry "h" 1) (Sim.start Sim.genesis))) = 0%nat.
Proof.
  pose proof (failed_audit_is_final (py:=Sim.python)
                (Sim.env (Sim.with_payload (Raise ConnectionError) Sim.good))
                (CRA_CONFIG None) (Sim.entry "h" 1) (Sim.start Sim.genesis)
                (not_elem_of_empty (C:=gset bytes) _)
                ltac:(vm_compute; reflexivity)) as (_ & H1 & H2 & _).
  exact (conj H1 H2).
Defined.

Lemma sim_verify_built :
  In (EvBuildTransaction "verifyIntent" ["h"; "sig"]%string 7 1000000000
        (Ok {| tx_function := "verifyIntent"; tx_args := ["h"; "sig"]%string;
               tx_nonce := 7; tx_gasPrice := 1000000000; tx_gas := None |}))
     (trace (GhostOracle.handle_intent (Sim.env Sim.good) (CRA_CONFIG None)
               (Sim.entry "h" 1) (Sim.start Sim.genesis))).
Proof. vm_compute. repeat (first [left; reflexivity | right]). Qed.

Lemma submissions_carry_the_intent_witness :
  ("verifyIntent"%string = "verifyIntent"%string /\
   exists sig, ["h"; "sig"]%string = ["h"%string; sig] /\
               In (EvSignHash "h" (Ok sig))
                  (trace (GhostOracle.handle_intent (Sim.env Sim.good) (CRA_CONFIG None)
                            (Sim.entry "h" 1) (Sim.start Sim.genesis)))) \/
  ("verifyIntent"%string = "seizeAssets"%string /\ ["h"; "sig"]%string = ["h"%string]).
Proof.
  exact (submissions_carry_the_intent (Sim.env Sim.good) (CRA_CONFIG None)
           (Sim.entry "h" 1) (Sim.start Sim.genesis) _ _ _ _ _ sim_verify_built).
Defined.

(** ** Ticks *)
Section Ticks.
Context {W : Type} {py : Interpreter} (env : Env W) (cfg : config).

Ltac in_cases H :=
  repeat (destruct H as [H|H]; try discriminate H); try contradiction.

(** In the loop over the polled entries a failed signature ends the loop:
    the entries after it are not handed to [handle_intent]. *)
Lemma for_each_sign_failure (entries : list log_entry) (s : store W) (h : bytes) (x : exn) :
  let r := GhostOracle.for_each entries (GhostOracle.handle_intent env cfg) s in
  In (EvSignHash h (Raise x)) (trace r) ->
  res r = Raise x /\
  (exists t, trace r = t ++ [EvSignHash h (Raise x)]) /\
  h ∉ processed (final r) /\
  exists pre ev post,
    entries = pre ++ ev :: post /\ intentHash ev = h /\
    handled (trace r) = map intentHash (pre ++ [ev]).
Proof.
  revert s. induction entries as [|ev0 rest IH]; intros s r; subst r; [intros []|].
  cbn [GhostOracle.for_each].
  pose proof (handled_handle_intent env cfg ev0 s) as Hh0.
  destruct (res (GhostOracle.handle_intent env cfg ev0 s)) as [[]|e] eqn:E.
  - rewrite (bind_ok _ _ _ _ E). cbn [res trace final]. intros Hin.
    apply in_app_or in Hin. destruct Hin as [Hin|Hin].
    { destruct (handle_sign_failure env cfg ev0 s h x Hin) as (_ & _ & _ & Hr & _).
      congruence. }
    destruct (IH _ Hin) as (Hr & (t & Ht) & Hp & pre & ev & post & He & Hh & Hd).
    split; [exact Hr|]. split; [|split; [exact Hp|]].
    + exists (trace (GhostOracle.handle_intent env cfg ev0 s) ++ t).
      rewrite Ht. apply app_assoc.
    + exists (ev0 :: pre), ev, post. split; [now rewrite He|]. split; [exact Hh|].
      rewrite handled_app, Hh0, Hd. reflexivity.
  - rewrite (bind_raise _ _ _ _ E). cbn [res trace final]. intros Hin.
    destruct (handle_sign_failure env cfg ev0 s h x Hin) as (Hh & Hnew & _ & Hr & Ht & Hp & _).
    split; [congruence|]. split; [exact Ht|]. split; [rewrite Hp, Hh; exact Hnew|].
    exists [], ev0, rest. split; [reflexivity|]. split; [now symmetry|exact Hh0].
Qed.

(** X15.  A signature that fails ends the tick: the exception leaves
    [handle_intent], the loop over the polled entries stops there, the
    handler of [monitor_job] prints it, and the entries polled after that
    intent are not handled in this tick.  The intent itself is left out of
    [processed]. *)
Theorem tick_stops_at_signing_failure (s : store W) (h : bytes) (x : exn) :
  let r := GhostOracle.monitor_job env cfg s in
  In (EvSignHash h (Raise x)) (trace r) ->
  res r = Ok tt /\
  (exists t, trace r =
             t ++ [EvSignHash h (Raise x); EvPrint stderr (MsgMonitoringError x)]) /\
  h ∉ processed (final r) /\
  exists flt pre ev post,
    In (EvGetNewEntries flt (Ok (pre ++ ev :: post))) (trace r) /\
    intentHash ev = h /\
    handled (trace r) = map intentHash (pre ++ [ev]).
Proof.
  intros r. subst r. unfold GhostOracle.monitor_job, GhostOracle.print, try_except.
  rewrite bind_call.
  destruct (fst (create_filter env (world s))) as [flt|x0]; cbn [res trace final];
    [|cbn; intros H; in_cases H].
  rewrite bind_call.
  destruct (fst (get_new_entries env flt _)) as [entries|x0]; cbn [res trace final];
    [|cbn; intros H; in_cases H].
  match goal with
  | |- context [GhostOracle.for_each entries _ ?s0] =>
      pose proof (for_each_sign_failure entries s0 h x) as Hloop;
      cbv zeta in Hloop;
      set (loop := GhostOracle.for_each entries (GhostOracle.handle_intent env cfg) s0) in *
  end.
  destruct (res loop) as [[]|e] eqn:El; cbn [res trace final emit app].
  - intros H. in_cases H. destruct (Hloop H) as (Hr & _). discriminate.
  - intros H. destruct H as [H|H]; [discriminate|].
    destruct H as [H|H]; [discriminate|].
    apply in_app_or in H. destruct H as [H|H]; [|in_cases H].
    destruct (Hloop H) as ([= ->] & (t & Ht) & Hp & pre & ev & post & He & Hh & Hd).
    split; [reflexivity|]. split; [|split; [exact Hp|]].
    + exists (EvCreateFilter (Ok flt) :: EvGetNewEntries flt (Ok entries) :: t).
      rewrite Ht. cbn. rewrite <- app_assoc. reflexivity.
    + exists flt, pre, ev, post. split; [right; left; now rewrite He|].
      split; [exact Hh|].
      change (handled (trace loop ++ [EvPrint stderr (MsgMonitoringError x)]) =
              map intentHash (pre ++ [ev])).
      rewrite handled_app, Hd. apply app_nil_r.
Qed.

(** X16.  When the filter cannot be installed, or its poll fails, the tick
    handles nothing: it ends on the line printed by its handler, with no
    signature asked for, no transaction attempted and [processed] as it
    was. *)
Theorem poll_failure_is_logged (s : store W) (x : exn) :
  let r := GhostOracle.monitor_job env cfg s in
  let c := create_filter env (world s) in
  (fst c = Raise x \/
   exists flt, fst c = Ok flt /\ fst (get_new_entries env flt (snd c)) = Raise x) ->
  res r = Ok tt /\
  List.last (trace r) (EvHandle "") = EvPrint stderr (MsgMonitoringError x) /\
  handled (trace r) = [] /\
  List.filter is_sign_hash (trace r) = [] /\
  tx_attempts (trace r) = 0%nat /\
  processed (final r) = processed s.
Proof.
  intros r c. subst r c. unfold GhostOracle.monitor_job, GhostOracle.print, try_except.
  rewrite bind_call.
  intros [Hc|(flt & Hc & Hg)]; rewrite Hc; cbn [res trace final].
  - cbn. auto 10.
  - rewrite bind_call. cbn [world processed]. rewrite Hg. cbn. auto 10.
Qed.

(** Nothing [handle_intent] does shows up under [q] when [q] rejects the
    events of the audit, of signing, of a submission, and its own lines. *)
Lemma handle_intent_filter_nil (q : event -> bool) (ev : log_entry) (s : store W) :
  (forall e, audit_event e = true -> q e = false) ->
  (forall e, sign_event e = true -> q e = false) ->
  (forall fn e, tx_event fn e = true -> q e = false) ->
  (forall h, q (EvHandle h) = false) ->
  (forall to m, q (EvPrint to m) = false) ->
  (forall h, q (EvProcessedAdd h) = false) ->
  List.filter q (trace (GhostOracle.handle_intent env cfg ev s)) = [].
Proof.
  intros Qa Qs Qx Qh Qp Qd. unfold GhostOracle.handle_intent.
  destruct (decide (intentHash ev ∈ processed s)) as [Hseen|Hnew].
  { rewrite (handle_seen env cfg _ _ ev s Hseen). cbn. now rewrite Qh. }
  rewrite (handle_new env cfg _ _ ev s Hnew). cbv zeta.
  set (h := intentHash ev).
  set (a := GhostOracle.perform_cra_audit env cfg h s).
  pose proof (quiet_filter_nil audit_event q (GhostOracle.perform_cra_audit env cfg h) s
                Qa (quiet_audit env cfg h)) as Fa. fold a in Fa.
  set (sg := GhostOracle.sign_intent env h (final a)).
  pose proof (quiet_filter_nil sign_event q (GhostOracle.sign_intent env h) (final a)
                Qs (quiet_sign_intent env h)) as Fs. fold sg in Fs.
  assert (Fx : forall fn sig s', List.filter q (trace (GhostOracle.execute_tx env fn h sig s'))
                                 = []).
  { intros fn sig s'.
    exact (quiet_filter_nil (tx_event fn) q (GhostOracle.execute_tx env fn h sig) s'
             (Qx fn) (quiet_execute_tx env fn h sig)). }
  assert (Hpre : forall t, List.filter q (EvHandle h :: EvPrint stdout (MsgNewIntent (to_hex h))
                                          :: t) = List.filter q t).
  { intros t. cbn. now rewrite Qh, Qp. }
  assert (Hpost : forall l, Forall (fun e => q e = false) l -> List.filter q l = []).
  { intros l Hl. induction Hl as [|e l He _ IH]; [reflexivity|]. cbn. now rewrite He. }
  destruct (res a) as [[]|e]; cbn [trace app]; rewrite ?Hpre;
    rewrite ?List.filter_app, ?Fa; cbn [app];
    try solve [reflexivity | apply Hpost; repeat constructor; auto].
  destruct (res sg) as [sig|e]; cbn [trace app]; rewrite ?Hpre;
    rewrite ?List.filter_app, ?Fa, ?Fs; cbn [app]; try solve [reflexivity | apply Hpost; repeat constructor; auto].
  destruct (res (GhostOracle.execute_tx env "verifyIntent" h (Some sig) (final sg))) as [[]|e];
    cbn [trace app]; rewrite ?Hpre; rewrite ?List.filter_app, ?Fa, ?Fs, ?Fx; cbn [app];
    try solve [reflexivity | apply Hpost; repeat constructor; auto].
  destruct (res (GhostOracle.execute_tx env "seizeAssets" h None _)) as [[]|e];
    cbn [trace app]; rewrite ?Hpre; rewrite ?List.filter_app, ?Fa, ?Fs, ?Fx; cbn [app];
    apply Hpost; repeat constructor; auto.
Qed.

Lemma for_each_no_filter (entries : list log_entry) (s : store W) :
  List.filter is_create_filter
    (trace (GhostOracle.for_each entries (GhostOracle.handle_intent env cfg) s)) = [].
Proof.
  revert s. induction entries as [|ev rest IH]; intros s; [reflexivity|].
  cbn [GhostOracle.for_each]. rewrite trace_bind.
  assert (H0 : List.filter is_create_filter
                 (trace (GhostOracle.handle_intent env cfg ev s)) = []).
  { apply handle_intent_filter_nil; try reflexivity;
      try (intros [] H; try reflexivity; discriminate);
      intros fn [] H; try reflexivity; discriminate. }
  destruct (res (GhostOracle.handle_intent env cfg ev s));
    rewrite List.filter_app, H0, ?IH; reflexivity.
Qed.

Lemma monitor_job_one_filter (s : store W) :
  length (List.filter is_create_filter (trace (GhostOracle.monitor_job env cfg s))) = 1%nat.
Proof.
  unfold GhostOracle.monitor_job, GhostOracle.print, try_except.
  rewrite bind_call.
  destruct (fst (create_filter env (world s))) as [flt|x0]; cbn [res trace final];
    [|reflexivity].
  rewrite bind_call.
  destruct (fst (get_new_entries env flt _)) as [entries|x0]; cbn [res trace final];
    [|reflexivity].
  match goal with
  | |- context [GhostOracle.for_each entries _ ?s0] =>
      pose proof (for_each_no_filter entries s0) as Hl;
      set (loop := GhostOracle.for_each entries (GhostOracle.handle_intent env cfg) s0) in *
  end.
  destruct (res loop) as [[]|e]; cbn [res trace final emit app List.filter is_create_filter];
    rewrite ?List.filter_app, Hl; reflexivity.
Qed.

(** X17.  No failure stops the polling: a run of the scheduler never raises, and
    each of its ticks asks the node for one new filter, whatever the ticks
    before it met. *)
Theorem scheduler_polls_every_tick (between : list (W -> W)) (s : store W) :
  let run := GhostOracle.scheduler env cfg between s in
  res run = Ok tt /\
  length (List.filter is_create_filter (trace run)) = length between.
Proof.
  revert s. induction between as [|f rest IH]; intros s run; subst run; [split; reflexivity|].
  set (s1 := Store (f (world s)) (processed s)).
  pose proof (proj1 (monitor_job_run env cfg s1)) as Hm.
  pose proof (monitor_job_one_filter s1) as H1.
  assert (Hstep : GhostOracle.scheduler env cfg (f :: rest) s =
                  Result (res (GhostOracle.scheduler env cfg rest
                                 (final (GhostOracle.monitor_job env cfg s1))))
                         (trace (GhostOracle.monitor_job env cfg s1) ++
                          trace (GhostOracle.scheduler env cfg rest
                                   (final (GhostOracle.monitor_job env cfg s1))))
                         (final (GhostOracle.scheduler env cfg rest
                                   (final (GhostOracle.monitor_job env cfg s1))))).
  { cbn [GhostOracle.scheduler]. unfold GhostOracle.world_step. unfold bind at 1.
    cbn [res trace final app]. fold s1. now rewrite (bind_ok _ _ _ _ Hm). }
  rewrite Hstep. cbn [res trace final].
  destruct (IH (final (GhostOracle.monitor_job env cfg s1))) as [Hr Hn].
  split; [exact Hr|].
  rewrite List.filter_app, List.length_app, H1, Hn. reflexivity.
Qed.

End Ticks.

Lemma sim_signer_down :
  In (EvSignHash "h" (Raise (Web3Error 2)))
     (trace (GhostOracle.monitor_job
               (Sim.env (Sim.with_signature (Raise (Web3Error 2))
                           (Sim.with_latest true Sim.good)))
               (CRA_CONFIG None)
               (Sim.start (Sim.mined [[Sim.entry "h" 1; Sim.entry "g" 1]] Sim.genesis)))).
Proof. vm_compute. repeat (first [left; reflexivity | right]). Qed.

Lemma tick_stops_at_signing_failure_witness :
  exists t,
    trace (GhostOracle.monitor_job
             (Sim.env (Sim.with_signature (Raise (Web3Error 2))
                         (Sim.with_latest true Sim.good)))
             (CRA_CONFIG None)
             (Sim.start (Sim.mined [[Sim.entry "h" 1; Sim.entry "g" 1]] Sim.genesis))) =
    t ++ [EvSignHash "h" (Raise (Web3Error 2));
          EvPrint stderr (MsgMonitoringError (Web3Error 2))].
Proof.
  exact (proj1 (proj2
           (tick_stops_at_signing_failure
              (Sim.env (Sim.with_signature (Raise (Web3Error 2))
                          (Sim.with_latest true Sim.good)))
              (CRA_CONFIG None)
              (Sim.start (Sim.mined [[Sim.entry "h" 1; Sim.entry "g" 1]] Sim.genesis))
              "h"%string (Web3Error 2) sim_signer_down))).
Defined.

Lemma poll_failure_is_logged_witness :
  res (GhostOracle.monitor_job (refusing_filters ConnectionError (Sim.env Sim.good))
         (CRA_CONFIG None) (Sim.start Sim.genesis)) = Ok tt /\
  List.last
    (trace (GhostOracle.monitor_job (refusing_filters ConnectionError (Sim.env Sim.good))
              (CRA_CONFIG None) (Sim.start Sim.genesis)))
    (EvHandle "") = EvPrint stderr (MsgMonitoringError ConnectionError).
Proof.
  pose proof (poll_failure_is_logged (refusing_filters ConnectionError (Sim.env Sim.good))
                (CRA_CONFIG None) (Sim.start Sim.genesis) ConnectionError
                (or_introl eq_refl)) as (H1 & H2 & _).
  exact (conj H1 H2).
Defined.

(** ** [cra_audit.py] with its own configuration *)
Section CraOwnConfig.
Context {W : Type} {py : Interpreter} (env : Env W) (fromisoformat : string -> option Q).

(** X21.  The configuration written in [cra_audit.py] has no risk key, so the
    audit of that module never posts to the risk service: its external
    risk check passes for every payload, even one without an intent hash.
    Like the audit of [ghost_oracle.py] it asks for no signature, attempts
    no transaction and leaves [processed] as it was. *)
Theorem cra_own_config_skips_risk_service (h : bytes) (payload : value) (s : store W) :
  let a := CraAudit.perform_cra_audit env CraAudit.CRA_CONFIG fromisoformat h s in
  res (CraAudit._check_external_risk env CraAudit.CRA_CONFIG payload s) = Ok true /\
  risk_posts (trace a) = [] /\
  List.filter is_sign_hash (trace a) = [] /\
  tx_attempts (trace a) = 0%nat /\
  processed (final a) = processed s.
Proof.
  intros a. split; [reflexivity|].
  assert (Hq : quiet (fun e => match e with
                               | EvEnter _ | EvHttpGet _ _ | EvTime _ | EvPrint _ _ => true
                               | _ => false
                               end)
                     (CraAudit.perform_cra_audit env CraAudit.CRA_CONFIG fromisoformat h)).
  { unfold CraAudit.perform_cra_audit, CraAudit.fetch_intent_payload,
      GhostOracle.fetch_intent_payload, CraAudit.checks_dict, CraAudit._check_timestamp,
      CraAudit._check_amount, CraAudit._check_geography, GhostOracle._check_amount,
      GhostOracle._check_geography, CraAudit._check_external_risk,
      GhostOracle.raise_for_status, GhostOracle.json, GhostOracle.print.
    cbn [risk_api_key CraAudit.CRA_CONFIG key_unset].
    assert (Hrep : forall checks,
               quiet (W:=W)
                 (fun e => match e with
                           | EvEnter _ | EvHttpGet _ _ | EvTime _ | EvPrint _ _ => true
                           | _ => false
                           end)
                 (GhostOracle.report_checks checks)).
    { intros checks. induction checks as [|[name ok] rest IH]; cbn [GhostOracle.report_checks].
      - quiet_step.
      - unfold GhostOracle.print. quiet_step; [quiet_step|].
        destruct ok; cbn; [exact IH|quiet_step]. }
    assert (Hnow : quiet (fun e => match e with
                                   | EvEnter _ | EvHttpGet _ _ | EvTime _ | EvPrint _ _ => true
                                   | _ => false
                                   end)
                         (CraAudit.utcnow env)).
    { intros s0. unfold CraAudit.utcnow. destruct (datetime_now env (world s0)) as [t w].
      cbn. split; [repeat constructor|reflexivity]. }
    repeat first
      [ quiet_step
      | apply Hnow
      | apply Hrep
      | match goal with
        | |- quiet _ (if ?b then _ else _) => destruct b
        | |- quiet _ (match ?o with _ => _ end) => destruct o
        end ]. }
  destruct (Hq s) as [HF Hp]. fold a in HF, Hp.
  split; [|split; [|split; [|exact Hp]]].
  - induction HF as [|e t He _ IH]; [reflexivity|]. destruct e; try discriminate; exact IH.
  - induction HF as [|e t He _ IH]; [reflexivity|]. destruct e; try discriminate; exact IH.
  - unfold tx_attempts.
    induction HF as [|e t He _ IH]; [reflexivity|]. destruct e; try discriminate; exact IH.
Qed.

End CraOwnConfig.

Lemma cra_check_timestamp_window_witness :
  res (CraAudit._check_timestamp (Sim.env Sim.good) CraAudit.CRA_CONFIG
         (fun iso => if String.eqb iso "1970-01-12T13:46:40" then Some (1000000 # 1) else None)
         (VDict [("timestamp"%string, VStr "1970-01-12T13:46:40")])
         (Sim.start Sim.genesis)) = Ok true.
Proof.
  apply (proj1 (cra_check_timestamp_window (Sim.env Sim.good) CraAudit.CRA_CONFIG
                  (fun iso => if String.eqb iso "1970-01-12T13:46:40"
                              then Some (1000000 # 1) else None)
                  (VDict [("timestamp"%string, VStr "1970-01-12T13:46:40")])
                  (Sim.start Sim.genesis) "1970-01-12T13:46:40" (1000000 # 1)
                  eq_refl eq_refl)).
  vm_compute. discriminate.
Defined.

Lemma cra_audit_passes_iff_witness :
  res (CraAudit.perform_cra_audit
         (Sim.env (Sim.with_payload
                     (Sim.ok_json (VDict [("timestamp"%string, VStr "1970-01-12T13:46:40");
                                          ("amountWei"%string, VInt 1);
                                          ("originCountry"%string, VStr "ca")]))
                     Sim.good))
         CraAudit.CRA_CONFIG
         (fun iso => if String.eqb iso "1970-01-12T13:46:40" then Some (1000000 # 1) else None)
         "h" (Sim.start Sim.genesis)) = Ok true /\
  res (CraAudit.perform_cra_audit
         (Sim.env (Sim.with_payload (Raise Timeout) Sim.good)) CraAudit.CRA_CONFIG
         (fun _ => None) "h" (Sim.start Sim.genesis)) = Ok false.
Proof.
  split.
  - apply (proj1 (cra_audit_passes_iff _ _ _ _ _)).
    eexists. split; [reflexivity|]. repeat split.
  - exact (f_equal res
             (proj2 (cra_audit_passes_iff
                       (Sim.env (Sim.with_payload (Raise Timeout) Sim.good))
                       CraAudit.CRA_CONFIG (fun _ => None) "h" (Sim.start Sim.genesis))
                    Timeout eq_refl)).
Defined.

Lemma handle_intent_never_reads_salt_witness :
  is_salt_call (EvSignHash "h" (Ok "sig"%string)) = false.
Proof.
  exact (handle_intent_never_reads_salt
           (Sim.env (Sim.with_receipts (fun _ => 0) Sim.good)) (CRA_CONFIG None)
           (Sim.entry "h" 1) (Sim.start Sim.genesis) _ sim_first_observation_signed).
Defined.

Lemma signature_only_after_passing_audit_witness :
  res (GhostOracle.perform_cra_audit
         (Sim.env (Sim.with_receipts (fun _ => 0) Sim.good)) (CRA_CONFIG None)
         (intentHash (Sim.entry "h" 1)) (Sim.start Sim.genesis)) = Ok true.
Proof.
  exact (proj2 (proj2 (signature_only_after_passing_audit
                         (Sim.env (Sim.with_receipts (fun _ => 0) Sim.good)) (CRA_CONFIG None)
                         (Sim.entry "h" 1) (Sim.start Sim.genesis) _ _
                         sim_first_observation_signed))).
Defined.

(** ** The payload store is down *)
Section Backend.
Context {W : Type} {py : Interpreter} (env : Env W) (cfg : config).

Lemma fetch_run (h : bytes) (s : store W) :
  let url := String.append "https://your-backend.example.com/intents/" (to_hex h) in
  let reply := requests_get env url (world s) in
  GhostOracle.fetch_intent_payload env h s =
    Result (match fst reply with
            | Raise x => Raise x
            | Ok r =>
                if (400 <=? status_code r) && (status_code r <? 600)
                then Raise (HTTPError (status_code r))
                else match json_body r with
                     | Some v => Ok v
                     | None => Raise JSONDecodeError
                     end
            end)
           [EvHttpGet url (fst reply)]
           (Store (snd reply) (processed s)).
Proof.
  intros url reply. subst reply. unfold GhostOracle.fetch_intent_payload.
  fold url. unfold GhostOracle.raise_for_status, GhostOracle.json.
  rewrite bind_call. destruct (fst (requests_get env url (world s))) as [r|x]; cbn;
    [|reflexivity].
  destruct ((400 <=? status_code r) && (status_code r <? 600)); cbn; [reflexivity|].
  destruct (json_body r); reflexivity.
Qed.

(** X22.  A payload store that cannot be reached, answers with a status
    from 400 to 599, or answers with a body that is not JSON fails the
    audit before any check is entered: the audit prints that exception on
    stderr and returns [False], having made the one request. *)
Theorem backend_failure_fails_audit (h : bytes) (s : store W) (x : exn) :
  let url := String.append "https://your-backend.example.com/intents/" (to_hex h) in
  let reply := requests_get env url (world s) in
  (fst reply = Raise x \/
   (exists r, fst reply = Ok r /\ 400 <= status_code r < 600 /\
              x = HTTPError (status_code r)) \/
   (exists r, fst reply = Ok r /\ ~ 400 <= status_code r < 600 /\
              json_body r = None /\ x = JSONDecodeError)) ->
  GhostOracle.perform_cra_audit env cfg h s =
    Result (Ok false)
           [EvHttpGet url (fst reply); EvPrint stderr (MsgAuditError (to_hex h) x)]
           (Store (snd reply) (processed s)).
Proof.
  intros url reply Hcase.
  assert (Hf : res (GhostOracle.fetch_intent_payload env h s) = Raise x).
  { rewrite fetch_run. cbn [res]. fold url. fold reply.
    destruct Hcase as [->|[(r & -> & Hr & ->)|(r & -> & Hr & Hj & ->)]]; [reflexivity| |].
    - replace ((400 <=? status_code r) && (status_code r <? 600)) with true; [reflexivity|].
      symmetry. apply andb_true_intro. split; [apply Z.leb_le|apply Z.ltb_lt]; lia.
    - replace ((400 <=? status_code r) && (status_code r <? 600)) with false;
        [now rewrite Hj|].
      symmetry. apply not_true_is_false. intros Hb. apply andb_prop in Hb.
      destruct Hb as [H1 H2]. apply Z.leb_le in H1. apply Z.ltb_lt in H2. lia. }
  rewrite (audit_fetch_raises env cfg h s x Hf), fetch_run. reflexivity.
Qed.

End Backend.

Lemma backend_failure_fails_audit_witness :
  GhostOracle.perform_cra_audit
    (Sim.env (Sim.with_payload (Ok {| status_code := 503; json_body := None |}) Sim.good))
    (CRA_CONFIG None) "h" (Sim.start Sim.genesis) =
  Result (Ok false)
         [EvHttpGet "https://your-backend.example.com/intents/0x68"
            (Ok {| status_code := 503; json_body := None |});
          EvPrint stderr (MsgAuditError "0x68" (HTTPError 503))]
         (Sim.start Sim.genesis).
Proof.
  refine (backend_failure_fails_audit
            (Sim.env (Sim.with_payload (Ok {| status_code := 503; json_body := None |})
                        Sim.good))
            (CRA_CONFIG None) "h" (Sim.start Sim.genesis) (HTTPError 503) _).
  right. left. exists {| status_code := 503; json_body := None |}.
  split; [reflexivity|]. split; [cbn; lia|reflexivity].
Defined.
